(** * Financial analytics and scoring engine: model and verified properties

    A shallow embedding of the scoring core of the Financial_Agent
    repository (app/models/__init__.py, app/core/utils.py and the services
    under app/services/), followed by the properties established about it.

    Numbers.  Python [float] values are idealised as exact rationals [Q]:
    [+], [-], [*], [/] are the field operations, [==] is [Qeq], and a
    comparison in the source is the corresponding decidable comparison on
    [Q].  Rounding error, infinities and NaN are outside the model.  Python
    [int] values are [Z] or [nat] (lengths, indices, ranks).

    Errors.  A Python exception or a [None] result is [None] in the model
    wherever the source can produce one; an [Optional] field is an [option].

    Environment.  The snapshot store behind [DataLoader] is a record of
    functions; [math.sqrt], [math.log] and the [format] builtin are variables
    of the sections that need them. *)

From stdpp Require Import base option list sorting strings pretty gmap.
From Stdlib Require Import Ascii QArith Qround Qabs Lqa Lia.

Open Scope Q_scope.

(** ** Python semantics of numbers *)

Module Py.

(** [x < y] on floats. *)
Definition ltb (x y : Q) : bool :=
  (Qnum x * QDen y <? Qnum y * QDen x)%Z.

(** [x == y] on floats. *)
Definition eqb (x y : Q) : bool := Qeq_bool x y.

(** [x <= y] on floats. *)
Definition leb (x y : Q) : bool := Qle_bool x y.

(** Truth value of a float: [0.0] is falsy, everything else truthy. *)
Definition truthy (x : Q) : bool := negb (eqb x 0).

(** Truth value of an [Optional[float]]: [None] and [0.0] are falsy. *)
Definition truthy_opt (o : option Q) : bool :=
  match o with
  | None => false
  | Some x => truthy x
  end.

(** [o != 0] for an [Optional[float]]: [None != 0] is [True]. *)
Definition ne_zero_opt (o : option Q) : bool :=
  match o with
  | None => true
  | Some x => negb (eqb x 0)
  end.

(** [round(x, ndigits)]: nearest multiple of [10^-ndigits], ties to the
    even multiple. *)
Definition round_half_even (x : Q) : Z :=
  let n := Qfloor x in
  let r := x - inject_Z n in
  if ltb r (1 # 2) then n
  else if ltb (1 # 2) r then (n + 1)%Z
  else if Z.even n then n else (n + 1)%Z.

Definition round (x : Q) (ndigits : nat) : Q :=
  let scale := inject_Z (10 ^ Z.of_nat ndigits) in
  inject_Z (round_half_even (x * scale)) / scale.

(** [l[-k]] for [1 <= k]: the [k]-th element from the end; an
    [IndexError] when [k] exceeds the length. *)
Definition index_from_end {A} (l : list A) (k : nat) : option A :=
  if decide (1 <= k <= length l)%nat then l !! (length l - k)%nat else None.

(** [l[-k:]]: the last [k] elements, the whole list when it is shorter. *)
Definition last_slice {A} (l : list A) (k : nat) : list A :=
  drop (length l - k)%nat l.

(** Equality of optional floats up to [==]. *)
Definition opt_eq (a b : option Q) : Prop :=
  match a, b with
  | Some x, Some y => x == y
  | None, None => True
  | _, _ => False
  end.

End Py.

(** ** app/models/__init__.py *)

Module FinancialSnapshot.

Record t := mk {
  (* Identification *)
  stock_code : string;
  company_name : string;
  report_year : Z;
  report_season : Z;
  report_period : string;
  currency : string;
  unit : string;
  (* Balance sheet *)
  cash_and_equivalents : Q;
  accounts_receivable : Q;
  inventory : Q;
  total_assets : Q;
  total_liabilities : Q;
  equity : Q;
  (* Income statement *)
  net_revenue : Q;
  gross_profit : Q;
  operating_income : Q;
  net_income : Q;
  eps : Q;
  (* Optional fields *)
  current_assets : option Q;
  current_liabilities : option Q;
  short_term_debt : option Q;
  long_term_debt : option Q;
  retained_earnings : option Q;
  operating_cash_flow : option Q;
  investing_cash_flow : option Q;
  financing_cash_flow : option Q
}.

Definition gross_margin (s : t) : Q :=
  if Py.eqb (net_revenue s) 0 then 0
  else (gross_profit s / net_revenue s) * 100.

Definition operating_margin (s : t) : Q :=
  if Py.eqb (net_revenue s) 0 then 0
  else (operating_income s / net_revenue s) * 100.

Definition net_margin (s : t) : Q :=
  if Py.eqb (net_revenue s) 0 then 0
  else (net_income s / net_revenue s) * 100.

Definition debt_ratio (s : t) : Q :=
  if Py.eqb (total_assets s) 0 then 0
  else (total_liabilities s / total_assets s) * 100.


Definition current_ratio (s : t) : option Q :=
  if Py.truthy_opt (current_assets s)
     && Py.truthy_opt (current_liabilities s)
     && Py.ne_zero_opt (current_liabilities s)
  then ca ← current_assets s; cl ← current_liabilities s; Some (ca / cl)
  else None.

Definition roa (s : t) : Q :=
  if Py.eqb (total_assets s) 0 then 0
  else
    let quarterly_roa := (net_income s / total_assets s) * 100 in
    quarterly_roa * 4.

Definition roe (s : t) : Q :=
  if Py.eqb (equity s) 0 then 0
  else
    let quarterly_roe := (net_income s / equity s) * 100 in
    quarterly_roe * 4.

End FinancialSnapshot.

(** [Field(..., ge=0, le=100)]: the range check run by the constructor. *)
Definition in_score_range (x : Q) : bool := Py.leb 0 x && Py.leb x 100.

Module ManagementScore.

Record t := mk {
  tenure_stability : Q;
  board_independence : Q;
  insider_alignment : Q;
  governance_red_flags : Q;
  commentary : string;
  details : gmap string (option Q)
}.

(** The validating constructor: [None] stands for a [ValidationError]. *)
Definition make (ts bi ia grf : Q) (c : string) (d : gmap string (option Q))
  : option t :=
  if in_score_range ts && in_score_range bi
     && in_score_range ia && in_score_range grf
  then Some (mk ts bi ia grf c d)
  else None.

Definition total (s : t) : Q :=
  0.25 * tenure_stability s +
  0.25 * board_independence s +
  0.25 * insider_alignment s +
  0.25 * governance_red_flags s.

End ManagementScore.

Module EarningsQualityScore.

Record t := mk {
  accrual_quality : Q;
  working_capital_behavior : Q;
  one_off_dependency : Q;
  earnings_stability : Q;
  red_flags : list string;
  commentary : string;
  details : gmap string (option Q)
}.

Definition make (aq wcb ood es : Q) (rf : list string) (c : string)
    (d : gmap string (option Q)) : option t :=
  if in_score_range aq && in_score_range wcb
     && in_score_range ood && in_score_range es
  then Some (mk aq wcb ood es rf c d)
  else None.

Definition total (s : t) : Q :=
  0.25 * accrual_quality s +
  0.25 * working_capital_behavior s +
  0.25 * one_off_dependency s +
  0.25 * earnings_stability s.

End EarningsQualityScore.

Module ROICWACCAnalysis.

Record t := mk {
  nopat : Q;
  invested_capital : Q;
  roic : Q;
  cost_of_equity : Q;
  cost_of_debt : Q;
  wacc : Q;
  commentary : string;
  assumptions : gmap string (option Q)
}.

Definition value_creation_gap (a : t) : Q := roic a - wacc a.

Definition is_value_creating (a : t) : bool := Py.ltb (wacc a) (roic a).

End ROICWACCAnalysis.

Module FactorExposures.

Record t := mk {
  quality : Q;
  value : Q;
  momentum : Q;
  size : Q;
  volatility : Q;
  commentary : string;
  details : gmap string (option Q)
}.

End FactorExposures.

Module EarlyWarningSignal.

Record t := mk {
  signal_name : string;
  severity : string;
  current_value : Q;
  threshold_value : Q;
  description : string
}.

End EarlyWarningSignal.

Module EarlyWarningSystem.

Record t := mk {
  warning_level : string;
  triggered_signals : list EarlyWarningSignal.t;
  recommendation : string;
  commentary : string
}.

Definition signal_count (e : t) : nat := length (triggered_signals e).

End EarlyWarningSystem.

Module TrendMetric.

Record t := mk {
  metric_name : string;
  periods : list string;
  values : list Q
}.

(** [all(cmp(recent[i], recent[i-1]) for i in range(1, len(recent)))];
    both indices are inside the list for every [i] of that range. *)
Definition all_steps (cmp : Q -> Q -> bool) (recent : list Q) : bool :=
  forallb
    (fun i : nat =>
       match recent !! i, recent !! (i - 1)%nat with
       | Some a, Some b => cmp a b
       | _, _ => false
       end)
    (seq 1 (length recent - 1)).

Definition trend_direction (m : t) : string :=
  if decide (length (values m) < 2)%nat then "insufficient_data"
  else
    let recent :=
      if decide (3 <= length (values m))%nat
      then Py.last_slice (values m) 3
      else values m in
    if all_steps (fun a b => Py.ltb b a) recent then "improving"
    else if all_steps (fun a b => Py.ltb a b) recent then "declining"
    else "stable".

Definition latest_value (m : t) : option Q :=
  match values m with
  | [] => None
  | _ => Py.index_from_end (values m) 1
  end.

Definition yoy_change (m : t) : option Q :=
  if decide (4 <= length (values m))%nat then
    current ← Py.index_from_end (values m) 1;
    year_ago ←
      (if decide (5 <= length (values m))%nat
       then Py.index_from_end (values m) 5
       else Py.index_from_end (values m) 4);
    if negb (Py.eqb year_ago 0)
    then Some (((current - year_ago) / year_ago) * 100)
    else None
  else None.

End TrendMetric.

Module TrendAnalysis.

Record t := mk {
  stock_code : string;
  company_name : string;
  metrics : list TrendMetric.t;
  summary : string
}.

End TrendAnalysis.

Module CapitalAllocationAnalysis.

Record t := mk {
  period : string;
  dividends : Q;
  buybacks : Q;
  capex : Q;
  rd_expense : Q;
  debt_change : Q;
  ma_spending : Q;
  commentary : string;
  allocation_mix : gmap string Q
}.

Definition total_shareholder_returns (a : t) : Q :=
  dividends a + buybacks a.

Definition total_investment (a : t) : Q :=
  capex a + rd_expense a + ma_spending a.

End CapitalAllocationAnalysis.

(** The builtins [max], [min] and [list.index] on lists of floats. *)
Module PyList.

(** [max(l)]: the first maximal item; [None] is the [ValueError] on an
    empty list. *)
Definition max (l : list Q) : option Q :=
  match l with
  | [] => None
  | x :: xs => Some (fold_left (fun m y => if Py.ltb m y then y else m) xs x)
  end.

Definition min (l : list Q) : option Q :=
  match l with
  | [] => None
  | x :: xs => Some (fold_left (fun m y => if Py.ltb y m then y else m) xs x)
  end.

(** [l.index(v)]: the first position holding a value equal to [v];
    [None] is the [ValueError] when there is none. *)
Fixpoint index (l : list Q) (v : Q) : option nat :=
  match l with
  | [] => None
  | x :: xs => if Py.eqb x v then Some 0%nat else S <$> index xs v
  end.

(** [max(l, key=key)] with integer keys: the first item whose key is
    maximal; [None] is the [ValueError] on an empty list. *)
Definition max_by_key {A} (key : A -> nat) (l : list A) : option A :=
  match l with
  | [] => None
  | x :: xs =>
      Some (fold_left (fun m y => if (key m <? key y)%nat then y else m) xs x)
  end.

End PyList.

Module PeerComparison.

Record t := mk {
  metric_name : string;
  companies : list string;
  values : list Q;
  ranking : list nat
}.

(** [None] is an escaping [IndexError] (fewer companies than values). *)
Definition best_performer (p : t) : option string :=
  match values p with
  | [] => Some "N/A"
  | _ =>
      m ← PyList.max (values p);
      best_idx ← PyList.index (values p) m;
      companies p !! best_idx
  end.

Definition worst_performer (p : t) : option string :=
  match values p with
  | [] => Some "N/A"
  | _ =>
      m ← PyList.min (values p);
      worst_idx ← PyList.index (values p) m;
      companies p !! worst_idx
  end.

End PeerComparison.

Module PeerAnalysis.

Record t := mk {
  period : string;
  comparisons : list PeerComparison.t;
  summary : string
}.

End PeerAnalysis.

(** ** String builtins used by the commentary generators *)

Module PyStr.

Definition upper_ascii (c : ascii) : ascii :=
  let n := nat_of_ascii c in
  if (97 <=? n)%nat && (n <=? 122)%nat then ascii_of_nat (n - 32) else c.

Definition lower_ascii (c : ascii) : ascii :=
  let n := nat_of_ascii c in
  if (65 <=? n)%nat && (n <=? 90)%nat then ascii_of_nat (n + 32) else c.

Fixpoint lower (s : string) : string :=
  match s with
  | EmptyString => EmptyString
  | String c r => String (lower_ascii c) (lower r)
  end.

Fixpoint upper (s : string) : string :=
  match s with
  | EmptyString => EmptyString
  | String c r => String (upper_ascii c) (upper r)
  end.

(** [s.capitalize()] on ASCII text. *)
Definition capitalize (s : string) : string :=
  match s with
  | EmptyString => EmptyString
  | String c r => String (upper_ascii c) (lower r)
  end.

(** [sep.join(parts)] *)
Definition join (sep : string) (parts : list string) : string :=
  String.concat sep parts.

(** [sub in s]: [sub] occurs in [s] as a substring. *)
Fixpoint isin (sub s : string) : bool :=
  String.prefix sub s
  || match s with
     | EmptyString => false
     | String _ rest => isin sub rest
     end.

End PyStr.

(** ** app/core/utils.py *)

Definition calculate_z_score (value mean std_dev : Q) : Q :=
  if Py.eqb std_dev 0 then 0.0
  else (value - mean) / std_dev.

Definition safe_divide (numerator denominator default : Q) : Q :=
  if Py.eqb denominator 0 then default
  else numerator / denominator.

Definition calculate_growth_rate (current previous : Q) : Q :=
  if Py.eqb previous 0 then 0.0
  else ((current - previous) / previous) * 100.

(** ** app/core/config.py: the thresholds and assumptions of [Settings] *)

Module Settings.

Record t := mk {
  management_tenure_good : Z;
  management_tenure_excellent : Z;
  board_independence_threshold : Q;
  accrual_ratio_threshold : Q;
  working_capital_spike_threshold : Q;
  one_off_income_threshold : Q;
  ews_receivable_spike_threshold : Q;
  ews_inventory_spike_threshold : Q;
  ews_margin_compression_threshold : Q;
  ews_debt_ratio_critical : Q;
  default_risk_free_rate : Q;
  default_market_risk_premium : Q;
  default_beta : Q;
  default_tax_rate : Q
}.

(** The values [Settings()] takes when the environment overrides none. *)
Definition defaults : t :=
  {| management_tenure_good := 3;
     management_tenure_excellent := 5;
     board_independence_threshold := 0.3;
     accrual_ratio_threshold := 0.1;
     working_capital_spike_threshold := 0.15;
     one_off_income_threshold := 0.2;
     ews_receivable_spike_threshold := 0.2;
     ews_inventory_spike_threshold := 0.2;
     ews_margin_compression_threshold := -0.05;
     ews_debt_ratio_critical := 0.7;
     default_risk_free_rate := 0.02;
     default_market_risk_premium := 0.06;
     default_beta := 1.0;
     default_tax_rate := 0.2 |}.

End Settings.

(** ** app/core/data_loader.py

    The files under [financial_data_path] are the environment of every
    service: what [load_snapshot] finds for a stock code and a period, and
    the stock codes and periods that have a file. *)

Module DataLoader.

Record t := mk {
  load_snapshot : string -> string -> option FinancialSnapshot.t;
  list_available_periods : string -> list string;
  list_all_stocks : list string
}.

Definition load_multiple_periods (dl : t) (stock_code : string)
    (periods : list string) : list FinancialSnapshot.t :=
  omap (fun period => load_snapshot dl stock_code period) periods.

End DataLoader.

(** ** The [statistics] module

    [mean] and [stdev] raise [StatisticsError] on too few data points; the
    square root is the one of the section. *)

Module Statistics.

Definition fsum (l : list Q) : Q := foldr Qplus 0 l.

Definition of_len {A} (l : list A) : Q := inject_Z (Z.of_nat (length l)).

Definition mean (data : list Q) : option Q :=
  match data with
  | [] => None
  | _ => Some (fsum data / of_len data)
  end.

Definition variance (data : list Q) : option Q :=
  if decide (length data < 2)%nat then None
  else
    xbar ← mean data;
    Some (fsum ((fun x => (x - xbar) * (x - xbar)) <$> data)
          / (of_len data - 1)).

Section Stdev.
Variable sqrt : Q -> Q.

Definition stdev (data : list Q) : option Q :=
  sqrt <$> variance data.
End Stdev.

End Statistics.

(** ** app/services/ews_service.py *)

Module EarlyWarningService.

(** [sum(1 for s in signals if s.severity == sev)] *)
Definition severity_count (sev : string) (signals : list EarlyWarningSignal.t)
  : nat :=
  foldr (fun s acc =>
           if String.eqb (EarlyWarningSignal.severity s) sev
           then (1 + acc)%nat else acc)
        0%nat signals.

Definition _determine_warning_level (signals : list EarlyWarningSignal.t)
  : string :=
  match signals with
  | [] => "none"
  | _ =>
      let critical_count := severity_count "critical" signals in
      let high_count := severity_count "high" signals in
      let medium_count := severity_count "medium" signals in
      if (0 <? critical_count)%nat then "critical"
      else if (2 <=? high_count)%nat then "high"
      else if (1 <=? high_count)%nat then "high"
      else if (3 <=? medium_count)%nat then "medium"
      else if (1 <=? medium_count)%nat then "low"
      else "low"
  end.

Definition _generate_recommendations (signals : list EarlyWarningSignal.t)
    (level : string) : string :=
  if String.eqb level "critical" then
    "URGENT: Immediate review required. Consider reducing position or exiting. High risk of financial distress."
  else if String.eqb level "high" then
    "Closely monitor position. Conduct deep-dive analysis. Consider reducing exposure."
  else if String.eqb level "medium" then
    "Watch list. Monitor next quarter results. Prepare contingency plans."
  else if String.eqb level "low" then
    "Minor concerns identified. Continue regular monitoring."
  else
    "No significant concerns. Maintain current monitoring cadence.".

Section WithEnv.
(** [format_f n x] is the text of [f"{x:.nf}"]. *)
Variable format_f : nat -> Q -> string.
Variable settings : Settings.t.
Variable data_loader : DataLoader.t.

Import FinancialSnapshot.

(** [sum(f(s) for s in historical[-3:]) / min(3, len(historical))] *)
Definition recent_average (f : FinancialSnapshot.t -> Q)
    (historical : list FinancialSnapshot.t) : Q :=
  Statistics.fsum (f <$> Py.last_slice historical 3)
  / inject_Z (Z.of_nat (min 3 (length historical))).

Definition _check_receivables_spike (current : FinancialSnapshot.t)
    (historical : list FinancialSnapshot.t) : list EarlyWarningSignal.t :=
  match Py.index_from_end historical 1 with
  | None => []  (* len(historical) < 1 *)
  | Some previous =>
      let revenue_growth :=
        calculate_growth_rate (net_revenue current) (net_revenue previous) in
      let receivable_growth :=
        calculate_growth_rate (accounts_receivable current)
                              (accounts_receivable previous) in
      let threshold := Settings.ews_receivable_spike_threshold settings * 100 in
      if Py.ltb (revenue_growth + threshold) receivable_growth then
        [ {| EarlyWarningSignal.signal_name := "Accounts Receivable Spike";
             EarlyWarningSignal.severity := "medium";
             EarlyWarningSignal.current_value := receivable_growth;
             EarlyWarningSignal.threshold_value := revenue_growth + threshold;
             EarlyWarningSignal.description :=
               "AR growing at " +:+ format_f 1 receivable_growth
               +:+ "% vs revenue " +:+ format_f 1 revenue_growth
               +:+ "%. May indicate revenue recognition issues or collection problems." |} ]
      else []
  end.

Definition _check_inventory_spike (current : FinancialSnapshot.t)
    (historical : list FinancialSnapshot.t) : list EarlyWarningSignal.t :=
  match Py.index_from_end historical 1 with
  | None => []  (* len(historical) < 1 *)
  | Some previous =>
      let revenue_growth :=
        calculate_growth_rate (net_revenue current) (net_revenue previous) in
      let inventory_growth :=
        calculate_growth_rate (inventory current) (inventory previous) in
      let threshold := Settings.ews_inventory_spike_threshold settings * 100 in
      if Py.ltb (revenue_growth + threshold) inventory_growth then
        [ {| EarlyWarningSignal.signal_name := "Inventory Buildup";
             EarlyWarningSignal.severity := "medium";
             EarlyWarningSignal.current_value := inventory_growth;
             EarlyWarningSignal.threshold_value := revenue_growth + threshold;
             EarlyWarningSignal.description :=
               "Inventory growing at " +:+ format_f 1 inventory_growth
               +:+ "% vs revenue " +:+ format_f 1 revenue_growth
               +:+ "%. May indicate slowing demand or obsolescence risk." |} ]
      else []
  end.

Definition _check_margin_compression (current : FinancialSnapshot.t)
    (historical : list FinancialSnapshot.t) : list EarlyWarningSignal.t :=
  if decide (length historical < 2)%nat then []
  else
    (* Compare with average of last 2-3 periods *)
    let avg_margin := recent_average operating_margin historical in
    let margin_change := operating_margin current - avg_margin in
    let threshold := Settings.ews_margin_compression_threshold settings * 100 in
    if Py.ltb margin_change threshold then
      let severity :=
        if Py.ltb margin_change (threshold * 2) then "high" else "medium" in
      [ {| EarlyWarningSignal.signal_name := "Margin Compression";
           EarlyWarningSignal.severity := severity;
           EarlyWarningSignal.current_value := operating_margin current;
           EarlyWarningSignal.threshold_value := avg_margin + threshold;
           EarlyWarningSignal.description :=
             "Operating margin declined to "
             +:+ format_f 1 (operating_margin current)
             +:+ "% from avg " +:+ format_f 1 avg_margin
             +:+ "%. Indicates pricing pressure or cost inflation." |} ]
    else [].

Definition _check_leverage_deterioration (current : FinancialSnapshot.t)
  : list EarlyWarningSignal.t :=
  let debt_ratio := debt_ratio current / 100 in
  let threshold := Settings.ews_debt_ratio_critical settings in
  if Py.leb threshold debt_ratio then
    let severity := if Py.leb 0.8 debt_ratio then "critical" else "high" in
    [ {| EarlyWarningSignal.signal_name := "High Leverage";
         EarlyWarningSignal.severity := severity;
         EarlyWarningSignal.current_value := debt_ratio * 100;
         EarlyWarningSignal.threshold_value := threshold * 100;
         EarlyWarningSignal.description :=
           "Debt ratio at " +:+ format_f 1 (debt_ratio * 100)
           +:+ "% exceeds safe threshold. Financial distress risk." |} ]
  else [].

Definition _check_cash_burn (current : FinancialSnapshot.t)
    (historical : list FinancialSnapshot.t) : list EarlyWarningSignal.t :=
  if decide (length historical < 2)%nat then []
  else
    (* Check if cash declining significantly *)
    let avg_cash := recent_average cash_and_equivalents historical in
    let cash_decline_pct :=
      if Py.ltb 0 avg_cash
      then ((cash_and_equivalents current - avg_cash) / avg_cash) * 100
      else 0 in
    if Py.ltb cash_decline_pct (-30) then
      let severity :=
        if Py.ltb cash_decline_pct (-50) then "high" else "medium" in
      [ {| EarlyWarningSignal.signal_name := "Cash Depletion";
           EarlyWarningSignal.severity := severity;
           EarlyWarningSignal.current_value := cash_decline_pct;
           EarlyWarningSignal.threshold_value := -30.0;
           EarlyWarningSignal.description :=
             "Cash declined " +:+ format_f 1 (Qabs cash_decline_pct)
             +:+ "%. Liquidity concern." |} ]
    else [].

Definition _check_negative_cash_flow (current : FinancialSnapshot.t)
  : list EarlyWarningSignal.t :=
  match operating_cash_flow current with
  | Some ocf =>
      if Py.truthy ocf && Py.ltb ocf 0 then
        [ {| EarlyWarningSignal.signal_name := "Negative Operating Cash Flow";
             EarlyWarningSignal.severity := "high";
             EarlyWarningSignal.current_value := ocf;
             EarlyWarningSignal.threshold_value := 0.0;
             EarlyWarningSignal.description :=
               "Negative operating cash flow. Company burning cash from operations." |} ]
      else []
  | None => []
  end.

Definition _generate_commentary (signals : list EarlyWarningSignal.t)
    (level : string) : string :=
  match signals with
  | [] => "No early warning signals detected. Financial health appears stable."
  | _ =>
      let signal_names := EarlyWarningSignal.signal_name <$> signals in
      "Warning level: " +:+ PyStr.upper level +:+ ". Detected "
      +:+ pretty (length signals) +:+ " signal(s): "
      +:+ PyStr.join ", " signal_names
      +:+ ". Recommend detailed investigation."
  end.

(** The signals of the six detection rules, in the order they are run. *)
Definition run_rules (current : FinancialSnapshot.t)
    (historical : list FinancialSnapshot.t) : list EarlyWarningSignal.t :=
  _check_receivables_spike current historical
  ++ _check_inventory_spike current historical
  ++ _check_margin_compression current historical
  ++ _check_leverage_deterioration current
  ++ _check_cash_burn current historical
  ++ _check_negative_cash_flow current.

Definition detect_warnings (stock_code period : string)
    (historical_periods : option (list string))
  : option EarlyWarningSystem.t :=
  (* Load current snapshot *)
  current ← DataLoader.load_snapshot data_loader stock_code period;
  (* Load historical data *)
  let historical_periods :=
    match historical_periods with
    | Some periods => periods
    | None =>
        let all_periods :=
          DataLoader.list_available_periods data_loader stock_code in
        if decide (2 <= length all_periods)%nat
        then Py.last_slice all_periods 5 else []
    end in
  let historical :=
    DataLoader.load_multiple_periods data_loader stock_code historical_periods in
  let signals := run_rules current historical in
  let warning_level := _determine_warning_level signals in
  let recommendation := _generate_recommendations signals warning_level in
  let commentary := _generate_commentary signals warning_level in
  Some {| EarlyWarningSystem.warning_level := warning_level;
          EarlyWarningSystem.triggered_signals := signals;
          EarlyWarningSystem.recommendation := recommendation;
          EarlyWarningSystem.commentary := commentary |}.

End WithEnv.

End EarlyWarningService.


(** ** app/services/factor_service.py *)

Module FactorService.

Import FinancialSnapshot.

Definition _generate_commentary (quality value momentum size volatility : Q)
  : string :=
  let parts : list string := [] in
  (* Quality *)
  let parts :=
    if Py.ltb 1.5 quality then parts ++ ["Strong quality profile"]
    else if Py.ltb 0.5 quality then parts ++ ["Above-average quality"]
    else if Py.ltb quality (-1.5) then parts ++ ["Weak quality profile"]
    else if Py.ltb quality (-0.5) then parts ++ ["Below-average quality"]
    else parts in
  (* Value *)
  let parts :=
    if Py.ltb 1.0 value then parts ++ ["attractive valuation"]
    else if Py.ltb value (-1.0) then parts ++ ["expensive valuation"]
    else parts in
  (* Momentum *)
  let parts :=
    if Py.ltb 1.0 momentum then parts ++ ["strong momentum"]
    else if Py.ltb momentum (-1.0) then parts ++ ["weak momentum"]
    else parts in
  (* Size *)
  let parts :=
    if Py.ltb 1.5 size then parts ++ ["large cap"]
    else if Py.ltb size (-1.5) then parts ++ ["small cap"]
    else parts ++ ["mid cap"] in
  (* Volatility *)
  let parts :=
    if Py.ltb 1.0 volatility then parts ++ ["higher volatility/risk"]
    else if Py.ltb volatility (-1.0) then parts ++ ["lower volatility/risk"]
    else parts in
  match parts with
  | [] => "Neutral factor profile across dimensions"
  | _ => PyStr.join ". " (PyStr.capitalize <$> parts) +:+ "."
  end.

Section WithMath.
(** [math.sqrt] (inside [statistics.stdev]) and [math.log]. *)
Variables sqrt log : Q -> Q.

Definition quality_score (s : FinancialSnapshot.t) : Q :=
  roe s + operating_margin s - (debt_ratio s / 2).

Definition _calculate_quality_factor (target : FinancialSnapshot.t)
    (peers : list FinancialSnapshot.t) : option Q :=
  let target_score := quality_score target in
  let peer_scores := quality_score <$> peers in
  mean_score ← Statistics.mean peer_scores;
  std_score ←
    (if decide (1 < length peer_scores)%nat
     then Statistics.stdev sqrt peer_scores else Some 1.0);
  Some (calculate_z_score target_score mean_score std_score).

Definition _calculate_value_factor (target : FinancialSnapshot.t)
    (peers : list FinancialSnapshot.t) : option Q :=
  let target_eps := eps target in
  let peer_eps := eps <$> List.filter (fun p => Py.ltb 0 (eps p)) peers in
  match peer_eps with
  | [] => Some 0.0
  | _ =>
      mean_eps ← Statistics.mean peer_eps;
      std_eps ←
        (if decide (1 < length peer_eps)%nat
         then Statistics.stdev sqrt peer_eps else Some 1.0);
      Some (calculate_z_score target_eps mean_eps std_eps)
  end.

Definition _calculate_momentum_factor (target : FinancialSnapshot.t)
    (peers : list FinancialSnapshot.t) : option Q :=
  let target_margin := net_margin target in
  let peer_margins := net_margin <$> peers in
  mean_margin ← Statistics.mean peer_margins;
  std_margin ←
    (if decide (1 < length peer_margins)%nat
     then Statistics.stdev sqrt peer_margins else Some 1.0);
  Some (calculate_z_score target_margin mean_margin std_margin).

Definition log_size (s : FinancialSnapshot.t) : Q :=
  if Py.ltb 0 (total_assets s) then log (total_assets s) else 0.

Definition _calculate_size_factor (target : FinancialSnapshot.t)
    (peers : list FinancialSnapshot.t) : option Q :=
  let target_size := log_size target in
  let peer_sizes := log_size <$> peers in
  mean_size ← Statistics.mean peer_sizes;
  std_size ←
    (if decide (1 < length peer_sizes)%nat
     then Statistics.stdev sqrt peer_sizes else Some 1.0);
  Some (calculate_z_score target_size mean_size std_size).

Definition _calculate_volatility_factor (target : FinancialSnapshot.t)
    (peers : list FinancialSnapshot.t) : option Q :=
  let target_debt := debt_ratio target in
  let peer_debts := debt_ratio <$> peers in
  mean_debt ← Statistics.mean peer_debts;
  std_debt ←
    (if decide (1 < length peer_debts)%nat
     then Statistics.stdev sqrt peer_debts else Some 1.0);
  Some (calculate_z_score target_debt mean_debt std_debt).

Variable data_loader : DataLoader.t.

(** The peer snapshots [calculate_exposures] ends up comparing against. *)
Definition load_peers (stock_code period : string)
    (peer_stocks : option (list string)) : list FinancialSnapshot.t :=
  let universe :=
    take 20 (List.filter (fun s => negb (String.eqb s stock_code))
                         (DataLoader.list_all_stocks data_loader)) in
  let peer_stocks :=
    match peer_stocks with
    | None => universe
    | Some ps => if decide (length ps < 3)%nat then universe else ps
    end in
  omap (fun peer_code => DataLoader.load_snapshot data_loader peer_code period)
       peer_stocks.

Definition calculate_exposures (stock_code period : string)
    (peer_stocks : option (list string)) : option FactorExposures.t :=
  target ← DataLoader.load_snapshot data_loader stock_code period;
  let peers := load_peers stock_code period peer_stocks in
  if decide (length peers < 3)%nat then None
  else
    quality_z ← _calculate_quality_factor target peers;
    value_z ← _calculate_value_factor target peers;
    momentum_z ← _calculate_momentum_factor target peers;
    size_z ← _calculate_size_factor target peers;
    volatility_z ← _calculate_volatility_factor target peers;
    let commentary :=
      _generate_commentary quality_z value_z momentum_z size_z volatility_z in
    let details : gmap string (option Q) :=
      <["target_total_assets" := Some (total_assets target)]>
        (<["target_roe" := Some (roe target)]>
           (<["peer_count" := Some (Statistics.of_len peers)]> ∅)) in
    Some {| FactorExposures.quality := Py.round quality_z 2;
            FactorExposures.value := Py.round value_z 2;
            FactorExposures.momentum := Py.round momentum_z 2;
            FactorExposures.size := Py.round size_z 2;
            FactorExposures.volatility := Py.round volatility_z 2;
            FactorExposures.commentary := commentary;
            FactorExposures.details := details |}.

End WithMath.

End FactorService.

(** ** app/services/roic_wacc_service.py *)

Module ROICWACCService.

Import FinancialSnapshot.

Section WithEnv.
(** [format_f n x] is the text of [f"{x:.nf}"]. *)
Variable format_f : nat -> Q -> string.
Variable settings : Settings.t.
Variable data_loader : DataLoader.t.

Definition _calculate_nopat (snapshot : FinancialSnapshot.t) (tax_rate : Q)
  : Q :=
  operating_income snapshot * (1 - tax_rate).

Definition _calculate_invested_capital (snapshot : FinancialSnapshot.t) : Q :=
  equity snapshot + total_liabilities snapshot.

Definition _calculate_cost_of_equity (beta : Q) : Q :=
  let rf := Settings.default_risk_free_rate settings in
  let mrp := Settings.default_market_risk_premium settings in
  rf + beta * mrp.

Definition _estimate_cost_of_debt (snapshot : FinancialSnapshot.t) : Q :=
  let debt_ratio := debt_ratio snapshot / 100 in
  let base_rate := 0.03 in
  let leverage_spread := debt_ratio * 0.05 in
  base_rate + leverage_spread.

Definition _generate_commentary (roic wacc : Q)
    (snapshot : FinancialSnapshot.t) : string :=
  let spread := roic - wacc in
  let parts : list string := [] in
  (* Value creation assessment *)
  let parts :=
    if Py.ltb 5 spread then
      parts ++ ["Strong value creation: ROIC (" +:+ format_f 1 roic
                +:+ "%) significantly exceeds WACC (" +:+ format_f 1 wacc
                +:+ "%)"]
    else if Py.ltb 2 spread then
      parts ++ ["Positive value creation: ROIC (" +:+ format_f 1 roic
                +:+ "%) above WACC (" +:+ format_f 1 wacc +:+ "%)"]
    else if Py.ltb 0 spread then
      parts ++ ["Marginal value creation: ROIC (" +:+ format_f 1 roic
                +:+ "%) slightly above WACC (" +:+ format_f 1 wacc +:+ "%)"]
    else if Py.ltb (-2) spread then
      parts ++ ["Value neutral: ROIC (" +:+ format_f 1 roic
                +:+ "%) near WACC (" +:+ format_f 1 wacc +:+ "%)"]
    else
      parts ++ ["Value destruction: ROIC (" +:+ format_f 1 roic
                +:+ "%) below WACC (" +:+ format_f 1 wacc +:+ "%)"] in
  (* Capital efficiency *)
  let parts :=
    if Py.leb 15 roic then parts ++ ["Highly efficient capital allocation"]
    else if Py.leb 10 roic then parts ++ ["Good capital efficiency"]
    else if Py.leb 5 roic then parts ++ ["Moderate capital efficiency"]
    else parts ++ ["Poor capital efficiency"] in
  (* Leverage commentary *)
  let debt_ratio := debt_ratio snapshot in
  let parts :=
    if Py.ltb 60 debt_ratio then
      parts ++ ["High leverage (" +:+ format_f 0 debt_ratio
                +:+ "%) increases WACC"]
    else if Py.ltb debt_ratio 30 then
      parts ++ ["Conservative capital structure (" +:+ format_f 0 debt_ratio
                +:+ "%)"]
    else parts in
  PyStr.join ". " parts +:+ ".".

Definition analyze (stock_code period : string)
    (market_beta cost_of_debt tax_rate : option Q)
  : option ROICWACCAnalysis.t :=
  snapshot ← DataLoader.load_snapshot data_loader stock_code period;
  (* Use defaults if not provided *)
  let market_beta := default (Settings.default_beta settings) market_beta in
  let tax_rate := default (Settings.default_tax_rate settings) tax_rate in
  (* Calculate ROIC components *)
  let nopat := _calculate_nopat snapshot tax_rate in
  let invested_capital := _calculate_invested_capital snapshot in
  let roic := safe_divide nopat invested_capital 0.0 * 100 in
  (* Calculate WACC components *)
  let cost_of_equity := _calculate_cost_of_equity market_beta in
  let cost_of_debt := default (_estimate_cost_of_debt snapshot) cost_of_debt in
  let after_tax_cost_of_debt := cost_of_debt * (1 - tax_rate) in
  (* Calculate WACC *)
  let total_capital := equity snapshot + total_liabilities snapshot in
  let equity_weight := safe_divide (equity snapshot) total_capital 0.0 in
  let debt_weight := safe_divide (total_liabilities snapshot) total_capital 0.0 in
  let wacc :=
    (equity_weight * cost_of_equity + debt_weight * after_tax_cost_of_debt)
    * 100 in
  let commentary := _generate_commentary roic wacc snapshot in
  let assumptions : gmap string (option Q) :=
    list_to_map
      [ ("beta", Some market_beta);
        ("risk_free_rate", Some (Settings.default_risk_free_rate settings * 100));
        ("market_risk_premium",
         Some (Settings.default_market_risk_premium settings * 100));
        ("tax_rate", Some (tax_rate * 100));
        ("cost_of_debt_pretax", Some (cost_of_debt * 100));
        ("equity_weight", Some (equity_weight * 100));
        ("debt_weight", Some (debt_weight * 100)) ] in
  Some {| ROICWACCAnalysis.nopat := Py.round nopat 2;
          ROICWACCAnalysis.invested_capital := Py.round invested_capital 2;
          ROICWACCAnalysis.roic := Py.round roic 2;
          ROICWACCAnalysis.cost_of_equity := Py.round (cost_of_equity * 100) 2;
          ROICWACCAnalysis.cost_of_debt :=
            Py.round (after_tax_cost_of_debt * 100) 2;
          ROICWACCAnalysis.wacc := Py.round wacc 2;
          ROICWACCAnalysis.commentary := commentary;
          ROICWACCAnalysis.assumptions := assumptions |}.

End WithEnv.

End ROICWACCService.

(** ** The builtins [sorted] and [enumerate] *)

Module PySort.

(** [enumerate(l, start)] *)
Definition enumerate {A} (start : nat) (l : list A) : list (nat * A) :=
  zip (seq start (length l)) l.

Section Sorted.
Context {A : Type}.
Variable key : A -> Q.
Variable reverse : bool.

(** [goes_before a b]: the sort must place [a] before [b] whatever their
    positions in the input, as decided by [<] on the keys alone
    (the only comparison [sorted] uses). *)
Definition goes_before (a b : A) : bool :=
  if reverse then Py.ltb (key b) (key a) else Py.ltb (key a) (key b).

(** Insertion of [x], which precedes every element of [l] in the input,
    in front of the first element that need not go before it. *)
Fixpoint insert (x : A) (l : list A) : list A :=
  match l with
  | [] => [x]
  | y :: ys => if goes_before y x then y :: insert x ys else x :: y :: ys
  end.

(** [sorted(l, key=key, reverse=reverse)]: the stable sort. *)
Definition sorted (l : list A) : list A := foldr insert [] l.

End Sorted.

Section SortedByText.
Context {A : Type}.
Variable key : A -> string.

(** The same insertion for keys that are strings, compared as Python
    compares [str] (character by character, then by length). *)
Fixpoint insert_text (x : A) (l : list A) : list A :=
  match l with
  | [] => [x]
  | y :: ys =>
      if String.ltb (key y) (key x) then y :: insert_text x ys
      else x :: y :: ys
  end.

(** [sorted(l, key=key)] and [l.sort(key=key)] for string keys. *)
Definition sorted_text (l : list A) : list A := foldr insert_text [] l.

End SortedByText.

End PySort.

(** ** app/services/peer_service.py *)

Module PeerService.

(** [l[i] = x]; [None] is the [IndexError] out of range. *)
Definition setitem {A} (l : list A) (i : nat) (x : A) : option (list A) :=
  if decide (i < length l)%nat then Some (<[i := x]> l) else None.

(** The loop [for rank, (idx, _) in enumerate(sorted_values, start=1):
    ranking[idx] = rank]. *)
Definition assign_ranks (sorted_values : list (nat * Q)) (ranking : list nat)
  : option (list nat) :=
  fold_left
    (fun acc item =>
       let '(rank, (idx, _)) := item in
       ranking ← acc; setitem ranking idx rank)
    (PySort.enumerate 1 sorted_values)
    (Some ranking).

Definition _compare_metric (metric_name : string)
    (snapshots : list FinancialSnapshot.t)
    (extractor : FinancialSnapshot.t -> Q) (higher_is_better : bool)
  : option PeerComparison.t :=
  let companies := FinancialSnapshot.company_name <$> snapshots in
  let values := extractor <$> snapshots in
  (* Calculate rankings (1 = best) *)
  let sorted_values :=
    if higher_is_better
    then PySort.sorted snd true (PySort.enumerate 0 values)
    else PySort.sorted snd false (PySort.enumerate 0 values) in
  ranking ← assign_ranks sorted_values (replicate (length values) 0%nat);
  Some {| PeerComparison.metric_name := metric_name;
          PeerComparison.companies := companies;
          PeerComparison.values := values;
          PeerComparison.ranking := ranking |}.

(** A [dict] from stock codes to counts, as the list of its items in
    insertion order: [d[k] = v] keeps the place of a key that is there and
    puts a new key last. *)
Fixpoint dict_set (d : list (string * nat)) (k : string) (v : nat)
  : list (string * nat) :=
  match d with
  | [] => [(k, v)]
  | (k', v') :: rest =>
      if String.eqb k' k then (k', v) :: rest
      else (k', v') :: dict_set rest k v
  end.

(** [d.get(k, default)] *)
Definition dict_get (d : list (string * nat)) (k : string) (default : nat)
  : nat :=
  match List.find (fun item => String.eqb (fst item) k) d with
  | Some item => snd item
  | None => default
  end.

(** The inner loop of [_generate_summary]: the first code that contains
    the best performer or is contained in it gets the point. *)
Fixpoint credit_first (first_place_counts : list (string * nat))
    (best : string) (stock_codes : list string) : list (string * nat) :=
  match stock_codes with
  | [] => first_place_counts
  | code :: rest =>
      if PyStr.isin code best || PyStr.isin best code then
        dict_set first_place_counts code
          (dict_get first_place_counts code 0 + 1)  (* break *)
      else credit_first first_place_counts best rest
  end.

(** [None] is an [IndexError] escaping from [best_performer]. *)
Definition _generate_summary (comparisons : list PeerComparison.t)
    (stock_codes : list string) : option string :=
  (* Count how many times each company ranks #1 *)
  let first_place_counts :=
    fold_left (fun d code => dict_set d code 0%nat) stock_codes [] in
  first_place_counts ←
    fold_left
      (fun acc comp =>
         d ← acc;
         best ← PeerComparison.best_performer comp;
         Some (credit_first d best stock_codes))
      comparisons (Some first_place_counts);
  (* Find overall leader *)
  match first_place_counts with
  | [] => Some "Peer comparison completed"
  | _ =>
      leader ← PyList.max_by_key snd first_place_counts;
      Some ("Overall leader: " +:+ fst leader +:+ " (top rank in "
            +:+ pretty (snd leader) +:+ " metrics)")
  end.

Definition default_metrics : list string :=
  ["Gross Margin"; "Operating Margin"; "Net Margin"; "ROE"; "ROA";
   "Debt Ratio"].

(** [if name in metrics: comparisons.append(self._compare_metric(...))] *)
Definition append_if_requested (name : string) (metrics : list string)
    (comparison : option PeerComparison.t)
    (comparisons : list PeerComparison.t) : option (list PeerComparison.t) :=
  if bool_decide (name ∈ metrics) then
    c ← comparison; Some (comparisons ++ [c])
  else Some comparisons.

(** The snapshots [compare_peers] loads: one for every code that has a
    file for the period, in the order of the codes. *)
Definition load_peers (data_loader : DataLoader.t)
    (stock_codes : list string) (period : string)
  : list FinancialSnapshot.t :=
  omap (fun code => DataLoader.load_snapshot data_loader code period)
       stock_codes.

Definition compare_peers (data_loader : DataLoader.t)
    (stock_codes : list string) (period : string)
    (metrics : option (list string)) : option PeerAnalysis.t :=
  (* Load snapshots for all peers *)
  let snapshots := load_peers data_loader stock_codes period in
  if decide (length snapshots < 2)%nat then None
  else
    (* Default metrics if none specified *)
    let metrics := default default_metrics metrics in
    let comparisons : list PeerComparison.t := [] in
    (* Build comparisons *)
    comparisons ←
      append_if_requested "Gross Margin" metrics
        (_compare_metric "Gross Margin (%)" snapshots
           FinancialSnapshot.gross_margin true) comparisons;
    comparisons ←
      append_if_requested "Operating Margin" metrics
        (_compare_metric "Operating Margin (%)" snapshots
           FinancialSnapshot.operating_margin true) comparisons;
    comparisons ←
      append_if_requested "Net Margin" metrics
        (_compare_metric "Net Margin (%)" snapshots
           FinancialSnapshot.net_margin true) comparisons;
    comparisons ←
      append_if_requested "ROE" metrics
        (_compare_metric "ROE (%)" snapshots FinancialSnapshot.roe true)
        comparisons;
    comparisons ←
      append_if_requested "ROA" metrics
        (_compare_metric "ROA (%)" snapshots FinancialSnapshot.roa true)
        comparisons;
    comparisons ←
      append_if_requested "Debt Ratio" metrics
        (_compare_metric "Debt Ratio (%)" snapshots
           FinancialSnapshot.debt_ratio false) comparisons;
    comparisons ←
      append_if_requested "Current Ratio" metrics
        (_compare_metric "Current Ratio" snapshots
           (fun s =>
              match FinancialSnapshot.current_ratio s with
              | Some ratio => if Py.truthy ratio then ratio else 0.0
              | None => 0.0
              end) true) comparisons;
    (* Generate summary *)
    summary ← _generate_summary comparisons stock_codes;
    Some {| PeerAnalysis.period := period;
            PeerAnalysis.comparisons := comparisons;
            PeerAnalysis.summary := summary |}.

End PeerService.


(** ** Sample data: the snapshot of tests/conftest.py, variations of it and
    a store of four companies reporting for 2023Q3 *)

Module Sample.

Import FinancialSnapshot.

(** [sample_financial_snapshot] *)
Definition tsmc : FinancialSnapshot.t :=
  {| stock_code := "2330"; company_name := "TSMC";
     report_year := 2023; report_season := 3; report_period := "2023Q3";
     currency := "TWD"; unit := "thousand";
     cash_and_equivalents := 1000000; accounts_receivable := 200000;
     inventory := 150000; total_assets := 5000000;
     total_liabilities := 2000000; equity := 3000000;
     net_revenue := 800000; gross_profit := 400000;
     operating_income := 300000; net_income := 250000; eps := 9.65;
     current_assets := Some 1500000; current_liabilities := Some 500000;
     short_term_debt := None; long_term_debt := None;
     retained_earnings := None; operating_cash_flow := Some 280000;
     investing_cash_flow := None; financing_cash_flow := None |}.

(** The same company with other current assets and liabilities. *)
Definition with_current (s : FinancialSnapshot.t) (ca cl : option Q)
  : FinancialSnapshot.t :=
  mk (stock_code s) (company_name s) (report_year s) (report_season s)
     (report_period s) (currency s) (unit s)
     (cash_and_equivalents s) (accounts_receivable s) (inventory s)
     (total_assets s) (total_liabilities s) (equity s)
     (net_revenue s) (gross_profit s) (operating_income s) (net_income s)
     (eps s) ca cl (short_term_debt s) (long_term_debt s)
     (retained_earnings s) (operating_cash_flow s) (investing_cash_flow s)
     (financing_cash_flow s).

(** A company that has liquidated every current asset but still owes
    500000 within the year. *)
Definition no_current_assets : FinancialSnapshot.t :=
  with_current tsmc (Some 0) (Some 500000).

Definition signal (name severity : string) : EarlyWarningSignal.t :=
  EarlyWarningSignal.mk name severity 0 0 "".

(** A peer of [tsmc]: same balance sheet, its own name, operating
    income, net income and earnings per share. *)
Definition company (code name : string) (operating net eps_ : Q)
  : FinancialSnapshot.t :=
  {| stock_code := code; company_name := name;
     report_year := 2023; report_season := 3; report_period := "2023Q3";
     currency := "TWD"; unit := "thousand";
     cash_and_equivalents := 1000000; accounts_receivable := 200000;
     inventory := 150000; total_assets := 5000000;
     total_liabilities := 2000000; equity := 3000000;
     net_revenue := 800000; gross_profit := 400000;
     operating_income := operating; net_income := net; eps := eps_;
     current_assets := None; current_liabilities := None;
     short_term_debt := None; long_term_debt := None;
     retained_earnings := None; operating_cash_flow := None;
     investing_cash_flow := None; financing_cash_flow := None |}.

(** Three loss-making peers: none has a positive EPS. *)
Definition umc : FinancialSnapshot.t := company "2303" "UMC" 40000 (-30000) (-1.2).
Definition auo : FinancialSnapshot.t := company "2409" "AUO" 40000 (-30000) (-0.8).
Definition htc : FinancialSnapshot.t := company "2498" "HTC" 40000 (-30000) 0.

(** Three companies whose EPS are 10, 30 and 20. *)
Definition alpha : FinancialSnapshot.t := company "1101" "Alpha" 40000 30000 10.
Definition beta : FinancialSnapshot.t := company "1102" "Beta" 40000 30000 30.
Definition gamma : FinancialSnapshot.t := company "1103" "Gamma" 40000 30000 20.

(** A company whose liabilities are 90% of its assets and whose operations
    burn cash. *)
Definition distressed : FinancialSnapshot.t :=
  {| stock_code := "3000"; company_name := "Distressed";
     report_year := 2023; report_season := 3; report_period := "2023Q3";
     currency := "TWD"; unit := "thousand";
     cash_and_equivalents := 100000; accounts_receivable := 200000;
     inventory := 150000; total_assets := 5000000;
     total_liabilities := 4500000; equity := 500000;
     net_revenue := 800000; gross_profit := 100000;
     operating_income := -50000; net_income := -80000; eps := -3.1;
     current_assets := None; current_liabilities := None;
     short_term_debt := None; long_term_debt := None;
     retained_earnings := None; operating_cash_flow := Some (-60000);
     investing_cash_flow := None; financing_cash_flow := None |}.

(** The files [<code>_<period>_enhanced.json] of the data directory. *)
Definition files : list (string * string * FinancialSnapshot.t) :=
  [ ("2303", "2023Q3", umc); ("2330", "2023Q3", tsmc);
    ("2409", "2023Q3", auo); ("2498", "2023Q3", htc) ].

Definition loader : DataLoader.t :=
  {| DataLoader.load_snapshot := fun code period =>
       snd <$> List.find
                 (fun f => String.eqb (fst (fst f)) code
                           && String.eqb (snd (fst f)) period)
                 files;
     DataLoader.list_available_periods := fun code =>
       (fun f => snd (fst f))
         <$> List.filter (fun f => String.eqb (fst (fst f)) code) files;
     DataLoader.list_all_stocks := ["2303"; "2330"; "2409"; "2498"] |}.

(** Stand-ins for [math.sqrt] and [math.log] on sample data: the square
    root of [n/d] as the integer square root of [n*d] over [d] (exact on
    squares of rationals), and a coarse logarithm.  The statements that use
    them hold for every other choice as well. *)
Definition sqrt (q : Q) : Q :=
  inject_Z (Z.sqrt (Qnum q * QDen q)) / inject_Z (QDen q).

Definition log (q : Q) : Q := inject_Z (Z.log2 (Qfloor q)) * 0.693.

(** Stand-in for [format]: the integer part in decimal. *)
Definition format_f (ndigits : nat) (q : Q) : string :=
  pretty (Qfloor q).

End Sample.

(** ** Vocabulary of the statements *)

(** The severities the detection rules of [EarlyWarningService] attach to a
    signal. *)
Definition emitted_severities : list string := ["medium"; "high"; "critical"].

(** Number of signals of one severity. *)
Definition signals_of (sev : string) (signals : list EarlyWarningSignal.t)
  : nat :=
  length (List.filter
            (fun s => String.eqb (EarlyWarningSignal.severity s) sev) signals).

(** The last [k] values of a sequence (all of them when it is shorter). *)
Definition last_values (k : nat) (values : list Q) : list Q :=
  drop (length values - k)%nat values.

(** Each value is smaller (larger) than the next one. *)
Definition strictly_increasing (l : list Q) : Prop :=
  forall (i : nat) (x y : Q), l !! i = Some x -> l !! S i = Some y -> x < y.

Definition strictly_decreasing (l : list Q) : Prop :=
  forall (i : nat) (x y : Q), l !! i = Some x -> l !! S i = Some y -> y < x.

(** Percentage change from [reference] to [latest]. *)
Definition percentage_change (latest reference : Q) : Q :=
  (latest - reference) / reference * 100.


(** The computation every factor of [FactorService] repeats on its own
    values: the z-score of the target value against the peer values, with
    1.0 for the deviation of a single peer. *)
Definition peer_z_score (sqrt : Q -> Q) (target_value : Q)
    (peer_values : list Q) : option Q :=
  mean ← Statistics.mean peer_values;
  std ←
    (if decide (1 < length peer_values)%nat
     then Statistics.stdev sqrt peer_values else Some 1.0);
  Some (calculate_z_score target_value mean std).

(** The peers the Value factor keeps: those with a positive EPS. *)
Definition usable_for_value (peers : list FinancialSnapshot.t)
  : list FinancialSnapshot.t :=
  List.filter (fun p => Py.ltb 0 (FinancialSnapshot.eps p)) peers.

(** [better hib v w]: the value [v] is strictly better than [w]. *)
Definition better (higher_is_better : bool) (v w : Q) : Prop :=
  if higher_is_better then w < v else v < w.

(** [outranks hib (i, v) (j, w)]: the company at input position [i] with
    value [v] is ranked ahead of the one at position [j] with value [w]:
    its value is strictly better, or equal and it comes first in the
    input. *)
Definition outranks (higher_is_better : bool) (a b : nat * Q) : Prop :=
  better higher_is_better (snd a) (snd b)
  \/ (snd a == snd b /\ (fst a < fst b)%nat).

(** * Further functions of the scoring engine *)

(** ** Two-argument [max] and [min], [abs] *)

Module Builtins.

(** [max(a, b)]: [a] unless [b > a]. *)
Definition max2 (a b : Q) : Q := if Py.ltb a b then b else a.

(** [min(a, b)]: [a] unless [b < a]. *)
Definition min2 (a b : Q) : Q := if Py.ltb b a then b else a.

(** [abs(n)] on an [int]. *)
Definition abs_int (n : Z) : Z := Z.abs n.

End Builtins.

(** ** app/core/utils.py, continued *)

Definition normalize_score (value min_val max_val : Q) : Q :=
  if Py.eqb max_val min_val then 50.0
  else
    let normalized := ((value - min_val) / (max_val - min_val)) * 100 in
    Builtins.max2 0.0 (Builtins.min2 100.0 normalized).

(** [None] would be a [StatisticsError] escaping from [statistics]. *)
Definition calculate_volatility (sqrt : Q -> Q) (values : list Q) : option Q :=
  if decide (length values < 2)%nat then Some 0.0
  else
    mean ← Statistics.mean values;
    if Py.eqb mean 0 then Some 0.0
    else
      std_dev ← Statistics.stdev sqrt values;
      Some (std_dev / mean).

Definition interpret_score (score : Q) : string :=
  if Py.leb 80 score then "Excellent"
  else if Py.leb 60 score then "Good"
  else if Py.leb 40 score then "Fair"
  else if Py.leb 20 score then "Poor"
  else "Critical".

(** Position of a category of [interpret_score] from worst to best; any
    other text is below all of them. *)
Definition category_rank (category : string) : nat :=
  if String.eqb category "Excellent" then 5
  else if String.eqb category "Good" then 4
  else if String.eqb category "Fair" then 3
  else if String.eqb category "Poor" then 2
  else if String.eqb category "Critical" then 1
  else 0.

(** The historical snapshots [detect_warnings] compares the current one
    with: those of the given periods, or of the last five available periods
    when none are given and at least two are available. *)
Definition history_used (data_loader : DataLoader.t) (stock_code : string)
    (historical_periods : option (list string)) : list FinancialSnapshot.t :=
  DataLoader.load_multiple_periods data_loader stock_code
    (match historical_periods with
     | Some periods => periods
     | None =>
         let all_periods :=
           DataLoader.list_available_periods data_loader stock_code in
         if decide (2 <= length all_periods)%nat
         then Py.last_slice all_periods 5 else []
     end).

(** ** More sample data: [sample_snapshots_multi_period] of
    tests/conftest.py and single-company stores *)

Module Scenarios.

Import FinancialSnapshot.

(** One quarter of stock 2330 on the balance sheet of the fixture. *)
Definition quarter (season : Z) (label : string)
    (revenue gross operating net eps_ : Q) : FinancialSnapshot.t :=
  {| stock_code := "2330"; company_name := "TSMC";
     report_year := 2023; report_season := season; report_period := label;
     currency := "TWD"; unit := "thousand";
     cash_and_equivalents := 1000000; accounts_receivable := 200000;
     inventory := 150000; total_assets := 5000000;
     total_liabilities := 2000000; equity := 3000000;
     net_revenue := revenue; gross_profit := gross;
     operating_income := operating; net_income := net; eps := eps_;
     current_assets := None; current_liabilities := None;
     short_term_debt := None; long_term_debt := None;
     retained_earnings := None; operating_cash_flow := None;
     investing_cash_flow := None; financing_cash_flow := None |}.

Definition q1 : FinancialSnapshot.t :=
  quarter 1 "2023Q1" 700000 350000 250000 200000 7.73.
Definition q2 : FinancialSnapshot.t :=
  quarter 2 "2023Q2" 750000 375000 275000 225000 8.69.
Definition q3 : FinancialSnapshot.t :=
  quarter 3 "2023Q3" 800000 400000 300000 250000 9.65.

(** A store with the files of one stock, given in period order. *)
Definition single_stock (code : string)
    (files : list (string * FinancialSnapshot.t)) : DataLoader.t :=
  {| DataLoader.load_snapshot := fun stock period =>
       if String.eqb stock code
       then snd <$> List.find (fun f => String.eqb (fst f) period) files
       else None;
     DataLoader.list_available_periods := fun stock =>
       if String.eqb stock code then fst <$> files else [];
     DataLoader.list_all_stocks :=
       match files with [] => [] | _ => [code] end |}.

Definition three_quarters : DataLoader.t :=
  single_stock "2330" [("2023Q1", q1); ("2023Q2", q2); ("2023Q3", q3)].

Definition distressed_only : DataLoader.t :=
  single_stock "3000" [("2023Q3", Sample.distressed)].

(** A shell company: no assets, no liabilities, no equity, no activity. *)
Definition shell : FinancialSnapshot.t :=
  {| stock_code := "9999"; company_name := "Shell";
     report_year := 2023; report_season := 3; report_period := "2023Q3";
     currency := "TWD"; unit := "thousand";
     cash_and_equivalents := 0; accounts_receivable := 0;
     inventory := 0; total_assets := 0;
     total_liabilities := 0; equity := 0;
     net_revenue := 0; gross_profit := 0;
     operating_income := 0; net_income := 0; eps := 0;
     current_assets := None; current_liabilities := None;
     short_term_debt := None; long_term_debt := None;
     retained_earnings := None; operating_cash_flow := None;
     investing_cash_flow := None; financing_cash_flow := None |}.

Definition shell_only : DataLoader.t :=
  single_stock "9999" [("2023Q3", shell)].

End Scenarios.

(** The last character of a text, if it has one. *)
Fixpoint last_char (s : string) : option ascii :=
  match s with
  | EmptyString => None
  | String c EmptyString => Some c
  | String _ rest => last_char rest
  end.

(** The size bucket the factor commentary names for a size exposure. *)
Definition size_label (size : Q) : string :=
  if Py.ltb 1.5 size then "large cap"
  else if Py.ltb size (-1.5) then "small cap"
  else "mid cap".

(** The metric names [compare_peers] knows, in the order in which it
    compares them, and the label each comparison carries. *)
Definition known_metrics : list string :=
  ["Gross Margin"; "Operating Margin"; "Net Margin"; "ROE"; "ROA";
   "Debt Ratio"; "Current Ratio"].

Definition metric_label (name : string) : string :=
  if String.eqb name "Current Ratio" then name else name +:+ " (%)".

(** ** app/services/management_service.py *)

Module ManagementService.

(** [a / b] on floats: [None] is the [ZeroDivisionError]. *)
Definition div (a b : Q) : option Q :=
  if Py.eqb b 0 then None else Some (a / b).

Definition _score_insider_alignment (buys sells : Z) : Q :=
  let net := (buys - sells)%Z in
  (* Strong buying = 100, neutral = 50, strong selling = 0 *)
  if (5 <=? net)%Z then 100.0
  else if (2 <=? net)%Z then 80.0
  else if (0 <=? net)%Z then 60.0
  else if (-2 <=? net)%Z then 40.0
  else if (-5 <=? net)%Z then 20.0
  else 0.0.

Definition _score_governance (red_flags : Z) : Q :=
  (* 0 flags = 100, 1 flag = 70, 2 flags = 40, 3+ flags = 0 *)
  if (red_flags =? 0)%Z then 100.0
  else if (red_flags =? 1)%Z then 70.0
  else if (red_flags =? 2)%Z then 40.0
  else Builtins.max2 0.0 (40.0 - inject_Z (red_flags - 2) * 20.0).

Definition _score_board_independence (independence_ratio : Q)
    (family_controlled : bool) : Q :=
  (* Base score from independence ratio *)
  let base_score := normalize_score independence_ratio 0.0 0.5 in
  (* Penalty for family control *)
  let base_score :=
    if family_controlled then base_score * 0.7 else base_score in
  base_score.

Section WithSettings.
(** [format_f n x] is the text of [f"{x:.nf}"]. *)
Variable format_f : nat -> Q -> string.
Variable settings : Settings.t.

Definition _score_tenure (avg_tenure : Q) : option Q :=
  let good := inject_Z (Settings.management_tenure_good settings) in
  let excellent := inject_Z (Settings.management_tenure_excellent settings) in
  (* 0 years = 0, 3 years = 60, 5+ years = 100 *)
  if Py.leb excellent avg_tenure then Some 100.0
  else if Py.leb good avg_tenure then
    (* Linear interpolation between 60 and 100 *)
    ramp ← div (40.0 * (avg_tenure - good)) (excellent - good);
    Some (60.0 + ramp)
  else
    (* Linear from 0 to 60 *)
    share ← div avg_tenure good;
    Some (share * 60.0).

Definition _generate_commentary
    (tenure_score board_score insider_score governance_score : Q)
    (avg_tenure independence_ratio : Q) (buys sells red_flags : Z) : string :=
  let parts : list string := [] in
  (* Tenure *)
  let parts :=
    if Py.leb 80 tenure_score then
      parts ++ ["Experienced management team (avg " +:+ format_f 1 avg_tenure
                +:+ " years)"]
    else if Py.leb 60 tenure_score then
      parts ++ ["Stable management (avg " +:+ format_f 1 avg_tenure
                +:+ " years)"]
    else
      parts ++ ["Limited tenure (avg " +:+ format_f 1 avg_tenure
                +:+ " years) - execution risk"] in
  (* Board *)
  let parts :=
    if Py.leb 70 board_score then
      parts ++ ["Strong board independence ("
                +:+ format_f 0 (independence_ratio * 100) +:+ "%)"]
    else if Py.leb 50 board_score then
      parts ++ ["Moderate board independence ("
                +:+ format_f 0 (independence_ratio * 100) +:+ "%)"]
    else
      parts ++ ["Weak board independence ("
                +:+ format_f 0 (independence_ratio * 100)
                +:+ "%) - governance concern"] in
  (* Insiders *)
  let net := (buys - sells)%Z in
  let parts :=
    if (0 <? net)%Z then
      parts ++ ["Insider buying (" +:+ pretty net
                +:+ " net transactions) - positive signal"]
    else if (net <? 0)%Z then
      parts ++ ["Insider selling (" +:+ pretty (Builtins.abs_int net)
                +:+ " net transactions) - caution"]
    else parts ++ ["Neutral insider activity"] in
  (* Governance *)
  let parts :=
    if (red_flags =? 0)%Z then parts ++ ["Clean governance record"]
    else if (red_flags <=? 2)%Z then
      parts ++ [pretty red_flags +:+ " governance concern(s)"]
    else
      parts ++ ["Multiple governance red flags (" +:+ pretty red_flags
                +:+ ") - serious concern"] in
  PyStr.join ". " parts +:+ ".".

(** [None] is an escaping [ZeroDivisionError] or the [ValidationError] of
    the [ManagementScore] constructor. *)
Definition calculate_score (ceo_tenure_years cfo_tenure_years : Q)
    (board_independence_ratio : Q)
    (independent_directors total_directors : Z) (family_controlled : bool)
    (insider_buys insider_sells : Z)
    (governance_incidents audit_issues related_party_transactions : Z)
  : option ManagementScore.t :=
  (* Component 1: Tenure Stability (T) *)
  let avg_tenure := (ceo_tenure_years + cfo_tenure_years) / 2 in
  tenure_score ← _score_tenure avg_tenure;
  (* Component 2: Board Independence (B) *)
  let independence_ratio :=
    if (0 <? total_directors)%Z
    then inject_Z independent_directors / inject_Z total_directors
    else board_independence_ratio in
  let board_score :=
    _score_board_independence independence_ratio family_controlled in
  (* Component 3: Insider Alignment (I) *)
  let insider_score := _score_insider_alignment insider_buys insider_sells in
  (* Component 4: Governance (G) - inverted red flags *)
  let total_red_flags :=
    (governance_incidents + audit_issues + related_party_transactions)%Z in
  let governance_score := _score_governance total_red_flags in
  let commentary :=
    _generate_commentary tenure_score board_score insider_score
      governance_score avg_tenure independence_ratio insider_buys
      insider_sells total_red_flags in
  let details : gmap string (option Q) :=
    list_to_map
      [ ("avg_tenure_years", Some (Py.round avg_tenure 1));
        ("board_independence_ratio", Some (Py.round independence_ratio 2));
        ("insider_net_activity",
         Some (inject_Z (insider_buys - insider_sells)));
        ("total_red_flags", Some (inject_Z total_red_flags)) ] in
  ManagementScore.make (Py.round tenure_score 2) (Py.round board_score 2)
    (Py.round insider_score 2) (Py.round governance_score 2)
    commentary details.

End WithSettings.

End ManagementService.

(** ** app/services/earnings_quality_service.py *)

Module EarningsQualityService.

Import FinancialSnapshot.

Definition _calculate_accrual_ratio (snapshot : FinancialSnapshot.t) : Q :=
  match operating_cash_flow snapshot with
  | Some flow =>
      if negb (Py.truthy flow) || Py.eqb (total_assets snapshot) 0 then 0.0
      else
        let accruals := net_income snapshot - flow in
        accruals / total_assets snapshot
  | None => 0.0  (* not snapshot.operating_cash_flow *)
  end.

(** [(current - previous) / previous if previous > 0 else 0] *)
Definition relative_growth (current previous : Q) : Q :=
  if Py.ltb 0 previous then (current - previous) / previous else 0.

Section WithEnv.
(** [format_f n x] is the text of [f"{x:.nf}"] and [format_pct n x] that of
    [f"{x:.n%}"]; [sqrt] is [math.sqrt]. *)
Variables format_f format_pct : nat -> Q -> string.
Variable sqrt : Q -> Q.
Variable settings : Settings.t.
Variable data_loader : DataLoader.t.

Definition _score_accrual_quality (snapshot : FinancialSnapshot.t)
  : Q * list string :=
  let accrual_ratio := Qabs (_calculate_accrual_ratio snapshot) in
  (* High accruals = red flag *)
  let threshold := Settings.accrual_ratio_threshold settings in
  if Py.leb (threshold * 2) accrual_ratio then
    (20.0, ["Very high accruals (" +:+ format_pct 1 accrual_ratio
            +:+ ") - earnings quality concern"])
  else if Py.leb threshold accrual_ratio then
    (50.0, ["Elevated accruals (" +:+ format_pct 1 accrual_ratio +:+ ")"])
  else if Py.leb (threshold * 0.5) accrual_ratio then (75.0, [])
  else (100.0, []).

(** [None] would be the [IndexError] of [historical[-2]]. *)
Definition _score_working_capital (current : FinancialSnapshot.t)
    (historical : list FinancialSnapshot.t) : option (Q * list string) :=
  if decide (length historical < 2)%nat then Some (50.0, [])
  else
    (* Find previous period *)
    previous ←
      (if decide (2 <= length historical)%nat
       then Py.index_from_end historical 2
       else Py.index_from_end historical 1);
    (* Check if receivables/inventory growing faster than revenue *)
    let revenue_growth :=
      relative_growth (net_revenue current) (net_revenue previous) in
    let receivable_growth :=
      relative_growth (accounts_receivable current)
                      (accounts_receivable previous) in
    let inventory_growth :=
      relative_growth (inventory current) (inventory previous) in
    let threshold := Settings.working_capital_spike_threshold settings in
    let score := 100.0 in
    let flags : list string := [] in
    (* Receivables growing much faster than revenue = red flag *)
    let '(score, flags) :=
      if Py.ltb (revenue_growth + threshold) receivable_growth then
        (score - 25,
         flags ++ ["Receivables growing faster than revenue (AR: "
                   +:+ format_pct 1 receivable_growth +:+ " vs Rev: "
                   +:+ format_pct 1 revenue_growth +:+ ")"])
      else (score, flags) in
    (* Inventory growing much faster than revenue = red flag *)
    let '(score, flags) :=
      if Py.ltb (revenue_growth + threshold) inventory_growth then
        (score - 25,
         flags ++ ["Inventory growing faster than revenue (Inv: "
                   +:+ format_pct 1 inventory_growth +:+ " vs Rev: "
                   +:+ format_pct 1 revenue_growth +:+ ")"])
      else (score, flags) in
    Some (Builtins.max2 0.0 score, flags).

Definition _score_one_off_dependency (snapshot : FinancialSnapshot.t)
  : Q * list string :=
  if Py.eqb (net_income snapshot) 0 then (50.0, [])
  else
    let non_operating := net_income snapshot - operating_income snapshot in
    let oneoff_ratio := Qabs non_operating / Qabs (net_income snapshot) in
    let threshold := Settings.one_off_income_threshold settings in
    if Py.leb (threshold * 2) oneoff_ratio then
      (20.0, ["High non-operating income dependency ("
              +:+ format_pct 1 oneoff_ratio +:+ ")"])
    else if Py.leb threshold oneoff_ratio then
      (50.0, ["Moderate non-operating income ("
              +:+ format_pct 1 oneoff_ratio +:+ ")"])
    else if Py.leb (threshold * 0.5) oneoff_ratio then (75.0, [])
    else (100.0, []).

(** [None] would be a [StatisticsError] out of [calculate_volatility]. *)
Definition _score_earnings_stability (historical : list FinancialSnapshot.t)
  : option (Q * list string) :=
  if decide (length historical < 4)%nat then Some (50.0, [])
  else
    let earnings := net_income <$> historical in
    volatility ← calculate_volatility sqrt earnings;
    (* Lower volatility = higher score *)
    if Py.leb volatility 0.1 then Some (100.0, [])
    else if Py.leb volatility 0.2 then Some (80.0, [])
    else if Py.leb volatility 0.3 then Some (60.0, [])
    else if Py.leb volatility 0.5 then
      Some (40.0, ["High earnings volatility (CV: "
                   +:+ format_pct 1 volatility +:+ ")"])
    else
      Some (20.0, ["Very high earnings volatility (CV: "
                   +:+ format_pct 1 volatility +:+ ")"]).

Definition _generate_commentary (accrual wc oneoff stability : Q)
    (red_flags : list string) : string :=
  let total := (accrual + wc + oneoff + stability) / 4 in
  let quality :=
    if Py.leb 80 total then "High"
    else if Py.leb 60 total then "Good"
    else if Py.leb 40 total then "Fair"
    else "Poor" in
  let parts :=
    [quality +:+ " earnings quality (score: " +:+ format_f 0 total +:+ ")"] in
  let parts :=
    match red_flags with
    | [] => parts ++ ["No major concerns"]
    | _ => parts ++ [pretty (length red_flags) +:+ " concern(s) identified"]
    end in
  (* Add specific insights *)
  let parts := if Py.ltb accrual 50 then parts ++ ["high accruals"] else parts in
  let parts :=
    if Py.ltb wc 50 then parts ++ ["working capital anomalies"] else parts in
  let parts :=
    if Py.ltb oneoff 50 then parts ++ ["one-off income dependency"]
    else parts in
  let parts :=
    if Py.ltb stability 50 then parts ++ ["volatile earnings"] else parts in
  PyStr.join ". " parts +:+ ".".

(** The historical snapshots [calculate_score] works on. *)
Definition trend_history (stock_code : string)
    (periods_for_trend : option (list string)) : list FinancialSnapshot.t :=
  let periods_for_trend :=
    match periods_for_trend with
    | Some periods => periods
    | None =>
        (* Last 8 quarters *)
        Py.last_slice
          (DataLoader.list_available_periods data_loader stock_code) 8
    end in
  DataLoader.load_multiple_periods data_loader stock_code periods_for_trend.

Definition calculate_score (stock_code period : string)
    (periods_for_trend : option (list string))
  : option EarningsQualityScore.t :=
  (* Load current snapshot *)
  snapshot ← DataLoader.load_snapshot data_loader stock_code period;
  (* Load historical snapshots for trend analysis *)
  let historical_snapshots := trend_history stock_code periods_for_trend in
  let red_flags : list string := [] in
  (* Component 1: Accrual Quality (AQ) *)
  let '(accrual_score, accrual_flags) := _score_accrual_quality snapshot in
  let red_flags := red_flags ++ accrual_flags in
  (* Component 2: Working Capital Behavior (WCB) *)
  '(wc_score, wc_flags) ← _score_working_capital snapshot historical_snapshots;
  let red_flags := red_flags ++ wc_flags in
  (* Component 3: One-off Dependency (OD) - inverted *)
  let '(oneoff_score, oneoff_flags) := _score_one_off_dependency snapshot in
  let red_flags := red_flags ++ oneoff_flags in
  (* Component 4: Earnings Stability (ES) *)
  '(stability_score, stability_flags) ←
    _score_earnings_stability historical_snapshots;
  let red_flags := red_flags ++ stability_flags in
  let commentary :=
    _generate_commentary accrual_score wc_score oneoff_score stability_score
      red_flags in
  earnings_volatility ←
    (if decide (4 <= length historical_snapshots)%nat
     then Some <$> calculate_volatility sqrt (net_income <$> historical_snapshots)
     else Some None);
  let details : gmap string (option Q) :=
    list_to_map
      [ ("accrual_ratio", Some (_calculate_accrual_ratio snapshot));
        ("earnings_volatility", earnings_volatility);
        ("num_red_flags", Some (Statistics.of_len red_flags)) ] in
  EarningsQualityScore.make (Py.round accrual_score 2) (Py.round wc_score 2)
    (Py.round oneoff_score 2) (Py.round stability_score 2)
    red_flags commentary details.

End WithEnv.

End EarningsQualityService.

(** ** app/services/trend_service.py *)

Module TrendService.

Import FinancialSnapshot.

Definition _build_metric (metric_name : string)
    (snapshots : list FinancialSnapshot.t)
    (extractor : FinancialSnapshot.t -> Q) : TrendMetric.t :=
  let periods := report_period <$> snapshots in
  let values := extractor <$> snapshots in
  {| TrendMetric.metric_name := metric_name;
     TrendMetric.periods := periods;
     TrendMetric.values := values |}.

(** The loop of [_generate_summary]: the names of the improving, of the
    declining and of all other metrics. *)
Definition classify (metrics : list TrendMetric.t)
  : list string * list string * list string :=
  fold_left
    (fun '(improving, declining, stable) metric =>
       if String.eqb (TrendMetric.trend_direction metric) "improving" then
         (improving ++ [TrendMetric.metric_name metric], declining, stable)
       else if String.eqb (TrendMetric.trend_direction metric) "declining"
       then
         (improving, declining ++ [TrendMetric.metric_name metric], stable)
       else
         (improving, declining, stable ++ [TrendMetric.metric_name metric]))
    metrics ([], [], []).

Definition _generate_summary (metrics : list TrendMetric.t) : string :=
  let '(improving, declining, stable) := classify metrics in
  let parts : list string := [] in
  let parts :=
    match improving with
    | [] => parts
    | _ => parts ++ ["Improving: " +:+ PyStr.join ", " improving]
    end in
  let parts :=
    match declining with
    | [] => parts
    | _ => parts ++ ["Declining: " +:+ PyStr.join ", " declining]
    end in
  let parts :=
    match stable with
    | [] => parts
    | _ => parts ++ ["Stable: " +:+ PyStr.join ", " stable]
    end in
  match parts with
  | [] => "Insufficient data for trend analysis"
  | _ => PyStr.join "; " parts
  end.

Section WithLoader.
Variable data_loader : DataLoader.t.

(** The periods [analyze_trend] works on. *)
Definition trend_periods (stock_code : string)
    (periods : option (list string)) : list string :=
  match periods with
  | Some periods => periods
  | None => DataLoader.list_available_periods data_loader stock_code
  end.

(** [None] is the result [None]; the [IndexError] of [snapshots[0]] would
    show as [None] as well. *)
Definition analyze_trend (stock_code : string)
    (periods : option (list string)) : option TrendAnalysis.t :=
  let periods := trend_periods stock_code periods in
  if decide (length periods < 2)%nat then None
  else
    let snapshots :=
      DataLoader.load_multiple_periods data_loader stock_code periods in
    if decide (length snapshots < 2)%nat then None
    else
      (* Sort snapshots by period *)
      let snapshots := PySort.sorted_text report_period snapshots in
      (* Extract company name *)
      first ← snapshots !! 0%nat;
      let company_name := company_name first in
      (* Build trend metrics *)
      let metrics :=
        [ _build_metric "Net Revenue" snapshots net_revenue;
          _build_metric "Gross Margin (%)" snapshots gross_margin;
          _build_metric "Operating Margin (%)" snapshots operating_margin;
          _build_metric "Net Margin (%)" snapshots net_margin;
          _build_metric "EPS" snapshots eps;
          _build_metric "Debt Ratio (%)" snapshots debt_ratio;
          _build_metric "ROE (%)" snapshots roe ] in
      (* Generate summary *)
      let summary := _generate_summary metrics in
      Some {| TrendAnalysis.stock_code := stock_code;
              TrendAnalysis.company_name := company_name;
              TrendAnalysis.metrics := metrics;
              TrendAnalysis.summary := summary |}.

Definition get_latest_snapshot (stock_code : string)
  : option FinancialSnapshot.t :=
  let periods := DataLoader.list_available_periods data_loader stock_code in
  match periods with
  | [] => None
  | _ =>
      latest_period ← Py.index_from_end periods 1;
      DataLoader.load_snapshot data_loader stock_code latest_period
  end.

End WithLoader.

End TrendService.

(** The seven series of [analyze_trend], in its order. *)
Definition trend_series : list (string * (FinancialSnapshot.t -> Q)) :=
  [ ("Net Revenue", FinancialSnapshot.net_revenue);
    ("Gross Margin (%)", FinancialSnapshot.gross_margin);
    ("Operating Margin (%)", FinancialSnapshot.operating_margin);
    ("Net Margin (%)", FinancialSnapshot.net_margin);
    ("EPS", FinancialSnapshot.eps);
    ("Debt Ratio (%)", FinancialSnapshot.debt_ratio);
    ("ROE (%)", FinancialSnapshot.roe) ].

(** ** app/services/capital_allocation_service.py *)

Module CapitalAllocationService.

(** [mix.get(key, 0)] *)
Definition mix_get (mix : gmap string Q) (key : string) : Q :=
  default 0 (mix !! key).

(** Truth value of a [dict]: false when it is empty. *)
Definition mix_truthy (mix : gmap string Q) : bool :=
  negb (bool_decide (mix = ∅)).

Section WithFormat.
Variable format_f : nat -> Q -> string.

Definition _generate_commentary (dividends buybacks capex rd ma : Q)
    (debt_change : Q) (snapshot : FinancialSnapshot.t)
    (mix : gmap string Q) : string :=
  let parts : list string := [] in
  (* Calculate key ratios *)
  let total_shareholder_returns := dividends + buybacks in
  let total_investment := capex + rd + ma in
  (* Shareholder returns focus *)
  let parts :=
    if mix_truthy mix
       && Py.ltb 50 (mix_get mix "dividends" + mix_get mix "buybacks")
    then parts
         ++ ["Shareholder-focused allocation (dividends + buybacks > 50%)"]
    else parts in
  (* Growth investment focus *)
  let parts :=
    if mix_truthy mix && Py.ltb 50 (mix_get mix "capex" + mix_get mix "rd")
    then parts ++ ["Growth-focused allocation (capex + R&D > 50%)"]
    else parts in
  (* Balanced approach *)
  let parts :=
    if mix_truthy mix then
      let shareholder_pct :=
        mix_get mix "dividends" + mix_get mix "buybacks" in
      let investment_pct := mix_get mix "capex" + mix_get mix "rd" in
      if Py.leb 30 shareholder_pct && Py.leb shareholder_pct 60
         && (Py.leb 30 investment_pct && Py.leb investment_pct 60)
      then parts ++ ["Balanced allocation between returns and reinvestment"]
      else parts
    else parts in
  (* Dividend policy *)
  let parts :=
    if Py.ltb (buybacks * 2) dividends
    then parts ++ ["Prefers dividends over buybacks"]
    else if Py.ltb (dividends * 2) buybacks
    then parts ++ ["Prefers buybacks over dividends"]
    else parts in
  (* M&A activity *)
  let parts :=
    if mix_truthy mix && Py.ltb 20 (mix_get mix "ma")
    then parts ++ ["Significant M&A activity ("
                   +:+ format_f 0 (mix_get mix "ma") +:+ "%)"]
    else parts in
  (* Debt management *)
  let parts :=
    if Py.ltb 0 debt_change then parts ++ ["Taking on additional debt"]
    else if Py.ltb debt_change 0 then parts ++ ["Reducing debt levels"]
    else parts in
  (* Overall assessment *)
  let parts :=
    if Py.ltb total_shareholder_returns total_investment
    then parts ++ ["Prioritizing growth over immediate shareholder returns"]
    else if Py.ltb (total_investment * 2) total_shareholder_returns
    then parts ++ ["Prioritizing shareholder returns over reinvestment"]
    else parts in
  match parts with
  | [] => "Capital allocation data not available or minimal activity"
  | _ => PyStr.join ". " parts +:+ "."
  end.

Variable data_loader : DataLoader.t.

Definition analyze (stock_code period : string)
    (dividends buybacks capex rd_expense ma_spending : Q)
  : option CapitalAllocationAnalysis.t :=
  snapshot ← DataLoader.load_snapshot data_loader stock_code period;
  (* Calculate debt change (simplified) *)
  let debt_change := 0.0 in  (* Placeholder *)
  (* Calculate allocation mix percentages *)
  let total_allocation :=
    dividends + buybacks + capex + rd_expense + ma_spending
    + Qabs debt_change in
  let allocation_mix : gmap string Q :=
    if Py.ltb 0 total_allocation then
      list_to_map
        [ ("dividends", Py.round ((dividends / total_allocation) * 100) 1);
          ("buybacks", Py.round ((buybacks / total_allocation) * 100) 1);
          ("capex", Py.round ((capex / total_allocation) * 100) 1);
          ("rd", Py.round ((rd_expense / total_allocation) * 100) 1);
          ("ma", Py.round ((ma_spending / total_allocation) * 100) 1);
          ("debt_change",
           Py.round ((Qabs debt_change / total_allocation) * 100) 1) ]
    else ∅ in
  (* Generate commentary *)
  let commentary :=
    _generate_commentary dividends buybacks capex rd_expense ma_spending
      debt_change snapshot allocation_mix in
  Some {| CapitalAllocationAnalysis.period := period;
          CapitalAllocationAnalysis.dividends := Py.round dividends 2;
          CapitalAllocationAnalysis.buybacks := Py.round buybacks 2;
          CapitalAllocationAnalysis.capex := Py.round capex 2;
          CapitalAllocationAnalysis.rd_expense := Py.round rd_expense 2;
          CapitalAllocationAnalysis.debt_change := Py.round debt_change 2;
          CapitalAllocationAnalysis.ma_spending := Py.round ma_spending 2;
          CapitalAllocationAnalysis.commentary := commentary;
          CapitalAllocationAnalysis.allocation_mix := allocation_mix |}.

End WithFormat.

End CapitalAllocationService.

(** * Properties *)

(** ** Comparisons and optional values *)

Lemma ltb_lt (x y : Q) : Py.ltb x y = true <-> x < y.
Proof. unfold Py.ltb, Qlt. apply Z.ltb_lt. Qed.

Lemma ltb_ge (x y : Q) : Py.ltb x y = false <-> y <= x.
Proof. unfold Py.ltb, Qle. apply Z.ltb_ge. Qed.

Lemma eqb_eq (x y : Q) : Py.eqb x y = true <-> x == y.
Proof. apply Qeq_bool_iff. Qed.

Lemma eqb_neq (x y : Q) : Py.eqb x y = false <-> ~ x == y.
Proof.
  rewrite <- eqb_eq. destruct (Py.eqb x y); split; intros; congruence.
Qed.

Lemma leb_le (x y : Q) : Py.leb x y = true <-> x <= y.
Proof. apply Qle_bool_iff. Qed.

Lemma in_score_range_spec (x : Q) :
  in_score_range x = true <-> 0 <= x <= 100.
Proof.
  unfold in_score_range. rewrite andb_true_iff, !leb_le. tauto.
Qed.

(** ** Composite scores *)

Lemma management_make_inv ts bi ia grf c d m :
  ManagementScore.make ts bi ia grf c d = Some m ->
  m = ManagementScore.mk ts bi ia grf c d /\
  (0 <= ts <= 100) /\ (0 <= bi <= 100) /\ (0 <= ia <= 100) /\ (0 <= grf <= 100).
Proof.
  unfold ManagementScore.make. intros H.
  destruct (in_score_range ts) eqn:E1; [|discriminate].
  destruct (in_score_range bi) eqn:E2; [|discriminate].
  destruct (in_score_range ia) eqn:E3; [|discriminate].
  destruct (in_score_range grf) eqn:E4; [|discriminate].
  simpl in H. injection H as <-.
  apply in_score_range_spec in E1, E2, E3, E4. tauto.
Qed.

Lemma earnings_make_inv aq wcb ood es rf c d e :
  EarningsQualityScore.make aq wcb ood es rf c d = Some e ->
  e = EarningsQualityScore.mk aq wcb ood es rf c d /\
  (0 <= aq <= 100) /\ (0 <= wcb <= 100) /\ (0 <= ood <= 100) /\ (0 <= es <= 100).
Proof.
  unfold EarningsQualityScore.make. intros H.
  destruct (in_score_range aq) eqn:E1; [|discriminate].
  destruct (in_score_range wcb) eqn:E2; [|discriminate].
  destruct (in_score_range ood) eqn:E3; [|discriminate].
  destruct (in_score_range es) eqn:E4; [|discriminate].
  simpl in H. injection H as <-.
  apply in_score_range_spec in E1, E2, E3, E4. tauto.
Qed.

Lemma quarter_weights (a b c d : Q) :
  0.25 * a + 0.25 * b + 0.25 * c + 0.25 * d == (a + b + c + d) / 4.
Proof. field. Qed.

(** C1.  A ManagementScore and an EarningsQualityScore accepted by their
    constructors (four components in [0,100]) have a [total] equal to the
    unweighted mean of the four components, whatever their commentary and
    details: the weights are the constant 0.25 and [total] is a function of
    the components alone. *)
Theorem C1_total_is_mean
    (ts bi ia grf : Q) (c : string) (d : gmap string (option Q))
    (m : ManagementScore.t)
    (aq wcb ood es : Q) (rf : list string) (c' : string)
    (d' : gmap string (option Q)) (e : EarningsQualityScore.t) :
  ManagementScore.make ts bi ia grf c d = Some m ->
  EarningsQualityScore.make aq wcb ood es rf c' d' = Some e ->
  ManagementScore.total m == (ts + bi + ia + grf) / 4 /\
  EarningsQualityScore.total e == (aq + wcb + ood + es) / 4.
Proof.
  intros Hm He.
  apply management_make_inv in Hm as (-> & _).
  apply earnings_make_inv in He as (-> & _).
  unfold ManagementScore.total, EarningsQualityScore.total; simpl.
  split; apply quarter_weights.
Qed.

Lemma C1_total_is_mean_witness :
  ManagementScore.total (ManagementScore.mk 80 70 60 90 "Test" ∅)
    == (80 + 70 + 60 + 90) / 4 /\
  EarningsQualityScore.total (EarningsQualityScore.mk 75 80 70 85 [] "Test" ∅)
    == (75 + 80 + 70 + 85) / 4.
Proof.
  apply (C1_total_is_mean 80 70 60 90 "Test" ∅ _ 75 80 70 85 [] "Test" ∅ _);
    reflexivity.
Defined.

(** ** Derived ratios of a snapshot *)

Lemma truthy_opt_true (o : option Q) :
  Py.truthy_opt o = true <-> exists x, o = Some x /\ ~ x == 0.
Proof.
  destruct o as [x|]; simpl.
  - unfold Py.truthy. rewrite negb_true_iff, eqb_neq. split.
    + intros H. exists x. auto.
    + intros (y & [= <-] & H). exact H.
  - split; [discriminate | intros (x & [=] & _)].
Qed.

(** When [current_ratio] is defined it is the quotient of the two fields. *)
Lemma current_ratio_some (s : FinancialSnapshot.t) (ca cl : Q) :
  FinancialSnapshot.current_assets s = Some ca ->
  FinancialSnapshot.current_liabilities s = Some cl ->
  ~ ca == 0 -> ~ cl == 0 ->
  FinancialSnapshot.current_ratio s = Some (ca / cl).
Proof.
  intros Ha Hl Hca Hcl. unfold FinancialSnapshot.current_ratio.
  rewrite Ha, Hl; simpl. unfold Py.truthy.
  apply eqb_neq in Hca, Hcl. rewrite Hca, Hcl. reflexivity.
Qed.

(** [current_ratio] is [None] exactly when a current field is absent or
    either of them is zero: the truth test on [current_assets] rejects
    [0.0] together with [None]. *)
Lemma current_ratio_none_iff (s : FinancialSnapshot.t) :
  FinancialSnapshot.current_ratio s = None <->
  FinancialSnapshot.current_assets s = None \/
  FinancialSnapshot.current_liabilities s = None \/
  (exists ca, FinancialSnapshot.current_assets s = Some ca /\ ca == 0) \/
  (exists cl, FinancialSnapshot.current_liabilities s = Some cl /\ cl == 0).
Proof.
  unfold FinancialSnapshot.current_ratio.
  destruct (FinancialSnapshot.current_assets s) as [ca|];
    destruct (FinancialSnapshot.current_liabilities s) as [cl|]; simpl;
    try (split; [auto | reflexivity]).
  2: { rewrite andb_false_r. simpl. split; auto. }
  unfold Py.truthy.
  destruct (Py.eqb ca 0) eqn:Ea; [apply eqb_eq in Ea | apply eqb_neq in Ea];
    (destruct (Py.eqb cl 0) eqn:El; [apply eqb_eq in El | apply eqb_neq in El]);
    simpl.
  - split; [|reflexivity]. intros _. right; right; left. exists ca; auto.
  - split; [|reflexivity]. intros _. right; right; left. exists ca; auto.
  - split; [|reflexivity]. intros _. right; right; right. exists cl; auto.
  - split; [discriminate|].
    intros [H|[H|[(x & [= <-] & H)|(x & [= <-] & H)]]];
      try discriminate; contradiction.
Qed.

(** C9.  On a snapshot whose current assets are present and equal to 0 and
    whose current liabilities are present and non-zero, [current_ratio]
    returns [None], although both fields are there and the quotient
    0 / 500000 is defined. *)
Theorem C9_current_ratio_zero_assets :
  FinancialSnapshot.current_assets Sample.no_current_assets = Some 0 /\
  FinancialSnapshot.current_liabilities Sample.no_current_assets = Some 500000 /\
  FinancialSnapshot.current_ratio Sample.no_current_assets = None.
Proof. repeat split. Qed.

(** ** Early-warning aggregation *)

Section WarningLevel.

Import EarlyWarningService.
Local Abbreviation severity := EarlyWarningSignal.severity.
Implicit Types (signals : list EarlyWarningSignal.t) (sev : string).

Lemma severity_count_filter sev signals :
  severity_count sev signals = signals_of sev signals.
Proof.
  unfold signals_of.
  induction signals as [|s l IH]; simpl; [reflexivity|].
  destruct (String.eqb (severity s) sev); simpl; congruence.
Qed.

Lemma signals_of_app sev l1 l2 :
  signals_of sev (l1 ++ l2) = (signals_of sev l1 + signals_of sev l2)%nat.
Proof. unfold signals_of. now rewrite List.filter_app, length_app. Qed.

Lemma signals_of_cons sev s l :
  signals_of sev (s :: l) =
  ((if String.eqb (severity s) sev then 1 else 0) + signals_of sev l)%nat.
Proof.
  unfold signals_of; simpl. now destruct (String.eqb (severity s) sev).
Qed.

Lemma signals_of_pos sev signals :
  (0 < signals_of sev signals)%nat <->
  exists s, s ∈ signals /\ severity s = sev.
Proof.
  induction signals as [|s l IH].
  - split; [cbn; lia | intros (s & Hs & _); inversion Hs].
  - rewrite signals_of_cons. destruct (String.eqb (severity s) sev) eqn:E.
    + apply String.eqb_eq in E. split; [|lia].
      intros _. exists s. split; [constructor | exact E].
    + apply String.eqb_neq in E. simpl. rewrite IH. split.
      * intros (x & Hx & Hs). exists x. split; [now constructor | exact Hs].
      * intros (x & Hx & Hs). inversion Hx; subst; [contradiction|eauto].
Qed.

Lemma signals_of_zero sev signals :
  signals_of sev signals = 0%nat <->
  Forall (fun s => severity s <> sev) signals.
Proof.
  rewrite Forall_forall. split.
  - intros H0 s Hs Hsev.
    assert (0 < signals_of sev signals)%nat; [|lia].
    apply signals_of_pos; eauto.
  - intros H. destruct (signals_of sev signals) eqn:E; [reflexivity|].
    assert (0 < signals_of sev signals)%nat as Hp by lia.
    apply signals_of_pos in Hp as (s & Hs & Hsev).
    exfalso. exact (H s Hs Hsev).
Qed.

(** The decision list of [_determine_warning_level] on a non-empty list,
    with the two branches for [high] merged. *)
Lemma warning_level_nonempty signals :
  signals <> [] ->
  _determine_warning_level signals =
  if (0 <? signals_of "critical" signals)%nat then "critical"
  else if (1 <=? signals_of "high" signals)%nat then "high"
  else if (3 <=? signals_of "medium" signals)%nat then "medium"
  else "low".
Proof.
  destruct signals as [|s l]; [congruence|]. intros _.
  unfold _determine_warning_level. rewrite !severity_count_filter.
  destruct (0 <? signals_of "critical" (s :: l))%nat; [reflexivity|].
  destruct (2 <=? signals_of "high" (s :: l))%nat eqn:E2.
  - apply Nat.leb_le in E2.
    destruct (1 <=? signals_of "high" (s :: l))%nat eqn:E1; [reflexivity|].
    apply Nat.leb_gt in E1. lia.
  - destruct (1 <=? signals_of "high" (s :: l))%nat; [reflexivity|].
    destruct (3 <=? signals_of "medium" (s :: l))%nat; [reflexivity|].
    now destruct (1 <=? signals_of "medium" (s :: l))%nat.
Qed.

(** Signals of the three emitted severities are all counted. *)
Lemma emitted_partition signals :
  Forall (fun s => severity s ∈ emitted_severities) signals ->
  (signals_of "critical" signals + signals_of "high" signals
   + signals_of "medium" signals)%nat = length signals.
Proof.
  induction 1 as [|s l Hs _ IH]; [reflexivity|].
  rewrite !signals_of_cons. simpl length. rewrite <- IH.
  unfold emitted_severities in Hs.
  apply elem_of_cons in Hs as [->|Hs];
    [|apply elem_of_cons in Hs as [->|Hs];
      [|apply list_elem_of_singleton in Hs as ->]];
    simpl; lia.
Qed.

(** Every signal a detection rule emits is medium, high or critical. *)
Lemma rules_emit_known_severities (format_f : nat -> Q -> string)
    (settings : Settings.t) (current : FinancialSnapshot.t)
    (historical : list FinancialSnapshot.t) :
  Forall (fun s => severity s ∈ emitted_severities)
         (run_rules format_f settings current historical).
Proof.
  assert (Hm : "medium" ∈ emitted_severities) by (repeat constructor).
  assert (Hh : "high" ∈ emitted_severities) by (repeat constructor).
  assert (Hc : "critical" ∈ emitted_severities) by (repeat constructor).
  unfold run_rules. repeat apply Forall_app_2.
  - unfold _check_receivables_spike.
    destruct (Py.index_from_end historical 1); [|constructor].
    destruct (Py.ltb _ _); repeat constructor; exact Hm.
  - unfold _check_inventory_spike.
    destruct (Py.index_from_end historical 1); [|constructor].
    destruct (Py.ltb _ _); repeat constructor; exact Hm.
  - unfold _check_margin_compression.
    case_decide; [constructor|].
    destruct (Py.ltb _ _); [|constructor].
    destruct (Py.ltb _ _); repeat constructor; assumption.
  - unfold _check_leverage_deterioration.
    destruct (Py.leb _ _); [|constructor].
    destruct (Py.leb _ _); repeat constructor; assumption.
  - unfold _check_cash_burn.
    case_decide; [constructor|].
    destruct (Py.ltb _ (-30)); [|constructor].
    destruct (Py.ltb _ (-50)); repeat constructor; assumption.
  - unfold _check_negative_cash_flow.
    destruct (FinancialSnapshot.operating_cash_flow current); [|constructor].
    destruct (_ && _); repeat constructor; exact Hh.
Qed.

(** C2.  For signals whose severities are among medium, high and critical,
    the overall level is critical as soon as one signal is critical;
    otherwise high as soon as one is high; otherwise medium from three
    medium signals on, low for one or two, and none for the empty list.
    Every non-empty such list falls in one of these cases.  Inserting a
    critical signal anywhere in a list of signals gives level critical. *)
Theorem C2_warning_level_aggregation signals :
  Forall (fun s => severity s ∈ emitted_severities) signals ->
  let level := _determine_warning_level signals in
  let critical := signals_of "critical" signals in
  let high := signals_of "high" signals in
  let medium := signals_of "medium" signals in
  ((exists s, s ∈ signals /\ severity s = "critical") -> level = "critical") /\
  (critical = 0 -> 1 <= high -> level = "high")%nat /\
  (critical = 0 -> high = 0 -> 3 <= medium -> level = "medium")%nat /\
  (critical = 0 -> high = 0 -> 1 <= medium < 3 -> level = "low")%nat /\
  (signals = [] -> level = "none") /\
  (signals <> [] -> 0 < critical \/ 0 < high \/ 0 < medium)%nat /\
  (forall before after s,
      signals = before ++ after -> severity s = "critical" ->
      _determine_warning_level (before ++ s :: after) = "critical").
Proof.
  intros Hsev level critical high medium.
  subst level critical high medium.
  assert (Hempty : forall sev, (1 <= signals_of sev signals)%nat -> signals <> []).
  { intros sev H ->. cbn in H. lia. }
  repeat split.
  - intros Hc. apply signals_of_pos in Hc.
    rewrite (warning_level_nonempty _ (Hempty _ Hc)).
    apply Nat.ltb_lt in Hc. now rewrite Hc.
  - intros Hc Hh. rewrite (warning_level_nonempty _ (Hempty _ Hh)).
    rewrite Hc. change (0 <? 0)%nat with false. cbv iota.
    apply Nat.leb_le in Hh. now rewrite Hh.
  - intros Hc Hh Hm.
    rewrite warning_level_nonempty by (apply (Hempty "medium"); lia).
    rewrite Hc, Hh. change (0 <? 0)%nat with false.
    change (1 <=? 0)%nat with false. cbv iota.
    apply Nat.leb_le in Hm. now rewrite Hm.
  - intros Hc Hh [Hm1 Hm3].
    rewrite (warning_level_nonempty _ (Hempty _ Hm1)).
    rewrite Hc, Hh. change (0 <? 0)%nat with false.
    change (1 <=? 0)%nat with false. cbv iota.
    apply Nat.leb_gt in Hm3. now rewrite Hm3.
  - now intros ->.
  - intros Hn. pose proof (emitted_partition _ Hsev) as Hp.
    destruct signals; [congruence|]. simpl in Hp. lia.
  - intros before after s _ Hs.
    rewrite warning_level_nonempty by (destruct before; discriminate).
    rewrite signals_of_app, signals_of_cons, Hs.
    change (String.eqb "critical" "critical") with true. cbv iota.
    replace (0 <? _)%nat with true; [reflexivity|].
    symmetry. apply Nat.ltb_lt. lia.
Qed.

Lemma C2_warning_level_aggregation_witness :
  _determine_warning_level
    (run_rules Sample.format_f Settings.defaults Sample.distressed [])
  = "critical".
Proof.
  refine (proj1 (C2_warning_level_aggregation
                   (run_rules Sample.format_f Settings.defaults
                              Sample.distressed []) _) _).
  - apply rules_emit_known_severities.
  - eexists. split; [vm_compute; left | reflexivity].
Defined.

(** C10.  The overall level is none exactly for the empty list of signals;
    a non-empty list without any critical, high or medium signal (only low
    ones, for instance) gets level low. *)
Theorem C10_none_only_when_empty signals :
  (_determine_warning_level signals = "none" <-> signals = []) /\
  (signals <> [] ->
   Forall (fun s => severity s ∉ ["critical"; "high"; "medium"]) signals ->
   _determine_warning_level signals = "low").
Proof.
  split.
  - split; [|now intros ->].
    destruct signals as [|s l]; [reflexivity|]. intros H. exfalso.
    rewrite warning_level_nonempty in H by discriminate.
    repeat match type of H with
           | (if ?b then _ else _) = _ => destruct b
           end; discriminate.
  - intros Hn Hall. rewrite (warning_level_nonempty _ Hn).
    assert (forall sev, sev ∈ ["critical"; "high"; "medium"] ->
                        signals_of sev signals = 0%nat) as H0.
    { intros sev Hin. apply signals_of_zero.
      eapply Forall_impl; [exact Hall|]. simpl. intros s Hs Heq.
      apply Hs. now rewrite Heq. }
    rewrite !H0 by (repeat constructor). reflexivity.
Qed.

Lemma C10_none_only_when_empty_witness :
  _determine_warning_level [Sample.signal "Watch item" "low"] = "low".
Proof.
  apply (proj2 (C10_none_only_when_empty [Sample.signal "Watch item" "low"])).
  - discriminate.
  - repeat constructor. intros H.
    repeat (apply elem_of_cons in H as [H|H]; [discriminate H|]).
    inversion H.
Defined.

End WarningLevel.

(** ** Trend metrics *)

Section Trend.

Import TrendMetric.
Implicit Types (values recent : list Q).

Lemma all_steps_spec (cmp : Q -> Q -> bool) recent :
  all_steps cmp recent = true <->
  forall (i : nat) (x y : Q),
    recent !! i = Some x -> recent !! S i = Some y -> cmp y x = true.
Proof.
  unfold all_steps. rewrite forallb_forall. split.
  - intros H i x y Hx Hy.
    specialize (H (S i)). simpl in H. rewrite Nat.sub_0_r, Hx, Hy in H.
    apply H. apply in_seq. apply lookup_lt_Some in Hy. lia.
  - intros H i Hi. apply in_seq in Hi.
    destruct i as [|i]; [lia|]. simpl. rewrite Nat.sub_0_r.
    destruct (lookup_lt_is_Some_2 recent (S i)) as [y Hy]; [lia|].
    destruct (lookup_lt_is_Some_2 recent i) as [x Hx]; [lia|].
    rewrite Hy, Hx. eauto.
Qed.

Lemma all_steps_increasing recent :
  all_steps (fun a b => Py.ltb b a) recent = true <-> strictly_increasing recent.
Proof.
  rewrite all_steps_spec. unfold strictly_increasing.
  split; intros H i x y Hx Hy; apply ltb_lt; eauto.
Qed.

Lemma all_steps_decreasing recent :
  all_steps (fun a b => Py.ltb a b) recent = true <-> strictly_decreasing recent.
Proof.
  rewrite all_steps_spec. unfold strictly_decreasing.
  split; intros H i x y Hx Hy; apply ltb_lt; eauto.
Qed.

(** The slice [trend_direction] looks at. *)
Lemma recent_is_tail values :
  (if decide (3 <= length values)%nat
   then Py.last_slice values 3 else values)
  = last_values (min 3 (length values)) values.
Proof.
  unfold last_values, Py.last_slice. case_decide.
  - now rewrite Nat.min_l.
  - rewrite Nat.min_r by lia. now rewrite Nat.sub_diag.
Qed.

Lemma tail_length values :
  length (last_values (min 3 (length values)) values) = min 3 (length values).
Proof. unfold last_values. rewrite length_drop. lia. Qed.

Lemma not_both_ways recent :
  (2 <= length recent)%nat ->
  strictly_increasing recent -> strictly_decreasing recent -> False.
Proof.
  intros Hlen Hi Hd.
  destruct (lookup_lt_is_Some_2 recent 0) as [x Hx]; [lia|].
  destruct (lookup_lt_is_Some_2 recent 1) as [y Hy]; [lia|].
  specialize (Hi _ _ _ Hx Hy). specialize (Hd _ _ _ Hx Hy). lra.
Qed.

Lemma trend_direction_cases name periods values :
  (2 <= length values)%nat ->
  let recent := last_values (min 3 (length values)) values in
  trend_direction (mk name periods values) =
  if all_steps (fun a b => Py.ltb b a) recent then "improving"
  else if all_steps (fun a b => Py.ltb a b) recent then "declining"
  else "stable".
Proof.
  intros Hlen recent. unfold trend_direction. cbn [TrendMetric.values].
  case_decide; [lia|]. now rewrite recent_is_tail.
Qed.

(** C3.  For a sequence of at least two values the direction depends only
    on its last min(3, n) values: it is improving exactly when they are
    strictly increasing, declining exactly when they are strictly
    decreasing, and stable otherwise.  [10,20,30] is improving, [30,20,10]
    declining and [10,20,15] stable. *)
Theorem C3_trend_direction name periods values :
  (2 <= length values)%nat ->
  let tail := last_values (min 3 (length values)) values in
  let direction := trend_direction (mk name periods values) in
  (direction = "improving" <-> strictly_increasing tail) /\
  (direction = "declining" <-> strictly_decreasing tail) /\
  (direction = "stable" <->
   ~ strictly_increasing tail /\ ~ strictly_decreasing tail) /\
  (forall name' periods' values',
      (2 <= length values')%nat ->
      last_values (min 3 (length values')) values' = tail ->
      trend_direction (mk name' periods' values') = direction) /\
  trend_direction (mk "Net Revenue" ["Q1"; "Q2"; "Q3"] [10; 20; 30])
    = "improving" /\
  trend_direction (mk "Net Revenue" ["Q1"; "Q2"; "Q3"] [30; 20; 10])
    = "declining" /\
  trend_direction (mk "Net Revenue" ["Q1"; "Q2"; "Q3"] [10; 20; 15])
    = "stable".
Proof.
  intros Hlen tail direction.
  assert (Htail : (2 <= length tail)%nat).
  { subst tail. rewrite tail_length. lia. }
  assert (Hdir : direction =
                 if all_steps (fun a b => Py.ltb b a) tail then "improving"
                 else if all_steps (fun a b => Py.ltb a b) tail then "declining"
                 else "stable")
    by (apply trend_direction_cases; exact Hlen).
  pose proof (all_steps_increasing tail) as Hinc.
  pose proof (all_steps_decreasing tail) as Hdec.
  pose proof (not_both_ways tail Htail) as Hexcl.
  repeat split; try reflexivity.
  - intros H. apply Hinc. rewrite Hdir in H.
    destruct (all_steps _ tail); [reflexivity|].
    destruct (all_steps _ tail); discriminate.
  - intros H. apply Hinc in H. now rewrite Hdir, H.
  - intros H. apply Hdec. rewrite Hdir in H.
    destruct (all_steps (fun a b => Py.ltb b a) tail); [discriminate|].
    destruct (all_steps _ tail); [reflexivity | discriminate].
  - intros H. rewrite Hdir.
    destruct (all_steps (fun a b => Py.ltb b a) tail) eqn:E.
    + exfalso. apply Hexcl; [now apply Hinc | exact H].
    + apply Hdec in H. now rewrite H.
  - intros Hi. apply Hinc in Hi. rewrite Hdir, Hi in H. discriminate.
  - intros Hd. apply Hdec in Hd. rewrite Hdir, Hd in H.
    destruct (all_steps _ tail); discriminate.
  - intros [Hni Hnd]. rewrite Hdir.
    destruct (all_steps (fun a b => Py.ltb b a) tail) eqn:Ei;
      [exfalso; apply Hni, Hinc; reflexivity|].
    destruct (all_steps (fun a b => Py.ltb a b) tail) eqn:Ed;
      [exfalso; apply Hnd, Hdec; reflexivity|].
    reflexivity.
  - intros name' periods' values' Hlen' Heq.
    rewrite Hdir, <- Heq. now apply trend_direction_cases.
Qed.

Lemma C3_trend_direction_witness :
  trend_direction (mk "EPS" ["Q1"; "Q2"; "Q3"; "Q4"] [50; 10; 20; 30])
    = "improving" <->
  strictly_increasing [10; 20; 30].
Proof.
  apply (C3_trend_direction "EPS" ["Q1"; "Q2"; "Q3"; "Q4"] [50; 10; 20; 30]).
  simpl. lia.
Defined.

Lemma index_from_end_lookup {A} (l : list A) (k : nat) :
  (1 <= k <= length l)%nat ->
  Py.index_from_end l k = l !! (length l - k)%nat.
Proof. intros H. unfold Py.index_from_end. now case_decide. Qed.

(** C7.  With fewer than four values there is no year-over-year change.
    With four or more, the latest value [values[-1]] is compared with the
    reference [values[-5]] when there are five values or more and with
    [values[-4]] otherwise; the result is the percentage change from the
    reference to the latest value, and there is no result when the
    reference is 0. *)
Theorem C7_yoy_change name periods values :
  let m := mk name periods values in
  let n := length values in
  ((n < 4)%nat -> yoy_change m = None) /\
  ((4 <= n)%nat ->
   exists latest reference,
     values !! (n - 1)%nat = Some latest /\
     values !! (n - (if decide (5 <= n)%nat then 5 else 4))%nat
       = Some reference /\
     (reference == 0 -> yoy_change m = None) /\
     (~ reference == 0 ->
      exists change, yoy_change m = Some change /\
                     change == percentage_change latest reference)).
Proof.
  intros m n. subst m n. unfold yoy_change. cbn [TrendMetric.values].
  split; intros Hn.
  - destruct (decide (4 <= length values)%nat); [lia | reflexivity].
  - destruct (decide (4 <= length values)%nat) as [_|]; [|lia].
    destruct (lookup_lt_is_Some_2 values (length values - 1)) as [latest Hl];
      [lia|].
    destruct (lookup_lt_is_Some_2 values
                (length values - (if decide (5 <= length values)%nat
                                  then 5 else 4)))
      as [reference Hr]; [case_decide; lia|].
    exists latest, reference. split; [exact Hl|]. split; [exact Hr|].
    rewrite (index_from_end_lookup values 1) by lia. rewrite Hl. simpl.
    assert (Href : (if decide (5 <= length values)%nat
                    then Py.index_from_end values 5
                    else Py.index_from_end values 4) = Some reference).
    { case_decide; rewrite index_from_end_lookup by lia; exact Hr. }
    rewrite Href. simpl. split.
    + intros H0. apply eqb_eq in H0. now rewrite H0.
    + intros H0. apply eqb_neq in H0. rewrite H0. simpl.
      eexists. split; [reflexivity|]. unfold percentage_change. reflexivity.
Qed.

Lemma C7_yoy_change_witness :
  exists latest reference,
    [100; 40; 10; 20; 30] !! 4%nat = Some latest /\
    [100; 40; 10; 20; 30] !! 0%nat = Some reference /\
    (reference == 0 ->
     yoy_change (mk "EPS" [] [100; 40; 10; 20; 30]) = None) /\
    (~ reference == 0 ->
     exists change,
       yoy_change (mk "EPS" [] [100; 40; 10; 20; 30]) = Some change /\
       change == percentage_change latest reference).
Proof.
  apply (proj2 (C7_yoy_change "EPS" [] [100; 40; 10; 20; 30])).
  simpl. lia.
Defined.

End Trend.

(** ** Return on invested capital against cost of capital *)

Section RoicWacc.

Import ROICWACCService.
Variable format_f : nat -> Q -> string.
Variable settings : Settings.t.
Variable data_loader : DataLoader.t.

Lemma safe_divide_zero (numerator denominator default : Q) :
  denominator == 0 -> safe_divide numerator denominator default = default.
Proof. intros H. unfold safe_divide. apply eqb_eq in H. now rewrite H. Qed.

Lemma safe_divide_nonzero (numerator denominator default : Q) :
  ~ denominator == 0 ->
  safe_divide numerator denominator default = numerator / denominator.
Proof. intros H. unfold safe_divide. apply eqb_neq in H. now rewrite H. Qed.

(** The derived values of any analysis record. *)
Lemma value_creation_spec (a : ROICWACCAnalysis.t) :
  ROICWACCAnalysis.value_creation_gap a
    == ROICWACCAnalysis.roic a - ROICWACCAnalysis.wacc a /\
  (ROICWACCAnalysis.is_value_creating a = true <->
   ROICWACCAnalysis.wacc a < ROICWACCAnalysis.roic a) /\
  (ROICWACCAnalysis.is_value_creating a = true <->
   0 < ROICWACCAnalysis.value_creation_gap a).
Proof.
  unfold ROICWACCAnalysis.value_creation_gap, ROICWACCAnalysis.is_value_creating.
  rewrite ltb_lt. repeat split; intros; try reflexivity; try assumption; lra.
Qed.

(** C6.  For a stored snapshot and tax rate [t] (the default rate when none
    is given): NOPAT is operating income times [1 - t], invested capital is
    equity plus total liabilities, and ROIC is NOPAT over invested capital
    times 100, or 0 when invested capital is 0; NOPAT 100000 on invested
    capital 1000000 is a ROIC of 10.  [analyze] returns an analysis that
    stores these three values rounded to two decimals, and on which
    [value_creation_gap] is [roic - wacc] and [is_value_creating] holds
    exactly when [roic > wacc], that is when the gap is positive; both are
    functions of the stored [roic] and [wacc]. *)
Theorem C6_roic_and_value_creation
    (stock_code period : string) (market_beta cost_of_debt tax_rate : option Q)
    (snapshot : FinancialSnapshot.t) :
  DataLoader.load_snapshot data_loader stock_code period = Some snapshot ->
  let t := default (Settings.default_tax_rate settings) tax_rate in
  let nopat := _calculate_nopat snapshot t in
  let invested_capital := _calculate_invested_capital snapshot in
  let roic := safe_divide nopat invested_capital 0.0 * 100 in
  nopat == FinancialSnapshot.operating_income snapshot * (1 - t) /\
  invested_capital
    == FinancialSnapshot.equity snapshot
       + FinancialSnapshot.total_liabilities snapshot /\
  (invested_capital == 0 -> roic == 0) /\
  (~ invested_capital == 0 -> roic == nopat / invested_capital * 100) /\
  (nopat == 100000 -> invested_capital == 1000000 -> roic == 10) /\
  exists a,
    analyze format_f settings data_loader stock_code period
            market_beta cost_of_debt tax_rate = Some a /\
    ROICWACCAnalysis.nopat a = Py.round nopat 2 /\
    ROICWACCAnalysis.invested_capital a = Py.round invested_capital 2 /\
    ROICWACCAnalysis.roic a = Py.round roic 2 /\
    ROICWACCAnalysis.value_creation_gap a
      == ROICWACCAnalysis.roic a - ROICWACCAnalysis.wacc a /\
    (ROICWACCAnalysis.is_value_creating a = true <->
     ROICWACCAnalysis.wacc a < ROICWACCAnalysis.roic a) /\
    (ROICWACCAnalysis.is_value_creating a = true <->
     0 < ROICWACCAnalysis.value_creation_gap a).
Proof.
  intros Hload t nopat invested_capital roic.
  split; [reflexivity|]. split; [reflexivity|].
  split; [|split; [|split]].
  - intros H0. subst roic. rewrite (safe_divide_zero _ _ _ H0). reflexivity.
  - intros H0. subst roic. rewrite (safe_divide_nonzero _ _ _ H0). reflexivity.
  - intros Hn Hc. subst roic.
    assert (~ invested_capital == 0) as H0 by (rewrite Hc; discriminate).
    rewrite (safe_divide_nonzero _ _ _ H0), Hn, Hc. reflexivity.
  - unfold analyze. rewrite Hload. simpl.
    eexists. split; [reflexivity|].
    split; [reflexivity|]. split; [reflexivity|]. split; [reflexivity|].
    apply value_creation_spec.
Qed.

End RoicWacc.

Lemma C6_roic_and_value_creation_witness :
  exists a,
    ROICWACCService.analyze Sample.format_f Settings.defaults
      Sample.loader "2330" "2023Q3" None None None = Some a /\
    ROICWACCAnalysis.roic a == 4.8 /\
    ROICWACCAnalysis.wacc a == 6.4 /\
    ROICWACCAnalysis.is_value_creating a = false.
Proof.
  destruct (C6_roic_and_value_creation Sample.format_f Settings.defaults
              Sample.loader "2330" "2023Q3" None None None Sample.tsmc
              eq_refl)
    as (_ & _ & _ & _ & _ & a & Ha & _).
  exists a. split; [exact Ha|].
  vm_compute in Ha. injection Ha as <-. repeat split.
Defined.

(** ** Factor exposures *)

Section Factors.

Import FactorService.
Variables sqrt log : Q -> Q.
Implicit Types (target p : FinancialSnapshot.t)
  (peers : list FinancialSnapshot.t) (data : list Q).

Lemma mean_is_Some data : data <> [] -> is_Some (Statistics.mean data).
Proof. destruct data; [congruence | eauto]. Qed.

Lemma mean_singleton (x : Q) :
  exists m, Statistics.mean [x] = Some m /\ m == x.
Proof.
  eexists. split; [reflexivity|].
  unfold Statistics.fsum, Statistics.of_len. simpl. field.
Qed.

Lemma stdev_is_Some data :
  (2 <= length data)%nat -> is_Some (Statistics.stdev sqrt data).
Proof.
  intros H. unfold Statistics.stdev, Statistics.variance.
  case_decide; [lia|].
  destruct (mean_is_Some data) as [m Hm]; [intros ->; simpl in H; lia|].
  rewrite Hm. simpl. eauto.
Qed.

(** The shared computation raises on an empty peer list only. *)
Lemma peer_z_score_is_Some (v : Q) data :
  data <> [] -> is_Some (peer_z_score sqrt v data).
Proof.
  intros Hne. unfold peer_z_score.
  destruct (mean_is_Some data Hne) as [m ->]. simpl.
  case_decide.
  - destruct (stdev_is_Some data) as [sd ->]; [lia|]. simpl. eauto.
  - simpl. eauto.
Qed.

Lemma peer_z_score_single (v x : Q) :
  exists z, peer_z_score sqrt v [x] = Some z /\ z == (v - x) / 1.0.
Proof.
  unfold peer_z_score.
  destruct (mean_singleton x) as (m & -> & Hm). simpl.
  eexists. split; [reflexivity|].
  unfold calculate_z_score. simpl. rewrite Hm. reflexivity.
Qed.

Lemma calculate_z_score_zero_std (value mean std_dev : Q) :
  std_dev == 0 -> calculate_z_score value mean std_dev == 0.
Proof.
  intros H. unfold calculate_z_score. apply eqb_eq in H. rewrite H. reflexivity.
Qed.

Lemma calculate_z_score_nonzero_std (value mean std_dev : Q) :
  ~ std_dev == 0 ->
  calculate_z_score value mean std_dev == (value - mean) / std_dev.
Proof.
  intros H. unfold calculate_z_score. apply eqb_neq in H. rewrite H. reflexivity.
Qed.

Lemma peer_z_score_zero_std (v : Q) data (sd : Q) :
  (2 <= length data)%nat ->
  Statistics.stdev sqrt data = Some sd -> sd == 0 ->
  exists z, peer_z_score sqrt v data = Some z /\ z == 0.
Proof.
  intros Hlen Hsd H0. unfold peer_z_score.
  destruct (mean_is_Some data) as [m ->]; [intros ->; simpl in Hlen; lia|].
  simpl. case_decide; [|lia]. rewrite Hsd. simpl.
  eexists. split; [reflexivity|]. now apply calculate_z_score_zero_std.
Qed.

(** Each factor is the shared computation on its own values; the Value
    factor first drops the peers without a positive EPS and answers 0.0
    when none is left. *)
Lemma quality_factor_eq target peers :
  _calculate_quality_factor sqrt target peers
  = peer_z_score sqrt (quality_score target) (quality_score <$> peers).
Proof. reflexivity. Qed.

Lemma momentum_factor_eq target peers :
  _calculate_momentum_factor sqrt target peers
  = peer_z_score sqrt (FinancialSnapshot.net_margin target)
                 (FinancialSnapshot.net_margin <$> peers).
Proof. reflexivity. Qed.

Lemma size_factor_eq target peers :
  _calculate_size_factor sqrt log target peers
  = peer_z_score sqrt (log_size log target) (log_size log <$> peers).
Proof. reflexivity. Qed.

Lemma volatility_factor_eq target peers :
  _calculate_volatility_factor sqrt target peers
  = peer_z_score sqrt (FinancialSnapshot.debt_ratio target)
                 (FinancialSnapshot.debt_ratio <$> peers).
Proof. reflexivity. Qed.

Lemma value_factor_eq target peers :
  _calculate_value_factor sqrt target peers
  = match usable_for_value peers with
    | [] => Some 0.0
    | _ => peer_z_score sqrt (FinancialSnapshot.eps target)
                        (FinancialSnapshot.eps <$> usable_for_value peers)
    end.
Proof.
  unfold _calculate_value_factor, usable_for_value.
  now destruct (List.filter _ peers).
Qed.

Lemma value_factor_is_Some target peers :
  is_Some (_calculate_value_factor sqrt target peers).
Proof.
  rewrite value_factor_eq.
  destruct (usable_for_value peers) as [|p l] eqn:E; [eauto|].
  apply peer_z_score_is_Some. discriminate.
Qed.

Lemma fmap_nonempty {A B} (f : A -> B) (l : list A) : l <> [] -> f <$> l <> [].
Proof. destruct l; [congruence | discriminate]. Qed.

(** C4 (as amended).  A factor z-score never raises on a non-empty peer
    list.  With a single peer the deviation is replaced by 1.0 and the
    z-score is (target value - peer value) / 1.0.  When the deviation of two
    or more peers is 0, no substitution takes place: [calculate_z_score]
    answers 0.0 whatever the distance of the target from the peer mean. *)
Theorem C4_degenerate_deviation target peers :
  peers <> [] ->
  let target_score := quality_score target in
  let peer_scores := quality_score <$> peers in
  is_Some (_calculate_quality_factor sqrt target peers) /\
  (forall p, peers = [p] ->
     exists z, _calculate_quality_factor sqrt target peers = Some z /\
               z == (target_score - quality_score p) / 1.0) /\
  (forall sd, (2 <= length peers)%nat ->
     Statistics.stdev sqrt peer_scores = Some sd -> sd == 0 ->
     exists z, _calculate_quality_factor sqrt target peers = Some z /\
               z == 0) /\
  (forall value mean std_dev,
     std_dev == 0 -> calculate_z_score value mean std_dev == 0) /\
  (forall target_value peer_values, peer_values <> [] ->
     is_Some (peer_z_score sqrt target_value peer_values)) /\
  _calculate_momentum_factor sqrt target peers
    = peer_z_score sqrt (FinancialSnapshot.net_margin target)
                   (FinancialSnapshot.net_margin <$> peers) /\
  _calculate_size_factor sqrt log target peers
    = peer_z_score sqrt (log_size log target) (log_size log <$> peers) /\
  _calculate_volatility_factor sqrt target peers
    = peer_z_score sqrt (FinancialSnapshot.debt_ratio target)
                   (FinancialSnapshot.debt_ratio <$> peers) /\
  _calculate_quality_factor sqrt target peers
    = peer_z_score sqrt target_score peer_scores.
Proof.
  intros Hne target_score peer_scores. rewrite quality_factor_eq.
  split; [apply peer_z_score_is_Some, fmap_nonempty, Hne|].
  split; [intros p ->; apply peer_z_score_single|].
  split.
  { intros sd Hlen Hsd H0. apply (peer_z_score_zero_std _ _ sd); auto.
    subst peer_scores. now rewrite length_fmap. }
  split; [apply calculate_z_score_zero_std|].
  split; [intros; now apply peer_z_score_is_Some|].
  repeat split.
Qed.

Variable data_loader : DataLoader.t.

Lemma calculate_exposures_too_few_peers stock_code period peer_stocks :
  (length (load_peers data_loader stock_code period peer_stocks) < 3)%nat ->
  calculate_exposures sqrt log data_loader stock_code period peer_stocks = None.
Proof.
  intros H. unfold calculate_exposures.
  destruct (DataLoader.load_snapshot data_loader stock_code period);
    [simpl|reflexivity].
  case_decide; [reflexivity | lia].
Qed.

(** C5 (as amended).  The minimum of three peers is checked on the peer
    snapshots that load, before any factor filters them: with fewer than
    three, [calculate_exposures] returns no result.  With three or more it
    returns a result however few of them have a positive EPS; the value
    exposure is the rounded Value z-score, which is 0.0 when no peer has a
    positive EPS, (target EPS - peer EPS) / 1.0 when exactly one has, and
    the z-score against the peers with a positive EPS in general. *)
Theorem C5_value_filter_does_not_fail stock_code period peer_stocks target :
  DataLoader.load_snapshot data_loader stock_code period = Some target ->
  let peers := load_peers data_loader stock_code period peer_stocks in
  let result :=
    calculate_exposures sqrt log data_loader stock_code period peer_stocks in
  ((length peers < 3)%nat -> result = None) /\
  ((3 <= length peers)%nat ->
   exists exposures value_z,
     result = Some exposures /\
     _calculate_value_factor sqrt target peers = Some value_z /\
     FactorExposures.value exposures = Py.round value_z 2 /\
     (usable_for_value peers = [] -> value_z = 0.0) /\
     (forall p, usable_for_value peers = [p] ->
        value_z == (FinancialSnapshot.eps target - FinancialSnapshot.eps p)
                   / 1.0) /\
     (usable_for_value peers <> [] ->
      peer_z_score sqrt (FinancialSnapshot.eps target)
                   (FinancialSnapshot.eps <$> usable_for_value peers)
      = Some value_z)).
Proof.
  intros Hload peers result. split.
  - apply calculate_exposures_too_few_peers.
  - intros Hlen. subst result. unfold calculate_exposures.
    rewrite Hload. simpl. fold peers. case_decide; [lia|].
    assert (Hne : peers <> []) by (intros E; rewrite E in Hlen; simpl in Hlen; lia).
    destruct (peer_z_score_is_Some (quality_score target)
                (quality_score <$> peers) (fmap_nonempty _ _ Hne)) as [qz Hq].
    destruct (value_factor_is_Some target peers) as [vz Hv].
    destruct (peer_z_score_is_Some (FinancialSnapshot.net_margin target)
                (FinancialSnapshot.net_margin <$> peers)
                (fmap_nonempty _ _ Hne)) as [mz Hm].
    destruct (peer_z_score_is_Some (log_size log target)
                (log_size log <$> peers) (fmap_nonempty _ _ Hne)) as [sz Hs].
    destruct (peer_z_score_is_Some (FinancialSnapshot.debt_ratio target)
                (FinancialSnapshot.debt_ratio <$> peers)
                (fmap_nonempty _ _ Hne)) as [dz Hd].
    rewrite quality_factor_eq, Hq, Hv, momentum_factor_eq, Hm,
      size_factor_eq, Hs, volatility_factor_eq, Hd. simpl.
    eexists _, vz. split; [reflexivity|]. split; [reflexivity|].
    split; [reflexivity|].
    rewrite value_factor_eq in Hv. split; [|split].
    + intros E. rewrite E in Hv. now injection Hv as <-.
    + intros p E. rewrite E in Hv. simpl in Hv.
      destruct (peer_z_score_single (FinancialSnapshot.eps target)
                  (FinancialSnapshot.eps p)) as (z & Hz & Hzv).
      rewrite Hz in Hv. injection Hv as <-. exact Hzv.
    + intros E. destruct (usable_for_value peers); [congruence | exact Hv].
Qed.

End Factors.

Lemma C4_degenerate_deviation_witness :
  exists z,
    FactorService._calculate_quality_factor Sample.sqrt Sample.tsmc
      [Sample.umc] = Some z /\
    z == (FactorService.quality_score Sample.tsmc
          - FactorService.quality_score Sample.umc) / 1.0.
Proof.
  refine (proj1 (proj2 (C4_degenerate_deviation Sample.sqrt Sample.log
                          Sample.tsmc [Sample.umc] _)) Sample.umc _).
  - discriminate.
  - reflexivity.
Defined.

(** Three peers with the same quality score (-19) and a target that scores
    305/6: the peer deviation is 0 and the quality z-score is 0.0, not the
    distance 305/6 + 19 of the target from the peer mean divided by 1.0. *)
Lemma C4_zero_deviation_counterexample :
  let peers := [Sample.umc; Sample.auo; Sample.htc] in
  let peer_scores := FactorService.quality_score <$> peers in
  let target_score := FactorService.quality_score Sample.tsmc in
  exists mean sd z,
    Statistics.mean peer_scores = Some mean /\
    Statistics.stdev Sample.sqrt peer_scores = Some sd /\
    FactorService._calculate_quality_factor Sample.sqrt Sample.tsmc peers
      = Some z /\
    sd == 0 /\ z == 0 /\
    (target_score - mean) / 1.0 == 419 # 6 /\
    ~ z == (target_score - mean) / 1.0.
Proof.
  do 3 eexists.
  split; [vm_compute; reflexivity|].
  split; [vm_compute; reflexivity|].
  split; [vm_compute; reflexivity|].
  repeat split; vm_compute; congruence.
Qed.

Lemma C5_value_filter_does_not_fail_witness :
  exists exposures,
    FactorService.calculate_exposures Sample.sqrt Sample.log
      Sample.loader "2330" "2023Q3" None = Some exposures /\
    FactorExposures.value exposures = Py.round 0.0 2.
Proof.
  destruct (proj2 (C5_value_filter_does_not_fail Sample.sqrt Sample.log
                     Sample.loader "2330" "2023Q3" None Sample.tsmc
                     eq_refl))
    as (exposures & value_z & Hres & _ & Hval & Hzero & _ & _).
  - vm_compute. lia.
  - exists exposures. split; [exact Hres|].
    rewrite Hval, Hzero; reflexivity.
Defined.

(** The sample store holds three peers of 2330 and none of them has a
    positive EPS, yet the request is answered. *)
Lemma C5_unusable_peers_counterexample :
  let peers := FactorService.load_peers Sample.loader "2330" "2023Q3" None in
  length peers = 3%nat /\
  length (usable_for_value peers) = 0%nat /\
  is_Some (FactorService.calculate_exposures Sample.sqrt Sample.log
             Sample.loader "2330" "2023Q3" None).
Proof.
  split; [reflexivity|]. split; [reflexivity|].
  vm_compute. eauto.
Qed.

(** ** Stable sorting and ranking *)

Section Ranking.

Variable higher_is_better : bool.
Implicit Types (a b c x y : nat * Q) (l : list (nat * Q)).

Local Abbreviation goes_before := (PySort.goes_before snd higher_is_better).
Local Abbreviation insert := (PySort.insert snd higher_is_better).
Local Abbreviation sorted := (PySort.sorted snd higher_is_better).
Local Abbreviation ahead := (outranks higher_is_better).

Lemma goes_before_better a b :
  goes_before a b = true <-> better higher_is_better (snd a) (snd b).
Proof.
  unfold PySort.goes_before, better.
  destruct higher_is_better; apply ltb_lt.
Qed.

Lemma better_cases (v w : Q) :
  better higher_is_better v w \/ v == w \/ better higher_is_better w v.
Proof. unfold better. destruct higher_is_better; lra. Qed.

Lemma ahead_trans a b c : ahead a b -> ahead b c -> ahead a c.
Proof.
  unfold outranks, better.
  destruct higher_is_better; intros [H1|[H1 H1']] [H2|[H2 H2']];
    try (left; lra); right; split; (lra || lia).
Qed.

Lemma ahead_irrefl a : ~ ahead a a.
Proof.
  unfold outranks, better. destruct higher_is_better; intros [H|[_ H]]; (lra || lia).
Qed.

Lemma ahead_asym a b : ahead a b -> ahead b a -> False.
Proof. intros H1 H2. exact (ahead_irrefl a (ahead_trans _ _ _ H1 H2)). Qed.

Lemma ahead_total a b : fst a <> fst b -> ahead a b \/ ahead b a.
Proof.
  intros Hne. unfold outranks.
  destruct (better_cases (snd a) (snd b)) as [H|[H|H]]; [tauto| |tauto].
  destruct (Nat.lt_ge_cases (fst a) (fst b)).
  - left. right. tauto.
  - right. right. split; [now symmetry | lia].
Qed.

Lemma insert_perm x l : insert x l ≡ₚ x :: l.
Proof.
  induction l as [|y l IH]; simpl; [reflexivity|].
  destruct (goes_before y x); [|reflexivity].
  rewrite IH. apply Permutation_swap.
Qed.

Lemma sorted_perm l : sorted l ≡ₚ l.
Proof.
  induction l as [|x l IH]; simpl; [reflexivity|].
  unfold PySort.sorted in *. simpl. now rewrite insert_perm, IH.
Qed.

(** Inserting an element that comes before all of [l] in the input keeps
    the list ordered by rank. *)
Lemma insert_sorted x l :
  Forall (fun y => (fst x < fst y)%nat) l ->
  StronglySorted ahead l ->
  StronglySorted ahead (insert x l).
Proof.
  induction l as [|y l IH]; intros Hidx Hs; simpl.
  - repeat constructor.
  - apply Forall_cons in Hidx as [Hxy Hidx].
    apply StronglySorted_inv in Hs as [Hs Hy].
    destruct (goes_before y x) eqn:E.
    + apply goes_before_better in E. constructor; [now apply IH|].
      rewrite insert_perm. constructor; [now left | exact Hy].
    + constructor; [now constructor|].
      assert (ahead x y) as Hxy'.
      { destruct (better_cases (snd x) (snd y)) as [H|[H|H]].
        - now left.
        - right. tauto.
        - apply goes_before_better in H. congruence. }
      constructor; [exact Hxy'|].
      eapply Forall_impl; [exact Hy|]. simpl. intros z Hz.
      exact (ahead_trans _ _ _ Hxy' Hz).
Qed.

Lemma sorted_sorted l :
  StronglySorted (fun a b => (fst a < fst b)%nat) l ->
  StronglySorted ahead (sorted l).
Proof.
  induction 1 as [|x l Hs IH Hx]; [constructor|].
  change (sorted (x :: l)) with (insert x (sorted l)).
  apply insert_sorted; [|exact IH]. now rewrite sorted_perm.
Qed.

(** The stable sort is determined by its input: any rearrangement of an
    index-ordered list that is ordered by rank is the list [sorted]
    computes, whichever stable sorting algorithm produced it. *)
Lemma sorted_unique l l' :
  StronglySorted (fun a b => (fst a < fst b)%nat) l ->
  l' ≡ₚ l -> StronglySorted ahead l' -> l' = sorted l.
Proof.
  intros Hl Hperm Hs.
  apply (StronglySorted_unique_strong ahead); [|exact Hs| |].
  - intros a b _ _ Hab Hba. exfalso. exact (ahead_asym _ _ Hab Hba).
  - now apply sorted_sorted.
  - now rewrite sorted_perm.
Qed.

End Ranking.

(** ** Enumeration and the rank assignment loop *)

Lemma enumerate_cons {A} (k : nat) (x : A) (l : list A) :
  PySort.enumerate k (x :: l) = (k, x) :: PySort.enumerate (S k) l.
Proof. reflexivity. Qed.

Lemma enumerate_lookup {A} (k : nat) (l : list A) (p : nat) :
  PySort.enumerate k l !! p = (fun v => ((k + p)%nat, v)) <$> l !! p.
Proof.
  revert k p. induction l as [|x l IH]; intros k p; [reflexivity|].
  rewrite enumerate_cons. destruct p as [|p]; simpl.
  - now rewrite Nat.add_0_r.
  - rewrite IH. now rewrite Nat.add_succ_r.
Qed.

Lemma enumerate_fst {A} (k : nat) (l : list A) :
  (PySort.enumerate k l).*1 = seq k (length l).
Proof.
  revert k. induction l as [|x l IH]; intros k; [reflexivity|].
  rewrite enumerate_cons. simpl. now rewrite IH.
Qed.

Lemma enumerate_length {A} (k : nat) (l : list A) :
  length (PySort.enumerate k l) = length l.
Proof. rewrite <- (length_fmap fst), enumerate_fst. apply length_seq. Qed.

Lemma enumerate_elem_of {A} (l : list A) (i : nat) (v : A) :
  (i, v) ∈ PySort.enumerate 0 l <-> l !! i = Some v.
Proof.
  rewrite list_elem_of_lookup. split.
  - intros (p & Hp). rewrite enumerate_lookup in Hp.
    destruct (l !! p) as [w|] eqn:E; simpl in Hp; [|discriminate].
    injection Hp as <- <-. exact E.
  - intros H. exists i. now rewrite enumerate_lookup, H.
Qed.

Lemma enumerate_sorted_by_index {A} (k : nat) (l : list A) :
  StronglySorted (fun a b : nat * A => (fst a < fst b)%nat)
                 (PySort.enumerate k l).
Proof.
  revert k. induction l as [|x l IH]; intros k; [constructor|].
  rewrite enumerate_cons. constructor; [apply IH|].
  apply Forall_forall. intros [j w] Hj.
  apply list_elem_of_lookup in Hj as (p & Hp).
  rewrite enumerate_lookup in Hp.
  destruct (l !! p); simpl in Hp; [|discriminate].
  injection Hp as <- <-. simpl. lia.
Qed.

Lemma setitem_Some {A} (l : list A) (i : nat) (x : A) :
  (i < length l)%nat -> PeerService.setitem l i x = Some (<[i := x]> l).
Proof. intros H. unfold PeerService.setitem. now case_decide. Qed.

(** The loop writes rank [k + p] at the index found at position [p], and
    nothing else, provided the indices are distinct and in range. *)
Lemma rank_loop_spec (l : list (nat * Q)) (k : nat) (r : list nat) :
  NoDup (l.*1) ->
  Forall (fun a => (fst a < length r)%nat) l ->
  exists r',
    fold_left
      (fun acc item =>
         let '(rank, (idx, _)) := item in
         ranking ← acc; PeerService.setitem ranking idx rank)
      (PySort.enumerate k l) (Some r) = Some r' /\
    length r' = length r /\
    (forall p a, l !! p = Some a -> r' !! fst a = Some (k + p)%nat) /\
    (forall i, i ∉ l.*1 -> r' !! i = r !! i).
Proof.
  revert k r. induction l as [|[idx v] l IH]; intros k r Hnd Hrange.
  - exists r. split; [reflexivity|]. split; [reflexivity|].
    split; [intros p a Hp; inversion Hp | reflexivity].
  - rewrite enumerate_cons. simpl.
    apply NoDup_cons in Hnd as [Hfresh Hnd]. simpl in Hfresh.
    apply Forall_cons in Hrange as [Hidx Hrange]. simpl in Hidx.
    rewrite (setitem_Some _ _ _ Hidx).
    destruct (IH (S k) (<[idx := k]> r) Hnd) as (r' & Hfold & Hlen & Hat & Hother).
    { rewrite length_insert. exact Hrange. }
    exists r'. split; [exact Hfold|]. rewrite length_insert in Hlen.
    split; [exact Hlen|]. split.
    + intros [|p] a Hp; simpl in Hp.
      * injection Hp as <-. simpl. rewrite (Hother _ Hfresh).
        rewrite Nat.add_0_r. now apply list_lookup_insert_eq.
      * rewrite (Hat _ _ Hp). f_equal. lia.
    + intros i Hi. apply not_elem_of_cons in Hi as [Hne Hi].
      rewrite (Hother _ Hi). now apply list_lookup_insert_ne.
Qed.

Lemma StronglySorted_lookup_lt {A} (R : A -> A -> Prop) (l : list A)
    (p q : nat) (a b : A) :
  StronglySorted R l -> l !! p = Some a -> l !! q = Some b ->
  (p < q)%nat -> R a b.
Proof.
  intros Hs. revert p q. induction Hs as [|x l Hs IH Hx]; intros p q Hp Hq Hlt.
  - inversion Hp.
  - destruct q as [|q]; [lia|]. simpl in Hq. destruct p as [|p]; simpl in Hp.
    + injection Hp as <-. rewrite Forall_forall in Hx.
      apply Hx. eapply list_elem_of_lookup_2. exact Hq.
    + apply (IH p q); auto. lia.
Qed.

Section RankingOfValues.

Variable higher_is_better : bool.
Variable values : list Q.

Let entries := PySort.enumerate 0 values.
Let sorted_values := PySort.sorted snd higher_is_better entries.

Lemma sorted_values_perm : sorted_values ≡ₚ entries.
Proof. apply sorted_perm. Qed.

Lemma sorted_values_length : length sorted_values = length values.
Proof.
  rewrite sorted_values_perm. apply enumerate_length.
Qed.

Lemma sorted_values_elem (i : nat) (v : Q) :
  (i, v) ∈ sorted_values <-> values !! i = Some v.
Proof. rewrite sorted_values_perm. apply enumerate_elem_of. Qed.

Lemma sorted_values_by_rank :
  StronglySorted (outranks higher_is_better) sorted_values.
Proof. apply sorted_sorted, enumerate_sorted_by_index. Qed.

Lemma sorted_values_indices : sorted_values.*1 ≡ₚ seq 0 (length values).
Proof.
  rewrite sorted_values_perm. unfold entries. now rewrite enumerate_fst.
Qed.

(** The ranking list built by [_compare_metric]: position [p] of the
    sorted entries gives rank [p + 1] to the company whose index it holds. *)
Lemma ranking_of_sorted :
  exists ranking,
    PeerService.assign_ranks sorted_values (replicate (length values) 0%nat)
      = Some ranking /\
    length ranking = length values /\
    (forall p i v, sorted_values !! p = Some (i, v) ->
                   ranking !! i = Some (S p)).
Proof.
  destruct (rank_loop_spec sorted_values 1
              (replicate (length values) 0%nat))
    as (ranking & Hfold & Hlen & Hat & _).
  - rewrite sorted_values_indices. apply NoDup_seq.
  - apply Forall_forall. intros [i v] Hin. simpl.
    rewrite length_replicate.
    apply sorted_values_elem in Hin. now apply lookup_lt_Some in Hin.
  - exists ranking. split; [exact Hfold|].
    rewrite length_replicate in Hlen. split; [exact Hlen|].
    intros p i v Hp. exact (Hat p (i, v) Hp).
Qed.

(** Ranks follow the order "strictly better value, or equal value and
    earlier in the input"; every rank from 1 to n is given once. *)
Lemma ranking_order (ranking : list nat) :
  PeerService.assign_ranks sorted_values (replicate (length values) 0%nat)
    = Some ranking ->
  (forall i, (i < length values)%nat ->
     exists r, ranking !! i = Some r /\ (1 <= r <= length values)%nat) /\
  (forall r, (1 <= r <= length values)%nat ->
     exists i, ranking !! i = Some r) /\
  (forall i j ri rj vi vj,
     ranking !! i = Some ri -> ranking !! j = Some rj ->
     values !! i = Some vi -> values !! j = Some vj ->
     ((ri < rj)%nat <-> outranks higher_is_better (i, vi) (j, vj))).
Proof.
  intros Hr. destruct ranking_of_sorted as (r0 & Hr0 & Hlen & Hat).
  rewrite Hr in Hr0. injection Hr0 as <-.
  assert (Hpos : forall i v, values !! i = Some v ->
            exists p, sorted_values !! p = Some (i, v) /\
                      (p < length values)%nat).
  { intros i v Hv. apply sorted_values_elem in Hv.
    apply list_elem_of_lookup in Hv as (p & Hp). exists p. split; [exact Hp|].
    rewrite <- sorted_values_length. now apply lookup_lt_Some in Hp. }
  split; [|split].
  - intros i Hi. destruct (lookup_lt_is_Some_2 values i Hi) as [v Hv].
    destruct (Hpos _ _ Hv) as (p & Hp & Hlt).
    exists (S p). split; [exact (Hat _ _ _ Hp) | lia].
  - intros r Hrange.
    destruct (lookup_lt_is_Some_2 sorted_values (r - 1)) as [[i v] Hp].
    { rewrite sorted_values_length. lia. }
    exists i. rewrite (Hat _ _ _ Hp). f_equal. lia.
  - intros i j ri rj vi vj Hri Hrj Hvi Hvj.
    destruct (Hpos _ _ Hvi) as (p & Hp & _).
    destruct (Hpos _ _ Hvj) as (q & Hq & _).
    rewrite (Hat _ _ _ Hp) in Hri. rewrite (Hat _ _ _ Hq) in Hrj.
    injection Hri as <-. injection Hrj as <-.
    pose proof sorted_values_by_rank as Hs. split.
    + intros Hlt.
      apply (StronglySorted_lookup_lt _ _ p q _ _ Hs Hp Hq). lia.
    + intros Hahead. destruct (Nat.lt_trichotomy p q) as [H|[H|H]]; [lia| |].
      * subst q. rewrite Hp in Hq. injection Hq as <- <-.
        now apply ahead_irrefl in Hahead.
      * exfalso. apply (ahead_asym _ _ _ Hahead).
        apply (StronglySorted_lookup_lt _ _ q p _ _ Hs Hq Hp). lia.
Qed.

End RankingOfValues.

(** ** Best and worst performer *)

Lemma max_spec (l : list Q) (m : Q) :
  PyList.max l = Some m -> m ∈ l /\ Forall (fun y => y <= m) l.
Proof.
  destruct l as [|x xs]; [discriminate|]. simpl. intros [= <-].
  revert x. induction xs as [|y ys IH]; intros x; simpl.
  - split; [constructor|]. repeat constructor. lra.
  - destruct (IH (if Py.ltb x y then y else x)) as [Hin Hall].
    apply Forall_cons in Hall as [Hle Hall].
    destruct (Py.ltb x y) eqn:E;
      [apply ltb_lt in E | apply ltb_ge in E].
    + split; [now right|]. repeat constructor; [lra | lra | exact Hall].
    + split.
      * apply elem_of_cons in Hin as [->|Hin]; [left | right; now right].
      * repeat constructor; [lra | lra | exact Hall].
Qed.

Lemma min_spec (l : list Q) (m : Q) :
  PyList.min l = Some m -> m ∈ l /\ Forall (fun y => m <= y) l.
Proof.
  destruct l as [|x xs]; [discriminate|]. simpl. intros [= <-].
  revert x. induction xs as [|y ys IH]; intros x; simpl.
  - split; [constructor|]. repeat constructor. lra.
  - destruct (IH (if Py.ltb y x then y else x)) as [Hin Hall].
    apply Forall_cons in Hall as [Hle Hall].
    destruct (Py.ltb y x) eqn:E;
      [apply ltb_lt in E | apply ltb_ge in E].
    + split; [now right|]. repeat constructor; [lra | lra | exact Hall].
    + split.
      * apply elem_of_cons in Hin as [->|Hin]; [left | right; now right].
      * repeat constructor; [lra | lra | exact Hall].
Qed.

Lemma index_Some (l : list Q) (v : Q) (i : nat) :
  PyList.index l v = Some i ->
  exists x, l !! i = Some x /\ x == v /\
            forall j y, (j < i)%nat -> l !! j = Some y -> ~ y == v.
Proof.
  revert i. induction l as [|x l IH]; intros i; simpl; [discriminate|].
  destruct (Py.eqb x v) eqn:E.
  - intros [= <-]. apply eqb_eq in E. exists x.
    split; [reflexivity|]. split; [exact E|]. intros j y Hj. lia.
  - apply eqb_neq in E. destruct (PyList.index l v) as [k|]; [|discriminate].
    simpl. intros [= <-]. destruct (IH k eq_refl) as (z & Hz & Hzv & Hfirst).
    exists z. split; [exact Hz|]. split; [exact Hzv|].
    intros [|j] y Hj Hy; simpl in Hy.
    + now injection Hy as <-.
    + apply (Hfirst j); [lia | exact Hy].
Qed.

Lemma index_is_Some (l : list Q) (v x : Q) :
  x ∈ l -> x == v -> is_Some (PyList.index l v).
Proof.
  intros Hin Hx. induction l as [|y l IH]; [inversion Hin|]. simpl.
  destruct (Py.eqb y v) eqn:E; [eauto|].
  apply elem_of_cons in Hin as [->|Hin].
  - apply eqb_neq in E. contradiction.
  - destruct (IH Hin) as [k ->]. simpl. eauto.
Qed.

(** [best_performer] names the company at the first position holding the
    largest value, when there are as many companies as values. *)
Lemma best_performer_first_max (p : PeerComparison.t) :
  PeerComparison.values p <> [] ->
  length (PeerComparison.companies p) = length (PeerComparison.values p) ->
  exists i name v,
    PeerComparison.best_performer p = Some name /\
    PeerComparison.companies p !! i = Some name /\
    PeerComparison.values p !! i = Some v /\
    (forall j w, PeerComparison.values p !! j = Some w -> w <= v) /\
    (forall j w, (j < i)%nat -> PeerComparison.values p !! j = Some w -> w < v).
Proof.
  intros Hne Hlen. unfold PeerComparison.best_performer.
  destruct (PeerComparison.values p) as [|x xs] eqn:Ev; [congruence|].
  destruct (PyList.max (x :: xs)) as [m|] eqn:Em; [|discriminate].
  destruct (max_spec _ _ Em) as [Hin Hall]. rewrite Forall_forall in Hall.
  destruct (index_is_Some (x :: xs) m m Hin) as [i Hi]; [reflexivity|].
  destruct (index_Some _ _ _ Hi) as (v & Hv & Hvm & Hfirst).
  destruct (lookup_lt_is_Some_2 (PeerComparison.companies p) i) as [name Hn].
  { rewrite Hlen. now apply lookup_lt_Some in Hv. }
  exists i, name, v. cbn [mbind option_bind]. rewrite Hi. cbn [mbind option_bind].
  split; [exact Hn|]. split; [exact Hn|]. split; [exact Hv|]. split.
  - intros j w Hw. rewrite Hvm. apply Hall. eapply list_elem_of_lookup_2, Hw.
  - intros j w Hj Hw.
    assert (w <= m) by (apply Hall; eapply list_elem_of_lookup_2, Hw).
    pose proof (Hfirst j w Hj Hw). rewrite Hvm. lra.
Qed.

Lemma worst_performer_first_min (p : PeerComparison.t) :
  PeerComparison.values p <> [] ->
  length (PeerComparison.companies p) = length (PeerComparison.values p) ->
  exists i name v,
    PeerComparison.worst_performer p = Some name /\
    PeerComparison.companies p !! i = Some name /\
    PeerComparison.values p !! i = Some v /\
    (forall j w, PeerComparison.values p !! j = Some w -> v <= w) /\
    (forall j w, (j < i)%nat -> PeerComparison.values p !! j = Some w -> v < w).
Proof.
  intros Hne Hlen. unfold PeerComparison.worst_performer.
  destruct (PeerComparison.values p) as [|x xs] eqn:Ev; [congruence|].
  destruct (PyList.min (x :: xs)) as [m|] eqn:Em; [|discriminate].
  destruct (min_spec _ _ Em) as [Hin Hall]. rewrite Forall_forall in Hall.
  destruct (index_is_Some (x :: xs) m m Hin) as [i Hi]; [reflexivity|].
  destruct (index_Some _ _ _ Hi) as (v & Hv & Hvm & Hfirst).
  destruct (lookup_lt_is_Some_2 (PeerComparison.companies p) i) as [name Hn].
  { rewrite Hlen. now apply lookup_lt_Some in Hv. }
  exists i, name, v. cbn [mbind option_bind]. rewrite Hi. cbn [mbind option_bind].
  split; [exact Hn|]. split; [exact Hn|]. split; [exact Hv|]. split.
  - intros j w Hw. rewrite Hvm. apply Hall. eapply list_elem_of_lookup_2, Hw.
  - intros j w Hj Hw.
    assert (m <= w) by (apply Hall; eapply list_elem_of_lookup_2, Hw).
    pose proof (Hfirst j w Hj Hw). rewrite Hvm. lra.
Qed.

(** C8.  [_compare_metric] always returns a comparison over the n given
    companies.  Its ranking gives every company a rank between 1 and n and
    uses every rank; company i is ranked before company j exactly when its
    value is strictly better (larger if [higher_is_better], smaller
    otherwise), or equal with i earlier in the input.  Values [10, 30, 20]
    with [higher_is_better] give ranks [3, 1, 2].  [best_performer] and
    [worst_performer] name the company at the first position of the largest
    and of the smallest value, and do not depend on the flag. *)
Theorem C8_peer_ranking (metric_name : string)
    (snapshots : list FinancialSnapshot.t)
    (extractor : FinancialSnapshot.t -> Q) (higher_is_better : bool) :
  let n := length snapshots in
  let values := extractor <$> snapshots in
  let names := FinancialSnapshot.company_name <$> snapshots in
  exists comparison,
    PeerService._compare_metric metric_name snapshots extractor
      higher_is_better = Some comparison /\
    PeerComparison.companies comparison = names /\
    PeerComparison.values comparison = values /\
    length (PeerComparison.ranking comparison) = n /\
    (forall i, (i < n)%nat ->
       exists r, PeerComparison.ranking comparison !! i = Some r /\
                 (1 <= r <= n)%nat) /\
    (forall r, (1 <= r <= n)%nat ->
       exists i, PeerComparison.ranking comparison !! i = Some r) /\
    (forall i j ri rj vi vj,
       PeerComparison.ranking comparison !! i = Some ri ->
       PeerComparison.ranking comparison !! j = Some rj ->
       values !! i = Some vi -> values !! j = Some vj ->
       ((ri < rj)%nat <-> outranks higher_is_better (i, vi) (j, vj))) /\
    (snapshots <> [] ->
     exists i best v,
       PeerComparison.best_performer comparison = Some best /\
       names !! i = Some best /\ values !! i = Some v /\
       (forall j w, values !! j = Some w -> w <= v) /\
       (forall j w, (j < i)%nat -> values !! j = Some w -> w < v)) /\
    (snapshots <> [] ->
     exists i worst v,
       PeerComparison.worst_performer comparison = Some worst /\
       names !! i = Some worst /\ values !! i = Some v /\
       (forall j w, values !! j = Some w -> v <= w) /\
       (forall j w, (j < i)%nat -> values !! j = Some w -> v < w)) /\
    (forall other,
       PeerService._compare_metric metric_name snapshots extractor
         (negb higher_is_better) = Some other ->
       PeerComparison.best_performer other
         = PeerComparison.best_performer comparison /\
       PeerComparison.worst_performer other
         = PeerComparison.worst_performer comparison) /\
    (PeerComparison.ranking
       <$> PeerService._compare_metric "EPS"
             [Sample.alpha; Sample.beta; Sample.gamma]
             FinancialSnapshot.eps true) = Some [3; 1; 2]%nat.
Proof.
  intros n values names.
  assert (Hrun : forall hib,
            PeerService._compare_metric metric_name snapshots extractor hib
            = (ranking ← PeerService.assign_ranks
                 (PySort.sorted snd hib (PySort.enumerate 0 values))
                 (replicate (length values) 0%nat);
               Some (PeerComparison.mk metric_name names values ranking)))
    by (intros []; reflexivity).
  destruct (ranking_of_sorted higher_is_better values)
    as (ranking & Hr & Hlen & _).
  destruct (ranking_order higher_is_better values ranking Hr)
    as (Hrange & Hsurj & Horder).
  assert (Hn : length values = n) by apply length_fmap.
  rewrite Hn in Hlen, Hrange, Hsurj.
  exists (PeerComparison.mk metric_name names values ranking).
  split; [rewrite Hrun, Hr; reflexivity|].
  split; [reflexivity|]. split; [reflexivity|]. split; [exact Hlen|].
  split; [exact Hrange|]. split; [exact Hsurj|]. split; [exact Horder|].
  assert (Hlens : length names = length values)
    by (subst names values; now rewrite !length_fmap).
  split; [|split; [|split]].
  - intros Hne.
    apply (best_performer_first_max
             (PeerComparison.mk metric_name names values ranking));
      [now apply fmap_nonempty | exact Hlens].
  - intros Hne.
    apply (worst_performer_first_min
             (PeerComparison.mk metric_name names values ranking));
      [now apply fmap_nonempty | exact Hlens].
  - intros other Hother. rewrite Hrun in Hother.
    destruct (PeerService.assign_ranks
                (PySort.sorted snd (negb higher_is_better) _) _)
      as [ranking'|]; [|discriminate].
    simpl in Hother. injection Hother as <-. split; reflexivity.
  - reflexivity.
Qed.

(** * Further properties *)

(** ** Utilities *)

Lemma max2_spec (a b : Q) :
  a <= Builtins.max2 a b /\ b <= Builtins.max2 a b /\
  (Builtins.max2 a b = a \/ Builtins.max2 a b = b).
Proof.
  unfold Builtins.max2. destruct (Py.ltb a b) eqn:E;
    [apply ltb_lt in E | apply ltb_ge in E]; repeat split; auto; lra.
Qed.

Lemma min2_spec (a b : Q) :
  Builtins.min2 a b <= a /\ Builtins.min2 a b <= b /\
  (Builtins.min2 a b = a \/ Builtins.min2 a b = b).
Proof.
  unfold Builtins.min2. destruct (Py.ltb b a) eqn:E;
    [apply ltb_lt in E | apply ltb_ge in E]; repeat split; auto; lra.
Qed.

Lemma max2_mono (a b b' : Q) :
  b <= b' -> Builtins.max2 a b <= Builtins.max2 a b'.
Proof.
  intros H. unfold Builtins.max2.
  destruct (Py.ltb a b) eqn:E; [apply ltb_lt in E | apply ltb_ge in E];
    (destruct (Py.ltb a b') eqn:E'; [apply ltb_lt in E' | apply ltb_ge in E']);
    lra.
Qed.

Lemma min2_mono (a b b' : Q) :
  b <= b' -> Builtins.min2 a b <= Builtins.min2 a b'.
Proof.
  intros H. unfold Builtins.min2.
  destruct (Py.ltb b a) eqn:E; [apply ltb_lt in E | apply ltb_ge in E];
    (destruct (Py.ltb b' a) eqn:E'; [apply ltb_lt in E' | apply ltb_ge in E']);
    lra.
Qed.

Lemma clamp_id (x : Q) :
  0 <= x <= 100 -> Builtins.max2 0.0 (Builtins.min2 100.0 x) == x.
Proof.
  intros [H0 H1]. unfold Builtins.max2, Builtins.min2.
  destruct (Py.ltb x 100.0) eqn:E; [apply ltb_lt in E | apply ltb_ge in E].
  - destruct (Py.ltb 0.0 x) eqn:E'; [reflexivity | apply ltb_ge in E'; lra].
  - destruct (Py.ltb 0.0 100.0) eqn:E'; [lra | discriminate].
Qed.

Lemma clamp_range (x : Q) :
  0 <= Builtins.max2 0.0 (Builtins.min2 100.0 x) <= 100.
Proof.
  destruct (max2_spec 0.0 (Builtins.min2 100.0 x)) as (H0 & _ & [E|E]).
  - rewrite E. split; discriminate.
  - split; [lra|]. rewrite E.
    destruct (min2_spec 100.0 x) as (H & _). lra.
Qed.

Lemma div_le_compat_pos (a b c : Q) : 0 < c -> a <= b -> a / c <= b / c.
Proof.
  intros Hc Hab. unfold Qdiv. apply Qmult_le_compat_r; [exact Hab|].
  apply Qlt_le_weak, Qinv_lt_0_compat, Hc.
Qed.

Lemma div_nonneg (a c : Q) : 0 <= a -> 0 < c -> 0 <= a / c.
Proof.
  intros Ha Hc. unfold Qdiv. apply Qmult_le_0_compat; [exact Ha|].
  apply Qlt_le_weak, Qinv_lt_0_compat, Hc.
Qed.

Lemma div_le_one (a c : Q) : 0 < c -> a <= c -> a / c <= 1.
Proof.
  intros Hc Ha. apply Qle_shift_div_r; [exact Hc | lra].
Qed.

Lemma normalize_score_range (value min_val max_val : Q) :
  0 <= normalize_score value min_val max_val <= 100.
Proof.
  unfold normalize_score. destruct (Py.eqb max_val min_val).
  - split; discriminate.
  - apply clamp_range.
Qed.

Lemma normalize_score_linear (value min_val max_val : Q) :
  min_val < max_val -> min_val <= value <= max_val ->
  normalize_score value min_val max_val
  == (value - min_val) / (max_val - min_val) * 100.
Proof.
  intros Hlt [Hlo Hhi]. unfold normalize_score.
  assert (Py.eqb max_val min_val = false) as -> by (apply eqb_neq; lra).
  cbv zeta. apply clamp_id.
  assert (0 <= (value - min_val) / (max_val - min_val))
    by (apply div_nonneg; lra).
  assert ((value - min_val) / (max_val - min_val) <= 1)
    by (apply div_le_one; lra).
  split; lra.
Qed.

Lemma normalize_score_mono (value value' min_val max_val : Q) :
  min_val < max_val -> value <= value' ->
  normalize_score value min_val max_val
  <= normalize_score value' min_val max_val.
Proof.
  intros Hlt Hv. unfold normalize_score.
  assert (Py.eqb max_val min_val = false) as -> by (apply eqb_neq; lra).
  cbv zeta. apply max2_mono, min2_mono.
  apply Qmult_le_compat_r; [|discriminate].
  apply div_le_compat_pos; lra.
Qed.

Lemma normalize_score_ends (min_val max_val : Q) :
  min_val < max_val ->
  normalize_score min_val min_val max_val == 0 /\
  normalize_score max_val min_val max_val == 100.
Proof.
  intros Hlt. split.
  - rewrite normalize_score_linear by lra. field. lra.
  - rewrite normalize_score_linear by lra. field. lra.
Qed.

(** [normalize_score] always answers within [0, 100]; the degenerate range
    gives the midpoint 50; on a proper range it maps the lower end to 0, the
    upper end to 100, is linear in between and never decreases with the
    value. *)
Theorem normalize_score_clamped (value value' min_val max_val : Q) :
  0 <= normalize_score value min_val max_val <= 100 /\
  (max_val == min_val -> normalize_score value min_val max_val == 50) /\
  (min_val < max_val ->
   normalize_score min_val min_val max_val == 0 /\
   normalize_score max_val min_val max_val == 100 /\
   (min_val <= value <= max_val ->
    normalize_score value min_val max_val
    == (value - min_val) / (max_val - min_val) * 100) /\
   (value <= value' ->
    normalize_score value min_val max_val
    <= normalize_score value' min_val max_val)).
Proof.
  split; [apply normalize_score_range|]. split.
  - intros H. unfold normalize_score. apply eqb_eq in H. now rewrite H.
  - intros Hlt. destruct (normalize_score_ends min_val max_val Hlt) as [H0 H1].
    split; [exact H0|]. split; [exact H1|]. split.
    + now apply normalize_score_linear.
    + now apply normalize_score_mono.
Qed.

Lemma normalize_score_clamped_witness :
  normalize_score 0.3 0.0 0.5 == 0.3 / 0.5 * 100.
Proof.
  destruct (normalize_score_clamped 0.3 0.3 0.0 0.5) as (_ & _ & H).
  destruct H as (_ & _ & H & _); [reflexivity|].
  rewrite H; [reflexivity | split; discriminate].
Defined.





Section Volatility.

Variable sqrt : Q -> Q.

(** [calculate_volatility] never lets a [StatisticsError] escape: fewer
    than two values and a zero mean both give 0.0, and otherwise the
    deviation exists and is divided by the (non-zero) mean. *)
Theorem volatility_never_raises (values : list Q) :
  is_Some (calculate_volatility sqrt values) /\
  ((length values < 2)%nat -> calculate_volatility sqrt values = Some 0.0) /\
  (forall mean, Statistics.mean values = Some mean -> mean == 0 ->
     calculate_volatility sqrt values = Some 0.0) /\
  (forall mean, (2 <= length values)%nat ->
     Statistics.mean values = Some mean -> ~ mean == 0 ->
     exists std_dev, Statistics.stdev sqrt values = Some std_dev /\
       calculate_volatility sqrt values = Some (std_dev / mean)).
Proof.
  unfold calculate_volatility.
  destruct (decide (length values < 2)%nat) as [Hlt|Hge].
  - split; [eauto|]. split; [reflexivity|]. split; [reflexivity|]. intros; lia.
  - destruct (mean_is_Some values) as [m Hm].
    { intros ->. simpl in Hge. lia. }
    destruct (stdev_is_Some sqrt values) as [sd Hsd]; [lia|].
    rewrite Hm, Hsd. simpl.
    destruct (Py.eqb m 0) eqn:E; [apply eqb_eq in E | apply eqb_neq in E].
    + split; [eauto|]. split; [reflexivity|]. split; [reflexivity|].
      intros mean _ [= <-] Hne. contradiction.
    + split; [eauto|]. split; [intros; lia|]. split.
      * intros mean [= <-] H0. contradiction.
      * intros mean _ [= <-] _. eauto.
Qed.

End Volatility.

Lemma volatility_never_raises_witness :
  calculate_volatility Sample.sqrt [1; 0; -1] = Some 0.0.
Proof.
  refine (proj1 (proj2 (proj2 (volatility_never_raises Sample.sqrt [1; 0; -1])))
            _ eq_refl _).
  reflexivity.
Defined.

Lemma category_rank_interpret (score : Q) :
  category_rank (interpret_score score) =
  if Py.leb 80 score then 5%nat
  else if Py.leb 60 score then 4%nat
  else if Py.leb 40 score then 3%nat
  else if Py.leb 20 score then 2%nat
  else 1%nat.
Proof.
  unfold interpret_score.
  repeat (match goal with |- context [Py.leb ?a score] =>
            destruct (Py.leb a score) end; try reflexivity).
Qed.

(** [interpret_score] always answers one of its five categories, and a
    higher score never gets a worse category. *)
Theorem interpret_score_monotone (score score' : Q) :
  interpret_score score
    ∈ ["Critical"; "Poor"; "Fair"; "Good"; "Excellent"] /\
  (score <= score' ->
   (category_rank (interpret_score score)
    <= category_rank (interpret_score score'))%nat).
Proof.
  split.
  - unfold interpret_score.
    repeat (match goal with |- context [Py.leb ?a score] =>
              destruct (Py.leb a score) end; [set_solver|]).
    set_solver.
  - intros Hle. rewrite !category_rank_interpret.
    repeat match goal with
           | |- context [Py.leb ?a ?s] =>
               let E := fresh "E" in
               destruct (Py.leb a s) eqn:E;
               [apply leb_le in E
               |apply not_true_iff_false in E; rewrite leb_le in E]
           end; try lia; exfalso; lra.
Qed.

Lemma interpret_score_monotone_witness :
  (category_rank (interpret_score 59.99)
   <= category_rank (interpret_score 60))%nat.
Proof.
  apply (proj2 (interpret_score_monotone 59.99 60)). discriminate.
Defined.

(** ** Snapshot ratios *)



(** ** Early-warning detection *)

Section Detection.

Import EarlyWarningService.
Variable format_f : nat -> Q -> string.
Variable settings : Settings.t.
Implicit Types (current : FinancialSnapshot.t)
  (historical : list FinancialSnapshot.t).


Lemma receivables_at_most_one current historical :
  (length (_check_receivables_spike format_f settings current historical) <= 1)%nat.
Proof.
  unfold _check_receivables_spike.
  destruct (Py.index_from_end historical 1); [|simpl; lia].
  destruct (Py.ltb _ _); simpl; lia.
Qed.

Lemma inventory_at_most_one current historical :
  (length (_check_inventory_spike format_f settings current historical) <= 1)%nat.
Proof.
  unfold _check_inventory_spike.
  destruct (Py.index_from_end historical 1); [|simpl; lia].
  destruct (Py.ltb _ _); simpl; lia.
Qed.

Lemma margin_at_most_one current historical :
  (length (_check_margin_compression format_f settings current historical) <= 1)%nat.
Proof.
  unfold _check_margin_compression.
  case_decide; [simpl; lia|]. destruct (Py.ltb _ _); simpl; lia.
Qed.

Lemma leverage_at_most_one current :
  (length (_check_leverage_deterioration format_f settings current) <= 1)%nat.
Proof.
  unfold _check_leverage_deterioration. destruct (Py.leb _ _); simpl; lia.
Qed.

Lemma cash_burn_at_most_one current historical :
  (length (_check_cash_burn format_f current historical) <= 1)%nat.
Proof.
  unfold _check_cash_burn.
  case_decide; [simpl; lia|]. destruct (Py.ltb _ (-30)); simpl; lia.
Qed.

Lemma cash_flow_at_most_one current :
  (length (_check_negative_cash_flow current) <= 1)%nat.
Proof.
  unfold _check_negative_cash_flow.
  destruct (FinancialSnapshot.operating_cash_flow current); [|simpl; lia].
  destruct (_ && _); simpl; lia.
Qed.

Lemma rules_at_most_six current historical :
  (length (run_rules format_f settings current historical) <= 6)%nat.
Proof.
  unfold run_rules. rewrite !length_app.
  pose proof (receivables_at_most_one current historical).
  pose proof (inventory_at_most_one current historical).
  pose proof (margin_at_most_one current historical).
  pose proof (leverage_at_most_one current).
  pose proof (cash_burn_at_most_one current historical).
  pose proof (cash_flow_at_most_one current).
  lia.
Qed.

(** The level of any list of signals is one of the five documented ones,
    and it is none for the empty list only. *)
Lemma warning_level_known (signals : list EarlyWarningSignal.t) :
  _determine_warning_level signals
    ∈ ["none"; "low"; "medium"; "high"; "critical"] /\
  (_determine_warning_level signals = "none" <-> signals = []).
Proof.
  destruct signals as [|s l].
  - split; [set_solver | tauto].
  - rewrite warning_level_nonempty by discriminate.
    repeat match goal with
           | |- context [if ?b then _ else _] => destruct b
           end; (split; [set_solver | split; discriminate]).
Qed.

(** Without history the four rules that compare with earlier periods stay
    silent. *)
Lemma rules_without_history current :
  run_rules format_f settings current [] =
  _check_leverage_deterioration format_f settings current
  ++ _check_negative_cash_flow current.
Proof. reflexivity. Qed.

Lemma leverage_severities current :
  Forall (fun s => EarlyWarningSignal.severity s = "high"
                   \/ EarlyWarningSignal.severity s = "critical")
         (_check_leverage_deterioration format_f settings current).
Proof.
  unfold _check_leverage_deterioration.
  destruct (Py.leb _ _); [|constructor].
  destruct (Py.leb _ _); (constructor; [simpl; auto | constructor]).
Qed.

Lemma cash_flow_severities current :
  Forall (fun s => EarlyWarningSignal.severity s = "high"
                   \/ EarlyWarningSignal.severity s = "critical")
         (_check_negative_cash_flow current).
Proof.
  unfold _check_negative_cash_flow.
  destruct (FinancialSnapshot.operating_cash_flow current); [|constructor].
  destruct (_ && _); [constructor; [simpl; auto | constructor] | constructor].
Qed.

(** A list that holds a high or critical signal has level high or
    critical. *)
Lemma level_with_high (signals : list EarlyWarningSignal.t) s :
  s ∈ signals ->
  EarlyWarningSignal.severity s = "high"
  \/ EarlyWarningSignal.severity s = "critical" ->
  _determine_warning_level signals = "high"
  \/ _determine_warning_level signals = "critical".
Proof.
  intros Hin Hsev.
  assert (signals <> []) as Hne by (intros ->; inversion Hin).
  rewrite (warning_level_nonempty _ Hne).
  destruct (0 <? signals_of "critical" signals)%nat eqn:Ec; [now right|].
  apply Nat.ltb_ge in Ec. destruct Hsev as [Hh|Hc].
  - assert (0 < signals_of "high" signals)%nat as Hp
      by (apply signals_of_pos; eauto).
    apply Nat.leb_le in Hp. rewrite Hp. now left.
  - assert (0 < signals_of "critical" signals)%nat
      by (apply signals_of_pos; eauto). lia.
Qed.

Lemma level_with_critical (signals : list EarlyWarningSignal.t) s :
  s ∈ signals -> EarlyWarningSignal.severity s = "critical" ->
  _determine_warning_level signals = "critical".
Proof.
  intros Hin Hsev.
  assert (signals <> []) as Hne by (intros ->; inversion Hin).
  rewrite (warning_level_nonempty _ Hne).
  assert (0 < signals_of "critical" signals)%nat as Hp
    by (apply signals_of_pos; eauto).
  apply Nat.ltb_lt in Hp. now rewrite Hp.
Qed.

End Detection.

Section DetectWarnings.

Import EarlyWarningService.
Variable format_f : nat -> Q -> string.
Variable settings : Settings.t.
Variable data_loader : DataLoader.t.
Implicit Types (current : FinancialSnapshot.t) (stock_code period : string)
  (historical_periods : option (list string)).


Lemma detect_warnings_loaded stock_code period historical_periods current :
  DataLoader.load_snapshot data_loader stock_code period = Some current ->
  let signals :=
    run_rules format_f settings current (history_used data_loader stock_code historical_periods) in
  detect_warnings format_f settings data_loader stock_code period historical_periods =
  Some {| EarlyWarningSystem.warning_level := _determine_warning_level signals;
          EarlyWarningSystem.triggered_signals := signals;
          EarlyWarningSystem.recommendation :=
            _generate_recommendations signals
              (_determine_warning_level signals);
          EarlyWarningSystem.commentary :=
            _generate_commentary signals (_determine_warning_level signals) |}.
Proof.
  intros Hload. unfold detect_warnings, history_used. rewrite Hload.
  destruct historical_periods; reflexivity.
Qed.

Lemma recommendation_none_iff (signals : list EarlyWarningSignal.t)
    (level : string) :
  level ∈ ["none"; "low"; "medium"; "high"; "critical"] ->
  (_generate_recommendations signals level
   = "No significant concerns. Maintain current monitoring cadence."
   <-> level = "none").
Proof.
  intros Hin. unfold _generate_recommendations.
  repeat (apply elem_of_cons in Hin as [->|Hin];
          [simpl; split; (reflexivity || discriminate)|]).
  inversion Hin.
Qed.

(** [detect_warnings] answers exactly when the current snapshot exists.
    Its answer holds at most six signals, each medium, high or critical; its
    level is one of none, low, medium, high and critical; and level none,
    the "no significant concerns" recommendation and an empty signal list
    go together. *)
Theorem detect_warnings_well_formed stock_code period historical_periods :
  (detect_warnings format_f settings data_loader stock_code period historical_periods = None <->
   DataLoader.load_snapshot data_loader stock_code period = None) /\
  (forall system,
     detect_warnings format_f settings data_loader stock_code period historical_periods = Some system ->
     (EarlyWarningSystem.signal_count system <= 6)%nat /\
     Forall (fun s => EarlyWarningSignal.severity s ∈ emitted_severities)
            (EarlyWarningSystem.triggered_signals system) /\
     EarlyWarningSystem.warning_level system
       ∈ ["none"; "low"; "medium"; "high"; "critical"] /\
     (EarlyWarningSystem.warning_level system = "none" <->
      EarlyWarningSystem.triggered_signals system = []) /\
     (EarlyWarningSystem.recommendation system
      = "No significant concerns. Maintain current monitoring cadence."
      <-> EarlyWarningSystem.triggered_signals system = [])).
Proof.
  destruct (DataLoader.load_snapshot data_loader stock_code period)
    as [current|] eqn:Hload.
  - rewrite (detect_warnings_loaded _ _ _ _ Hload). cbv zeta.
    split; [split; discriminate|].
    intros system [= <-]. unfold EarlyWarningSystem.signal_count. simpl.
    split; [apply rules_at_most_six|].
    split; [apply rules_emit_known_severities|].
    destruct (warning_level_known
                (run_rules format_f settings current
                   (history_used data_loader stock_code historical_periods)))
      as [Hknown Hnone].
    split; [exact Hknown|]. split; [exact Hnone|].
    rewrite recommendation_none_iff by exact Hknown. exact Hnone.
  - unfold detect_warnings. rewrite Hload. simpl.
    split; [tauto | discriminate].
Qed.

End DetectWarnings.

Lemma detect_warnings_well_formed_witness :
  exists system,
    EarlyWarningService.detect_warnings Sample.format_f Settings.defaults
      Sample.loader "2330" "2023Q3" None = Some system /\
    EarlyWarningSystem.warning_level system = "none" /\
    EarlyWarningSystem.triggered_signals system = [].
Proof.
  destruct (EarlyWarningService.detect_warnings Sample.format_f
              Settings.defaults Sample.loader "2330" "2023Q3" None)
    as [system|] eqn:E; [|vm_compute in E; discriminate].
  exists system. split; [reflexivity|].
  destruct (proj2 (detect_warnings_well_formed Sample.format_f
                     Settings.defaults Sample.loader "2330" "2023Q3" None)
              system E) as (_ & _ & _ & Hnone & _).
  assert (EarlyWarningSystem.triggered_signals system = []) as Hempty
    by (vm_compute in E; injection E as <-; reflexivity).
  split; [apply Hnone, Hempty | exact Hempty].
Defined.

Lemma index_from_end_snoc {A} (l : list A) (x : A) :
  Py.index_from_end (l ++ [x]) 1 = Some x.
Proof.
  unfold Py.index_from_end. rewrite length_app. simpl.
  case_decide; [|lia].
  replace (length l + 1 - 1)%nat with (length l) by lia.
  rewrite lookup_app_r by lia. now rewrite Nat.sub_diag.
Qed.

Lemma growth_rate_self (x : Q) : calculate_growth_rate x x == 0.
Proof.
  unfold calculate_growth_rate.
  destruct (Py.eqb x 0) eqn:E; [reflexivity|].
  apply eqb_neq in E. field. exact E.
Qed.

Section DetectionScenarios.

Import EarlyWarningService.
Variable format_f : nat -> Q -> string.
Variable settings : Settings.t.
Variable data_loader : DataLoader.t.
Implicit Types (current : FinancialSnapshot.t) (stock_code period : string)
  (historical_periods : option (list string)).


(** A debt ratio of 80% or more, with the configured critical threshold at
    or below 80%, makes the overall level critical and the recommendation
    urgent, whatever the history and the other signals. *)
Theorem excess_leverage_is_critical
    stock_code period historical_periods current :
  DataLoader.load_snapshot data_loader stock_code period = Some current ->
  Settings.ews_debt_ratio_critical settings <= 0.8 ->
  80 <= FinancialSnapshot.debt_ratio current ->
  exists system,
    detect_warnings format_f settings data_loader stock_code period historical_periods = Some system /\
    EarlyWarningSystem.warning_level system = "critical" /\
    EarlyWarningSystem.recommendation system
    = "URGENT: Immediate review required. Consider reducing position or exiting. High risk of financial distress." /\
    exists signal,
      signal ∈ EarlyWarningSystem.triggered_signals system /\
      EarlyWarningSignal.signal_name signal = "High Leverage" /\
      EarlyWarningSignal.severity signal = "critical".
Proof.
  intros Hload Hth Hdr.
  rewrite (detect_warnings_loaded _ _ _ _ _ _ _ Hload). cbv zeta.
  eexists. split; [reflexivity|]. simpl.
  set (signals := run_rules format_f settings current _).
  assert (exists signal, signal ∈ signals /\
            EarlyWarningSignal.signal_name signal = "High Leverage" /\
            EarlyWarningSignal.severity signal = "critical")
    as (signal & Hin & Hname & Hsev).
  { subst signals. unfold run_rules, _check_leverage_deterioration.
    assert (0.8 <= FinancialSnapshot.debt_ratio current / 100) as Hd
      by (apply Qle_shift_div_l; [reflexivity | lra]).
    assert (Py.leb (Settings.ews_debt_ratio_critical settings)
                   (FinancialSnapshot.debt_ratio current / 100) = true) as ->
      by (apply leb_le; lra).
    assert (Py.leb 0.8 (FinancialSnapshot.debt_ratio current / 100) = true)
      as -> by (apply leb_le; exact Hd).
    eexists. split.
    - rewrite !elem_of_app. right; right; right; left. left.
    - split; reflexivity. }
  rewrite (level_with_critical _ _ Hin Hsev).
  split; [reflexivity|]. split; [reflexivity|]. eauto.
Qed.

(** A negative operating cash flow puts the overall level at high or
    critical. *)
Theorem negative_cash_flow_is_high
    stock_code period historical_periods current (flow : Q) :
  DataLoader.load_snapshot data_loader stock_code period = Some current ->
  FinancialSnapshot.operating_cash_flow current = Some flow ->
  flow < 0 ->
  exists system,
    detect_warnings format_f settings data_loader stock_code period historical_periods = Some system /\
    (EarlyWarningSystem.warning_level system = "high"
     \/ EarlyWarningSystem.warning_level system = "critical").
Proof.
  intros Hload Hflow Hneg.
  rewrite (detect_warnings_loaded _ _ _ _ _ _ _ Hload). cbv zeta.
  eexists. split; [reflexivity|]. simpl.
  assert (Py.truthy flow && Py.ltb flow 0 = true) as Hfire.
  { apply andb_true_iff. split; [|now apply ltb_lt].
    unfold Py.truthy. apply negb_true_iff, eqb_neq. lra. }
  eapply level_with_high.
  - unfold run_rules, _check_negative_cash_flow. rewrite Hflow, Hfire.
    rewrite !elem_of_app. do 5 right. left.
  - left. reflexivity.
Qed.

(** Without any historical snapshot the four rules that need history stay
    silent instead of failing: at most the leverage and the cash-flow
    signals are raised, so the level is none, high or critical.  This is the
    case in particular when no periods are given and the stock has fewer
    than two available periods. *)
Theorem no_history_degrades stock_code period historical_periods current :
  DataLoader.load_snapshot data_loader stock_code period = Some current ->
  history_used data_loader stock_code historical_periods = [] ->
  exists system,
    detect_warnings format_f settings data_loader stock_code period historical_periods = Some system /\
    EarlyWarningSystem.triggered_signals system
    = _check_leverage_deterioration format_f settings current
      ++ _check_negative_cash_flow current /\
    (EarlyWarningSystem.signal_count system <= 2)%nat /\
    EarlyWarningSystem.warning_level system ∈ ["none"; "high"; "critical"] /\
    ((length (DataLoader.list_available_periods data_loader stock_code) < 2)%nat
     -> history_used data_loader stock_code None = []).
Proof.
  intros Hload Hhist.
  rewrite (detect_warnings_loaded _ _ _ _ _ _ _ Hload). cbv zeta.
  rewrite Hhist, rules_without_history.
  eexists. split; [reflexivity|]. unfold EarlyWarningSystem.signal_count. simpl.
  split; [reflexivity|]. split.
  { rewrite length_app.
    pose proof (leverage_at_most_one format_f settings current).
    pose proof (cash_flow_at_most_one current). lia. }
  split.
  - destruct (_check_leverage_deterioration format_f settings current
              ++ _check_negative_cash_flow current) as [|s l] eqn:E.
    + set_solver.
    + assert (Hs : EarlyWarningSignal.severity s = "high"
                   \/ EarlyWarningSignal.severity s = "critical").
      { pose proof (Forall_app_2 _ _ _ (leverage_severities format_f settings current)
                      (cash_flow_severities current)) as Hall.
        rewrite E in Hall. now apply Forall_cons in Hall as [Hs _]. }
      assert (Hin : s ∈ s :: l) by left.
      destruct (level_with_high (s :: l) s Hin Hs) as [E'|E'];
        rewrite E'; repeat constructor.
  - intros Hfew. unfold history_used. case_decide; [lia | reflexivity].
Qed.

(** When no historical periods are given and the analysed period is the
    latest available one, the snapshot the spike rules take as "previous"
    is the current snapshot itself: with non-negative spike thresholds
    neither the receivables nor the inventory rule fires, whatever the
    figures. *)
Theorem latest_period_compares_with_itself
    stock_code period (earlier : list string) current :
  DataLoader.load_snapshot data_loader stock_code period = Some current ->
  DataLoader.list_available_periods data_loader stock_code
  = earlier ++ [period] ->
  earlier <> [] ->
  0 <= Settings.ews_receivable_spike_threshold settings ->
  0 <= Settings.ews_inventory_spike_threshold settings ->
  let historical := history_used data_loader stock_code None in
  Py.index_from_end historical 1 = Some current /\
  _check_receivables_spike format_f settings current historical = [] /\
  _check_inventory_spike format_f settings current historical = [] /\
  exists system,
    detect_warnings format_f settings data_loader stock_code period None = Some system /\
    EarlyWarningSystem.triggered_signals system
    = _check_margin_compression format_f settings current historical
      ++ _check_leverage_deterioration format_f settings current
      ++ _check_cash_burn format_f current historical
      ++ _check_negative_cash_flow current.
Proof.
  intros Hload Hperiods Hne Hrec Hinv historical.
  assert (Hlast : Py.index_from_end historical 1 = Some current).
  { subst historical. unfold history_used. rewrite Hperiods.
    assert (2 <= length (earlier ++ [period]))%nat as Hlen.
    { rewrite length_app. destruct earlier; [congruence | simpl; lia]. }
    case_decide; [|lia].
    unfold Py.last_slice, DataLoader.load_multiple_periods.
    rewrite drop_app_le by (rewrite length_app; simpl; lia).
    rewrite omap_app. simpl. rewrite Hload. apply index_from_end_snoc. }
  assert (Hrec' : _check_receivables_spike format_f settings current historical
                  = []).
  { unfold _check_receivables_spike. rewrite Hlast.
    replace (Py.ltb _ _) with false; [reflexivity|].
    symmetry. apply ltb_ge. rewrite !growth_rate_self.
    assert (0 <= Settings.ews_receivable_spike_threshold settings * 100)
      by (apply Qmult_le_0_compat; [exact Hrec | discriminate]).
    lra. }
  assert (Hinv' : _check_inventory_spike format_f settings current historical
                  = []).
  { unfold _check_inventory_spike. rewrite Hlast.
    replace (Py.ltb _ _) with false; [reflexivity|].
    symmetry. apply ltb_ge. rewrite !growth_rate_self.
    assert (0 <= Settings.ews_inventory_spike_threshold settings * 100)
      by (apply Qmult_le_0_compat; [exact Hinv | discriminate]).
    lra. }
  split; [exact Hlast|]. split; [exact Hrec'|]. split; [exact Hinv'|].
  rewrite (detect_warnings_loaded _ _ _ _ _ _ _ Hload). cbv zeta.
  eexists. split; [reflexivity|]. simpl. fold historical.
  unfold run_rules. now rewrite Hrec', Hinv'.
Qed.

End DetectionScenarios.

Lemma excess_leverage_is_critical_witness :
  exists system,
    EarlyWarningService.detect_warnings Sample.format_f Settings.defaults
      Scenarios.distressed_only "3000" "2023Q3" None = Some system /\
    EarlyWarningSystem.warning_level system = "critical".
Proof.
  destruct (excess_leverage_is_critical Sample.format_f Settings.defaults
              Scenarios.distressed_only "3000" "2023Q3" None Sample.distressed)
    as (system & Hdetect & Hlevel & _).
  - reflexivity.
  - discriminate.
  - discriminate.
  - eauto.
Defined.

Lemma negative_cash_flow_is_high_witness :
  exists system,
    EarlyWarningService.detect_warnings Sample.format_f Settings.defaults
      Scenarios.distressed_only "3000" "2023Q3" None = Some system /\
    (EarlyWarningSystem.warning_level system = "high"
     \/ EarlyWarningSystem.warning_level system = "critical").
Proof.
  apply (negative_cash_flow_is_high Sample.format_f Settings.defaults
           Scenarios.distressed_only "3000" "2023Q3" None Sample.distressed
           (-60000)); reflexivity.
Defined.

Lemma no_history_degrades_witness :
  exists system,
    EarlyWarningService.detect_warnings Sample.format_f Settings.defaults
      Scenarios.distressed_only "3000" "2023Q3" None = Some system /\
    (EarlyWarningSystem.signal_count system <= 2)%nat.
Proof.
  destruct (no_history_degrades Sample.format_f Settings.defaults
              Scenarios.distressed_only "3000" "2023Q3" None Sample.distressed)
    as (system & Hdetect & _ & Hcount & _).
  - reflexivity.
  - reflexivity.
  - eauto.
Defined.

Lemma latest_period_compares_with_itself_witness :
  EarlyWarningService._check_receivables_spike Sample.format_f
    Settings.defaults Scenarios.q3
    (history_used Scenarios.three_quarters "2330" None) = [].
Proof.
  apply (latest_period_compares_with_itself Sample.format_f Settings.defaults
           Scenarios.three_quarters "2330" "2023Q3" ["2023Q1"; "2023Q2"]
           Scenarios.q3);
    (reflexivity || discriminate).
Defined.

(** ** Rounding *)

Lemma round_half_even_cases (x : Q) :
  let n := Qfloor x in
  (Py.round_half_even x = n /\ x - inject_Z n <= 1 # 2) \/
  (Py.round_half_even x = (n + 1)%Z /\ 1 # 2 <= x - inject_Z n).
Proof.
  intros n. unfold Py.round_half_even. fold n.
  destruct (Py.ltb (x - inject_Z n) (1 # 2)) eqn:E1;
    [apply ltb_lt in E1; left; split; [reflexivity | lra]|].
  apply ltb_ge in E1.
  destruct (Py.ltb (1 # 2) (x - inject_Z n)) eqn:E2;
    [apply ltb_lt in E2; right; split; [reflexivity | lra]|].
  apply ltb_ge in E2.
  destruct (Z.even n); [left | right]; (split; [reflexivity | lra]).
Qed.

Lemma floor_bounds (x : Q) :
  inject_Z (Qfloor x) <= x /\ x < inject_Z (Qfloor x) + 1.
Proof.
  split; [apply Qfloor_le|].
  pose proof (Qlt_floor x) as H. rewrite inject_Z_plus in H. exact H.
Qed.

(** The nearest integer is within one half. *)
Lemma round_half_even_close (x : Q) :
  - (1 # 2) <= inject_Z (Py.round_half_even x) - x <= 1 # 2.
Proof.
  destruct (floor_bounds x) as [Hlo Hhi].
  destruct (round_half_even_cases x) as [[-> H]|[-> H]].
  - lra.
  - rewrite inject_Z_plus. change (inject_Z 1) with 1. lra.
Qed.

Lemma round_half_even_mono (x y : Q) :
  x <= y -> (Py.round_half_even x <= Py.round_half_even y)%Z.
Proof.
  intros Hxy.
  destruct (floor_bounds x) as [Hxl Hxh]. destruct (floor_bounds y) as [Hyl Hyh].
  pose proof (Qfloor_resp_le _ _ Hxy) as Hfl.
  destruct (Z.eq_dec (Qfloor x) (Qfloor y)) as [Heq|Hne].
  - unfold Py.round_half_even. rewrite Heq.
    set (n := Qfloor y) in *.
    destruct (Py.ltb (x - inject_Z n) (1 # 2)) eqn:Ex1;
      [apply ltb_lt in Ex1 | apply ltb_ge in Ex1];
      (destruct (Py.ltb (y - inject_Z n) (1 # 2)) eqn:Ey1;
       [apply ltb_lt in Ey1 | apply ltb_ge in Ey1]);
      try (destruct (Py.ltb (1 # 2) (x - inject_Z n)) eqn:Ex2;
           [apply ltb_lt in Ex2 | apply ltb_ge in Ex2]);
      try (destruct (Py.ltb (1 # 2) (y - inject_Z n)) eqn:Ey2;
           [apply ltb_lt in Ey2 | apply ltb_ge in Ey2]);
      try (destruct (Z.even n)); try lia; exfalso; lra.
  - assert (Qfloor x + 1 <= Qfloor y)%Z as Hstep by lia.
    destruct (round_half_even_cases x) as [[-> _]|[-> _]];
      destruct (round_half_even_cases y) as [[-> _]|[-> _]]; lia.
Qed.

Lemma round_half_even_integer (z : Z) : Py.round_half_even (inject_Z z) = z.
Proof.
  unfold Py.round_half_even. rewrite Qfloor_Z.
  assert (inject_Z z - inject_Z z == 0) as H0 by ring.
  assert (Py.ltb (inject_Z z - inject_Z z) (1 # 2) = true) as ->
    by (apply ltb_lt; rewrite H0; reflexivity).
  reflexivity.
Qed.

Lemma scale_pos (ndigits : nat) : 0 < inject_Z (10 ^ Z.of_nat ndigits).
Proof.
  change 0 with (inject_Z 0). rewrite <- Zlt_Qlt.
  apply Z.pow_pos_nonneg; lia.
Qed.

Lemma round_mono (x y : Q) (ndigits : nat) :
  x <= y -> Py.round x ndigits <= Py.round y ndigits.
Proof.
  intros Hxy. unfold Py.round. pose proof (scale_pos ndigits) as Hs.
  apply div_le_compat_pos; [exact Hs|].
  rewrite <- Zle_Qle. apply round_half_even_mono.
  apply Qmult_le_compat_r; [exact Hxy | now apply Qlt_le_weak].
Qed.

(** [round(x, n)] moves [x] by at most half a unit of the last digit. *)
Lemma round_close (x : Q) (ndigits : nat) :
  Qabs (Py.round x ndigits - x)
  <= (1 # 2) / inject_Z (10 ^ Z.of_nat ndigits).
Proof.
  unfold Py.round. pose proof (scale_pos ndigits) as Hs.
  set (s := inject_Z (10 ^ Z.of_nat ndigits)) in *.
  pose proof (round_half_even_close (x * s)) as [Hlo Hhi].
  set (r := inject_Z (Py.round_half_even (x * s))) in *.
  assert (r / s - x == (r - x * s) / s) as -> by (field; lra).
  apply Qabs_Qle_condition. split.
  - assert (- ((1 # 2) / s) == (- (1 # 2)) / s) as -> by (field; lra).
    now apply div_le_compat_pos.
  - now apply div_le_compat_pos.
Qed.

(** A multiple of the unit of the last digit is left as it is. *)
Lemma round_exact (z : Z) (ndigits : nat) :
  Py.round (inject_Z z / inject_Z (10 ^ Z.of_nat ndigits)) ndigits
  == inject_Z z / inject_Z (10 ^ Z.of_nat ndigits).
Proof.
  unfold Py.round. pose proof (scale_pos ndigits) as Hs.
  set (s := inject_Z (10 ^ Z.of_nat ndigits)) in *.
  assert (inject_Z z / s * s == inject_Z z) as Hz by (field; lra).
  assert (Py.round_half_even (inject_Z z / s * s) = z) as ->; [|reflexivity].
  rewrite <- (round_half_even_integer z) at 2.
  unfold Py.round_half_even.
  rewrite (Qfloor_comp _ _ Hz).
  assert (Py.ltb (inject_Z z / s * s - inject_Z (Qfloor (inject_Z z))) (1 # 2)
          = Py.ltb (inject_Z z - inject_Z (Qfloor (inject_Z z))) (1 # 2)) as ->.
  { apply eq_true_iff_eq. rewrite !ltb_lt, Hz. reflexivity. }
  assert (Py.ltb (1 # 2) (inject_Z z / s * s - inject_Z (Qfloor (inject_Z z)))
          = Py.ltb (1 # 2) (inject_Z z - inject_Z (Qfloor (inject_Z z)))) as ->.
  { apply eq_true_iff_eq. rewrite !ltb_lt, Hz. reflexivity. }
  reflexivity.
Qed.

Lemma round_score_range (x : Q) :
  0 <= x <= 100 -> 0 <= Py.round x 2 <= 100.
Proof.
  intros [H0 H1]. split.
  - assert (Py.round 0 2 == 0) as <- by reflexivity. now apply round_mono.
  - assert (Py.round 100 2 == 100) as <- by reflexivity. now apply round_mono.
Qed.

Lemma round_proper (x y : Q) (ndigits : nat) :
  x == y -> Py.round x ndigits == Py.round y ndigits.
Proof.
  intros H. apply Qle_antisym; apply round_mono; rewrite H; apply Qle_refl.
Qed.

(** ** Cost of capital *)

Section CostOfCapital.

Import ROICWACCService.
Variable format_f : nat -> Q -> string.
Variable settings : Settings.t.
Variable data_loader : DataLoader.t.
Implicit Types (snapshot : FinancialSnapshot.t) (stock_code period : string)
  (market_beta cost_of_debt tax_rate : option Q).



End CostOfCapital.


Section CapitalEdgeCases.

Import ROICWACCService.
Variable format_f : nat -> Q -> string.
Variable settings : Settings.t.
Variable data_loader : DataLoader.t.
Implicit Types (snapshot : FinancialSnapshot.t) (stock_code period : string)
  (market_beta cost_of_debt tax_rate : option Q).


(** A company without any capital (equity plus liabilities is 0) is not a
    failure: ROIC and WACC are both reported as 0, the value-creation gap is
    0 and the company does not count as value creating. *)
Theorem zero_capital_is_neutral
    stock_code period market_beta cost_of_debt tax_rate snapshot :
  DataLoader.load_snapshot data_loader stock_code period = Some snapshot ->
  FinancialSnapshot.equity snapshot
  + FinancialSnapshot.total_liabilities snapshot == 0 ->
  exists analysis,
    analyze format_f settings data_loader stock_code period market_beta cost_of_debt tax_rate = Some analysis /\
    ROICWACCAnalysis.roic analysis == 0 /\
    ROICWACCAnalysis.wacc analysis == 0 /\
    ROICWACCAnalysis.value_creation_gap analysis == 0 /\
    ROICWACCAnalysis.is_value_creating analysis = false.
Proof.
  intros Hload Hzero. unfold analyze. rewrite Hload. cbn [mbind option_bind].
  unfold _calculate_invested_capital.
  rewrite !(safe_divide_zero _ _ _ Hzero).
  eexists. split; [reflexivity|].
  unfold ROICWACCAnalysis.value_creation_gap, ROICWACCAnalysis.is_value_creating.
  cbn [ROICWACCAnalysis.roic ROICWACCAnalysis.wacc].
  assert (Hr : Py.round (0.0 * 100) 2 == 0) by reflexivity.
  assert (Hw : forall a b, Py.round ((0.0 * a + 0.0 * b) * 100) 2 == 0).
  { intros a b. rewrite (round_proper _ 0); [reflexivity | ring]. }
  split; [exact Hr|]. split; [apply Hw|].
  split; [rewrite Hr, Hw; reflexivity|].
  apply ltb_ge. rewrite Hr, Hw. apply Qle_refl.
Qed.

(** The estimated pre-tax cost of debt is the 3% base rate plus at most 5
    points: it stays between 3% and 8% whenever liabilities are between 0
    and total assets. *)
Theorem estimated_cost_of_debt_bounds snapshot :
  0 <= FinancialSnapshot.total_liabilities snapshot ->
  FinancialSnapshot.total_liabilities snapshot
  <= FinancialSnapshot.total_assets snapshot ->
  0.03 <= _estimate_cost_of_debt snapshot <= 0.08.
Proof.
  intros H0 H1. unfold _estimate_cost_of_debt, FinancialSnapshot.debt_ratio.
  cbv zeta.
  destruct (Py.eqb (FinancialSnapshot.total_assets snapshot) 0) eqn:E;
    [split; discriminate|].
  apply eqb_neq in E.
  assert (Hpos : 0 < FinancialSnapshot.total_assets snapshot).
  { destruct (Qlt_le_dec 0 (FinancialSnapshot.total_assets snapshot));
      [assumption|]. exfalso. apply E. lra. }
  set (share := FinancialSnapshot.total_liabilities snapshot
                / FinancialSnapshot.total_assets snapshot).
  assert (0 <= share) by (apply div_nonneg; assumption).
  assert (share <= 1) by (apply div_le_one; assumption).
  assert (share * 100 / 100 * 0.05 == share * 0.05) as -> by field.
  split; lra.
Qed.

(** The stored NOPAT, invested capital and ROIC are the exact values
    rounded to two decimals: each is within 0.005 of the exact value, and an
    exact value with at most two decimals is stored unchanged. *)
Theorem stored_figures_are_rounded
    stock_code period market_beta cost_of_debt tax_rate snapshot :
  DataLoader.load_snapshot data_loader stock_code period = Some snapshot ->
  let t := default (Settings.default_tax_rate settings) tax_rate in
  let nopat := FinancialSnapshot.operating_income snapshot * (1 - t) in
  let capital :=
    FinancialSnapshot.equity snapshot
    + FinancialSnapshot.total_liabilities snapshot in
  let roic := safe_divide nopat capital 0.0 * 100 in
  exists analysis,
    analyze format_f settings data_loader stock_code period market_beta cost_of_debt tax_rate = Some analysis /\
    Qabs (ROICWACCAnalysis.nopat analysis - nopat) <= 0.005 /\
    Qabs (ROICWACCAnalysis.invested_capital analysis - capital) <= 0.005 /\
    Qabs (ROICWACCAnalysis.roic analysis - roic) <= 0.005 /\
    (forall cents : Z, roic == inject_Z cents / 100 ->
       ROICWACCAnalysis.roic analysis == roic).
Proof.
  intros Hload t nopat capital roic.
  unfold analyze. rewrite Hload. cbn [mbind option_bind].
  eexists. split; [reflexivity|].
  cbn [ROICWACCAnalysis.nopat ROICWACCAnalysis.invested_capital
       ROICWACCAnalysis.roic].
  assert (Hhalf : (1 # 2) / inject_Z (10 ^ Z.of_nat 2) == 0.005) by reflexivity.
  split; [rewrite <- Hhalf; apply round_close|].
  split; [rewrite <- Hhalf; apply round_close|].
  split; [rewrite <- Hhalf; apply round_close|].
  intros cents Hc.
  change (Py.round roic 2 == roic).
  rewrite (round_proper _ _ 2 Hc), Hc. apply (round_exact cents 2).
Qed.

End CapitalEdgeCases.

Lemma zero_capital_is_neutral_witness :
  exists analysis,
    ROICWACCService.analyze Sample.format_f Settings.defaults
      Scenarios.shell_only "9999" "2023Q3" None None None = Some analysis /\
    ROICWACCAnalysis.roic analysis == 0 /\
    ROICWACCAnalysis.wacc analysis == 0 /\
    ROICWACCAnalysis.value_creation_gap analysis == 0 /\
    ROICWACCAnalysis.is_value_creating analysis = false.
Proof.
  apply (zero_capital_is_neutral Sample.format_f Settings.defaults
           Scenarios.shell_only "9999" "2023Q3" None None None Scenarios.shell);
    reflexivity.
Defined.

Lemma estimated_cost_of_debt_bounds_witness :
  0.03 <= ROICWACCService._estimate_cost_of_debt Sample.tsmc <= 0.08.
Proof.
  apply (estimated_cost_of_debt_bounds Sample.tsmc); discriminate.
Defined.

Lemma stored_figures_are_rounded_witness :
  exists analysis,
    ROICWACCService.analyze Sample.format_f Settings.defaults Sample.loader
      "2330" "2023Q3" None None None = Some analysis /\
    Qabs (ROICWACCAnalysis.roic analysis
          - safe_divide (300000 * (1 - 0.2)) (3000000 + 2000000) 0.0 * 100)
    <= 0.005.
Proof.
  destruct (stored_figures_are_rounded Sample.format_f Settings.defaults
              Sample.loader "2330" "2023Q3" None None None Sample.tsmc eq_refl)
    as (analysis & Hrun & _ & _ & Hroic & _).
  exists analysis. split; [exact Hrun | exact Hroic].
Defined.

(** ** Peer universe of the factor exposures *)

Lemma omap_length_le {A B} (f : A -> option B) (l : list A) :
  (length (omap f l) <= length l)%nat.
Proof.
  induction l as [|x l IH]; csimpl; [lia|].
  destruct (f x); csimpl; lia.
Qed.

Section PeerUniverse.

Import FactorService.
Variable data_loader : DataLoader.t.
Implicit Types (stock_code period : string) (peer_stocks : list string).

(** A list of fewer than three peer codes is ignored: the peers are then,
    as when no list is given, loaded from the first 20 available stocks
    other than the target, so they are at most 20 and none of them was
    loaded under the target's code.  A list of three codes or more is used
    as it is, without removing the target's own code. *)
Theorem short_peer_list_is_replaced stock_code period peer_stocks :
  ((length peer_stocks < 3)%nat ->
   load_peers data_loader stock_code period (Some peer_stocks)
   = load_peers data_loader stock_code period None) /\
  (length (load_peers data_loader stock_code period None) <= 20)%nat /\
  (forall peer,
     peer ∈ load_peers data_loader stock_code period None ->
     exists code,
       code <> stock_code /\
       code ∈ DataLoader.list_all_stocks data_loader /\
       DataLoader.load_snapshot data_loader code period = Some peer) /\
  ((3 <= length peer_stocks)%nat ->
   load_peers data_loader stock_code period (Some peer_stocks)
   = omap (fun code => DataLoader.load_snapshot data_loader code period)
          peer_stocks).
Proof.
  unfold load_peers. split; [|split; [|split]].
  - intros Hlt. case_decide; [reflexivity | lia].
  - etransitivity; [apply omap_length_le|]. apply firstn_le_length.
  - intros peer Hin. apply list_elem_of_omap in Hin as (code & Hcode & Hload).
    exists code. apply elem_of_take in Hcode as (i & Hi & _).
    apply list_elem_of_lookup_2, list_elem_of_In, filter_In in Hi as [Hin Hne].
    split; [|split; [now apply list_elem_of_In | exact Hload]].
    apply negb_true_iff, String.eqb_neq in Hne. exact Hne.
  - intros Hge. case_decide; [lia | reflexivity].
Qed.

End PeerUniverse.

Lemma short_peer_list_is_replaced_witness :
  FactorService.load_peers Sample.loader "2330" "2023Q3"
    (Some ["2303"; "2409"])
  = FactorService.load_peers Sample.loader "2330" "2023Q3" None.
Proof.
  apply (proj1 (short_peer_list_is_replaced Sample.loader "2330" "2023Q3"
                  ["2303"; "2409"])).
  simpl. lia.
Defined.

(** ** Commentary of the factor exposures *)

Lemma last_char_append (s : string) (c : ascii) :
  last_char (s +:+ String c EmptyString) = Some c.
Proof.
  induction s as [|a s IH]; [reflexivity|].
  change (last_char (String a (s +:+ String c EmptyString)) = Some c).
  destruct s as [|b s]; [reflexivity|].
  exact IH.
Qed.

(** The factor commentary always names a size bucket, so it is a list of
    capitalized findings closed by a full stop and never the sentence kept
    for an empty list of findings. *)
Theorem factor_commentary_names_size (quality value momentum size volatility : Q) :
  exists parts,
    FactorService._generate_commentary quality value momentum size volatility
    = PyStr.join ". " (PyStr.capitalize <$> parts) +:+ "." /\
    size_label size ∈ parts /\
    FactorService._generate_commentary quality value momentum size volatility
    <> "Neutral factor profile across dimensions".
Proof.
  assert (Hdot : forall body : string,
            body +:+ "." <> "Neutral factor profile across dimensions").
  { intros body Heq. apply (f_equal last_char) in Heq.
    rewrite last_char_append in Heq. discriminate Heq. }
  unfold FactorService._generate_commentary, size_label. cbv zeta.
  repeat match goal with
         | |- context [Py.ltb ?a ?b] => destruct (Py.ltb a b)
         end;
    (eexists; split; [reflexivity|]; split;
     [repeat constructor | apply Hdot]).
Qed.

(** ** Management quality components *)

(** The insider score depends on the net number of transactions only, never
    decreases when that number grows, takes one of six values, and is 60
    when buys and sells balance. *)
Theorem insider_alignment_steps (buys sells buys' sells' : Z) :
  ManagementService._score_insider_alignment buys sells
    ∈ [0.0; 20.0; 40.0; 60.0; 80.0; 100.0] /\
  ((buys - sells = buys' - sells')%Z ->
   ManagementService._score_insider_alignment buys sells
   = ManagementService._score_insider_alignment buys' sells') /\
  ((buys - sells <= buys' - sells')%Z ->
   ManagementService._score_insider_alignment buys sells
   <= ManagementService._score_insider_alignment buys' sells') /\
  ((buys = sells)%Z ->
   ManagementService._score_insider_alignment buys sells = 60.0).
Proof.
  unfold ManagementService._score_insider_alignment. cbv zeta.
  split; [|split; [|split]].
  - repeat match goal with
           | |- context [(?a <=? ?b)%Z] => destruct (a <=? b)%Z
           end; repeat constructor.
  - intros ->. reflexivity.
  - intros Hle.
    repeat match goal with
           | |- context [(?a <=? ?b)%Z] =>
               let E := fresh "E" in
               destruct (a <=? b)%Z eqn:E;
               [apply Z.leb_le in E | apply Z.leb_gt in E]
           end; try discriminate; try (apply Qle_refl); lia.
  - intros ->. rewrite Z.sub_diag. reflexivity.
Qed.

Lemma insider_alignment_steps_witness :
  ManagementService._score_insider_alignment 1 4
  <= ManagementService._score_insider_alignment 3 1.
Proof.
  apply (proj1 (proj2 (proj2 (insider_alignment_steps 1 4 3 1)))). lia.
Defined.

Lemma governance_many_flags (red_flags : Z) :
  (4 <= red_flags)%Z -> ManagementService._score_governance red_flags = 0.0.
Proof.
  intros H. unfold ManagementService._score_governance.
  destruct (red_flags =? 0)%Z eqn:E0; [apply Z.eqb_eq in E0; lia|].
  destruct (red_flags =? 1)%Z eqn:E1; [apply Z.eqb_eq in E1; lia|].
  destruct (red_flags =? 2)%Z eqn:E2; [apply Z.eqb_eq in E2; lia|].
  unfold Builtins.max2.
  replace (Py.ltb 0.0 _) with false; [reflexivity|].
  symmetry. apply ltb_ge.
  assert (2 <= inject_Z (red_flags - 2)).
  { change 2 with (inject_Z 2). rewrite <- Zle_Qle. lia. }
  lra.
Qed.

Lemma governance_values (f : Z) :
  (0 <= f)%Z ->
  (f = 0%Z /\ ManagementService._score_governance f == 100) \/
  (f = 1%Z /\ ManagementService._score_governance f == 70) \/
  (f = 2%Z /\ ManagementService._score_governance f == 40) \/
  (f = 3%Z /\ ManagementService._score_governance f == 20) \/
  ((4 <= f)%Z /\ ManagementService._score_governance f == 0).
Proof.
  intros Hf. destruct (Z_lt_le_dec f 4) as [Hlt|Hge].
  - assert (f = 0%Z \/ f = 1%Z \/ f = 2%Z \/ f = 3%Z)
      as [ -> | [ -> | [ -> | -> ] ] ] by lia;
      [left | right; left | right; right; left | right; right; right; left];
      split; reflexivity.
  - do 4 right. split; [exact Hge|]. now rewrite governance_many_flags.
Qed.

Lemma governance_range (f : Z) :
  (0 <= f)%Z -> 0 <= ManagementService._score_governance f <= 100.
Proof.
  intros Hf.
  destruct (governance_values _ Hf)
    as [[_ ->]|[[_ ->]|[[_ ->]|[[_ ->]|[_ ->]]]]]; split; discriminate.
Qed.

Lemma insider_range (buys sells : Z) :
  0 <= ManagementService._score_insider_alignment buys sells <= 100.
Proof.
  unfold ManagementService._score_insider_alignment. cbv zeta.
  repeat match goal with
         | |- context [(?a <=? ?b)%Z] => destruct (a <=? b)%Z
         end; split; discriminate.
Qed.

Lemma board_range (independence_ratio : Q) (family_controlled : bool) :
  0 <= ManagementService._score_board_independence independence_ratio
         family_controlled <= 100.
Proof.
  unfold ManagementService._score_board_independence. cbv zeta.
  pose proof (normalize_score_range independence_ratio 0.0 0.5) as [Hlo Hhi].
  destruct family_controlled; split; lra.
Qed.

(** With no negative count of red flags the governance score is 100, 70,
    40 and 20 for zero to three flags and 0 from four flags on: it stays
    within [0, 100], never increases with the number of flags, and is 0
    exactly from four flags on. *)
Theorem governance_score_steps (red_flags red_flags' : Z) :
  (0 <= red_flags)%Z ->
  0 <= ManagementService._score_governance red_flags <= 100 /\
  ((red_flags <= red_flags')%Z ->
   ManagementService._score_governance red_flags'
   <= ManagementService._score_governance red_flags) /\
  (ManagementService._score_governance red_flags == 0 <-> (4 <= red_flags)%Z) /\
  (red_flags = 3%Z -> ManagementService._score_governance red_flags == 20).
Proof.
  intros H0.
  split; [now apply governance_range|]. split; [|split].
  - intros Hle. assert (0 <= red_flags')%Z as H0' by lia.
    destruct (governance_values _ H0)
      as [[? ->]|[[? ->]|[[? ->]|[[? ->]|[? ->]]]]];
      destruct (governance_values _ H0')
        as [[? ->]|[[? ->]|[[? ->]|[[? ->]|[? ->]]]]];
      try lia; discriminate.
  - destruct (governance_values _ H0)
      as [[? E]|[[? E]|[[? E]|[[? E]|[? E]]]]];
      rewrite E; split; intros; try lia; try discriminate; reflexivity.
  - intros ->. reflexivity.
Qed.

Lemma governance_score_steps_witness :
  ManagementService._score_governance 3 == 20.
Proof.
  apply (proj2 (proj2 (proj2 (governance_score_steps 3 3 ltac:(lia))))).
  reflexivity.
Defined.

(** The board score stays within [0, 100]; half or more independent
    directors give the full score; family control multiplies the score by
    0.7, which caps it at 70 and never raises it. *)
Theorem board_independence_score (independence_ratio : Q) :
  0 <= ManagementService._score_board_independence independence_ratio false
    <= 100 /\
  0 <= ManagementService._score_board_independence independence_ratio true
    <= 70 /\
  ManagementService._score_board_independence independence_ratio true
  == 0.7 * ManagementService._score_board_independence independence_ratio false /\
  ManagementService._score_board_independence independence_ratio true
  <= ManagementService._score_board_independence independence_ratio false /\
  (0.5 <= independence_ratio ->
   ManagementService._score_board_independence independence_ratio false == 100) /\
  (independence_ratio <= 0 ->
   ManagementService._score_board_independence independence_ratio false == 0).
Proof.
  unfold ManagementService._score_board_independence. cbv zeta.
  pose proof (normalize_score_range independence_ratio 0.0 0.5) as [Hlo Hhi].
  destruct (normalize_score_ends 0.0 0.5) as [Hzero Hfull]; [reflexivity|].
  split; [split; assumption|]. split; [split; lra|].
  split; [ring|]. split; [lra|]. split.
  - intros Hhalf.
    pose proof (normalize_score_mono 0.5 independence_ratio 0.0 0.5
                  ltac:(reflexivity) Hhalf). lra.
  - intros Hneg.
    assert (independence_ratio <= 0.0) as Hneg' by lra.
    pose proof (normalize_score_mono independence_ratio 0.0 0.0 0.5
                  ltac:(reflexivity) Hneg'). lra.
Qed.

Lemma board_independence_score_witness :
  ManagementService._score_board_independence 0.6 false == 100.
Proof.
  apply (proj1 (proj2 (proj2 (proj2 (proj2 (board_independence_score 0.6)))))).
  discriminate.
Defined.

Lemma div_lt_one (a c : Q) : 0 < c -> a < c -> a / c < 1.
Proof. intros Hc Ha. apply Qlt_shift_div_r; [exact Hc | lra]. Qed.

Lemma management_div_Some (a b : Q) :
  ~ b == 0 -> ManagementService.div a b = Some (a / b).
Proof.
  intros H. unfold ManagementService.div. apply eqb_neq in H. now rewrite H.
Qed.

Section Tenure.

Variable settings : Settings.t.
Hypothesis good_positive : (0 < Settings.management_tenure_good settings)%Z.
Hypothesis excellent_above_good :
  (Settings.management_tenure_good settings
   < Settings.management_tenure_excellent settings)%Z.

Let good := inject_Z (Settings.management_tenure_good settings).
Let excellent := inject_Z (Settings.management_tenure_excellent settings).

Lemma thresholds_ordered : 0 < good /\ good < excellent.
Proof using good_positive excellent_above_good.
  unfold good, excellent. change 0 with (inject_Z 0).
  rewrite <- !Zlt_Qlt. auto.
Qed.

(** The three pieces of the tenure ramp. *)
Lemma tenure_pieces (avg_tenure : Q) :
  (avg_tenure < good ->
   ManagementService._score_tenure settings avg_tenure
   = Some (avg_tenure / good * 60.0)) /\
  (good <= avg_tenure -> avg_tenure < excellent ->
   ManagementService._score_tenure settings avg_tenure
   = Some (60.0 + 40.0 * (avg_tenure - good) / (excellent - good))) /\
  (excellent <= avg_tenure ->
   ManagementService._score_tenure settings avg_tenure = Some 100.0).
Proof using good_positive excellent_above_good.
  destruct thresholds_ordered as [Hg He].
  unfold ManagementService._score_tenure. fold good excellent. cbv zeta.
  split; [|split].
  - intros Hlt.
    assert (Py.leb excellent avg_tenure = false) as ->
      by (apply not_true_iff_false; rewrite leb_le; lra).
    assert (Py.leb good avg_tenure = false) as ->
      by (apply not_true_iff_false; rewrite leb_le; lra).
    rewrite management_div_Some by lra. reflexivity.
  - intros Hge Hlt.
    assert (Py.leb excellent avg_tenure = false) as ->
      by (apply not_true_iff_false; rewrite leb_le; lra).
    assert (Py.leb good avg_tenure = true) as -> by (now apply leb_le).
    rewrite management_div_Some by lra. reflexivity.
  - intros Hge. assert (Py.leb excellent avg_tenure = true) as ->
      by (now apply leb_le). reflexivity.
Qed.

Lemma tenure_low_piece (t : Q) :
  0 <= t -> t < good -> 0 <= t / good * 60.0 /\ t / good * 60.0 < 60.
Proof using good_positive excellent_above_good.
  destruct thresholds_ordered as [Hg He]. intros H0 Hlt.
  assert (0 <= t / good) by (now apply div_nonneg).
  assert (t / good < 1) by (now apply div_lt_one).
  split; lra.
Qed.

Lemma tenure_mid_piece (t : Q) :
  good <= t -> t < excellent ->
  60 <= 60.0 + 40.0 * (t - good) / (excellent - good) /\
  60.0 + 40.0 * (t - good) / (excellent - good) < 100.
Proof using good_positive excellent_above_good.
  destruct thresholds_ordered as [Hg He]. intros Hge Hlt.
  assert (40.0 * (t - good) / (excellent - good)
          == 40 * ((t - good) / (excellent - good))) as -> by (field; lra).
  assert (0 <= (t - good) / (excellent - good)) by (apply div_nonneg; lra).
  assert ((t - good) / (excellent - good) < 1) by (apply div_lt_one; lra).
  split; lra.
Qed.

Lemma tenure_score_exists (t : Q) :
  0 <= t ->
  exists score,
    ManagementService._score_tenure settings t = Some score /\
    0 <= score <= 100.
Proof using good_positive excellent_above_good.
  intros H0. destruct (tenure_pieces t) as (Hlow & Hmid & Hhigh).
  destruct (Qlt_le_dec t good) as [Hl|Hg1].
  - eexists. split; [apply Hlow, Hl|].
    destruct (tenure_low_piece t H0 Hl). split; lra.
  - destruct (Qlt_le_dec t excellent) as [Hm|He1].
    + eexists. split; [apply Hmid; assumption|].
      destruct (tenure_mid_piece t Hg1 Hm). split; lra.
    + eexists. split; [apply Hhigh, He1|]. split; discriminate.
Qed.

(** With thresholds 0 < good < excellent and a tenure that is not negative,
    the tenure score exists, stays within [0, 100] and never decreases with
    tenure; it is 0 at no tenure, 60 at the good threshold, 100 from the
    excellent threshold on, and below 60 exactly below the good
    threshold. *)
Theorem tenure_score_ramp (avg_tenure avg_tenure' : Q) :
  0 <= avg_tenure -> avg_tenure <= avg_tenure' ->
  exists score score',
    ManagementService._score_tenure settings avg_tenure = Some score /\
    ManagementService._score_tenure settings avg_tenure' = Some score' /\
    0 <= score <= 100 /\
    score <= score' /\
    (avg_tenure == 0 -> score == 0) /\
    (avg_tenure == good -> score == 60) /\
    (excellent <= avg_tenure -> score == 100) /\
    (score < 60 <-> avg_tenure < good).
Proof using good_positive excellent_above_good.
  destruct thresholds_ordered as [Hg He]. intros H0 Hle.
  destruct (tenure_pieces avg_tenure) as (Hlow & Hmid & Hhigh).
  destruct (tenure_pieces avg_tenure') as (Hlow' & Hmid' & Hhigh').
  destruct (Qlt_le_dec avg_tenure good) as [Hl|Hg1].
  - (* low piece *)
    destruct (tenure_low_piece avg_tenure H0 Hl) as [Hs0 Hs1].
    exists (avg_tenure / good * 60.0).
    assert (exists score', ManagementService._score_tenure settings avg_tenure'
                           = Some score'
                           /\ avg_tenure / good * 60.0 <= score')
      as (score' & Hs' & Hord).
    { destruct (Qlt_le_dec avg_tenure' good) as [Hl'|Hg1'].
      - eexists. split; [apply Hlow', Hl'|].
        apply Qmult_le_compat_r; [|discriminate].
        now apply div_le_compat_pos.
      - destruct (Qlt_le_dec avg_tenure' excellent) as [Hm'|He'].
        + eexists. split; [apply Hmid'; assumption|].
          destruct (tenure_mid_piece avg_tenure' Hg1' Hm'). lra.
        + eexists. split; [apply Hhigh', He'|]. lra. }
    exists score'. split; [apply Hlow, Hl|]. split; [exact Hs'|].
    split; [split; lra|]. split; [exact Hord|].
    split; [intros Hz; rewrite Hz; reflexivity|].
    split; [intros Hz; lra|]. split; [intros Hz; lra|].
    split; intros; assumption.
  - destruct (Qlt_le_dec avg_tenure excellent) as [Hm|He1].
    + (* middle piece *)
      destruct (tenure_mid_piece avg_tenure Hg1 Hm) as [Hs0 Hs1].
      exists (60.0 + 40.0 * (avg_tenure - good) / (excellent - good)).
      assert (exists score', ManagementService._score_tenure settings avg_tenure'
                             = Some score'
                             /\ 60.0 + 40.0 * (avg_tenure - good)
                                       / (excellent - good) <= score')
        as (score' & Hs' & Hord).
      { destruct (Qlt_le_dec avg_tenure' excellent) as [Hm'|He'].
        - eexists. split; [apply Hmid'; lra|].
          assert (40.0 * (avg_tenure - good) / (excellent - good)
                  <= 40.0 * (avg_tenure' - good) / (excellent - good));
            [|lra].
          apply div_le_compat_pos; lra.
        - eexists. split; [apply Hhigh', He'|]. lra. }
      exists score'. split; [apply Hmid; assumption|]. split; [exact Hs'|].
      split; [split; lra|]. split; [exact Hord|].
      split; [intros Hz; lra|]. split.
      * intros Hz. rewrite Hz. field. lra.
      * split; [intros Hz; lra|]. split; intros; lra.
    + (* top *)
      exists 100.0, 100.0. split; [apply Hhigh, He1|].
      split; [apply Hhigh'; lra|].
      split; [split; discriminate|]. split; [apply Qle_refl|].
      split; [intros Hz; lra|]. split; [intros Hz; lra|].
      split; [reflexivity|]. split; [discriminate | intros; lra].
Qed.

End Tenure.

Lemma tenure_score_ramp_witness :
  exists score score',
    ManagementService._score_tenure Settings.defaults 4.5 = Some score /\
    ManagementService._score_tenure Settings.defaults 6 = Some score' /\
    score == 90 /\ score <= score'.
Proof.
  destruct (tenure_score_ramp Settings.defaults ltac:(reflexivity)
              ltac:(reflexivity) 4.5 6 ltac:(discriminate) ltac:(discriminate))
    as (score & score' & Hs & Hs' & _ & Hord & _).
  exists score, score'. split; [exact Hs|]. split; [exact Hs'|].
  split; [|exact Hord].
  vm_compute in Hs. injection Hs as <-. reflexivity.
Defined.

Lemma rounded_score_accepted (x : Q) :
  0 <= x <= 100 -> in_score_range (Py.round x 2) = true.
Proof. intros H. apply in_score_range_spec. now apply round_score_range. Qed.

Section ManagementScoring.

Import ManagementService.
Variable format_f : nat -> Q -> string.
Variable settings : Settings.t.
Hypothesis good_positive : (0 < Settings.management_tenure_good settings)%Z.
Hypothesis excellent_above_good :
  (Settings.management_tenure_good settings
   < Settings.management_tenure_excellent settings)%Z.

(** With thresholds 0 < good < excellent, tenures that are not negative and
    no negative count of governance findings, [calculate_score] always
    returns a score: no division by zero and no validation error.  Its four
    components are the component scores rounded to two decimals and its
    total lies within [0, 100].  When a board size is given, the supplied
    independence ratio is ignored. *)
Theorem management_score_is_valid
    (ceo_tenure_years cfo_tenure_years board_independence_ratio : Q)
    (independent_directors total_directors : Z) (family_controlled : bool)
    (insider_buys insider_sells : Z)
    (governance_incidents audit_issues related_party_transactions : Z) :
  0 <= ceo_tenure_years -> 0 <= cfo_tenure_years ->
  (0 <= governance_incidents)%Z -> (0 <= audit_issues)%Z ->
  (0 <= related_party_transactions)%Z ->
  exists score tenure_score,
    calculate_score format_f settings ceo_tenure_years cfo_tenure_years
      board_independence_ratio independent_directors total_directors
      family_controlled insider_buys insider_sells governance_incidents
      audit_issues related_party_transactions = Some score /\
    _score_tenure settings ((ceo_tenure_years + cfo_tenure_years) / 2)
      = Some tenure_score /\
    ManagementScore.tenure_stability score = Py.round tenure_score 2 /\
    ManagementScore.insider_alignment score
      = Py.round (_score_insider_alignment insider_buys insider_sells) 2 /\
    ManagementScore.governance_red_flags score
      = Py.round (_score_governance
                    (governance_incidents + audit_issues
                     + related_party_transactions)) 2 /\
    ((0 < total_directors)%Z ->
     ManagementScore.board_independence score
     = Py.round (_score_board_independence
                   (inject_Z independent_directors / inject_Z total_directors)
                   family_controlled) 2) /\
    ((total_directors <= 0)%Z ->
     ManagementScore.board_independence score
     = Py.round (_score_board_independence board_independence_ratio
                   family_controlled) 2) /\
    0 <= ManagementScore.total score <= 100.
Proof using good_positive excellent_above_good.
  intros Hceo Hcfo Hg Ha Hr.
  assert (0 <= (ceo_tenure_years + cfo_tenure_years) / 2) as Havg
    by (apply div_nonneg; [lra | reflexivity]).
  destruct (tenure_score_exists settings good_positive excellent_above_good
              _ Havg) as (tenure_score & Htenure & Htr).
  unfold calculate_score. cbv zeta. rewrite Htenure. cbn [mbind option_bind].
  set (ratio := if (0 <? total_directors)%Z then _ else _).
  unfold ManagementScore.make.
  pose proof (board_range ratio family_controlled) as Hb.
  pose proof (insider_range insider_buys insider_sells) as Hi.
  assert (0 <= governance_incidents + audit_issues
               + related_party_transactions)%Z as Hflags by lia.
  pose proof (governance_range _ Hflags) as Hgov.
  rewrite !rounded_score_accepted by assumption. cbn [andb].
  eexists _, tenure_score. split; [reflexivity|]. split; [reflexivity|].
  cbn [ManagementScore.tenure_stability ManagementScore.insider_alignment
       ManagementScore.governance_red_flags ManagementScore.board_independence].
  split; [reflexivity|]. split; [reflexivity|]. split; [reflexivity|].
  split.
  { intros Hpos. subst ratio. apply Z.ltb_lt in Hpos. now rewrite Hpos. }
  split.
  { intros Hnone. subst ratio.
    assert ((0 <? total_directors)%Z = false) as -> by (apply Z.ltb_ge; lia).
    reflexivity. }
  unfold ManagementScore.total.
  cbn [ManagementScore.tenure_stability ManagementScore.insider_alignment
       ManagementScore.governance_red_flags ManagementScore.board_independence].
  pose proof (round_score_range _ Htr). pose proof (round_score_range _ Hb).
  pose proof (round_score_range _ Hi). pose proof (round_score_range _ Hgov).
  split; lra.
Qed.

End ManagementScoring.

Lemma management_score_is_valid_witness :
  exists score,
    ManagementService.calculate_score Sample.format_f Settings.defaults
      5 4 0 3 9 false 2 1 0 0 0 = Some score /\
    ManagementScore.tenure_stability score == 90 /\
    0 <= ManagementScore.total score <= 100.
Proof.
  destruct (management_score_is_valid Sample.format_f Settings.defaults
              ltac:(reflexivity) ltac:(reflexivity)
              5 4 0 3 9 false 2 1 0 0 0)
    as (score & tenure_score & Hscore & _ & _ & _ & _ & _ & _ & Htotal);
    try discriminate; try lia.
  exists score. split; [exact Hscore|]. split; [|exact Htotal].
  vm_compute in Hscore. injection Hscore as <-. reflexivity.
Defined.

(** ** Earnings quality *)

Lemma volatility_is_Some (sqrt : Q -> Q) (values : list Q) :
  is_Some (calculate_volatility sqrt values).
Proof.
  unfold calculate_volatility.
  destruct (decide (length values < 2)%nat) as [Hlt|Hge]; [eauto|].
  destruct (mean_is_Some values) as [m Hm].
  { intros ->. simpl in Hge. lia. }
  destruct (stdev_is_Some sqrt values) as [sd Hsd]; [lia|].
  rewrite Hm, Hsd. simpl. destruct (Py.eqb m 0); eauto.
Qed.

Lemma accrual_ratio_without_cash_flow (snapshot : FinancialSnapshot.t) :
  Py.truthy_opt (FinancialSnapshot.operating_cash_flow snapshot) = false \/
  FinancialSnapshot.total_assets snapshot == 0 ->
  EarningsQualityService._calculate_accrual_ratio snapshot = 0.0.
Proof.
  unfold EarningsQualityService._calculate_accrual_ratio, Py.truthy_opt.
  intros [H|H].
  - destruct (FinancialSnapshot.operating_cash_flow snapshot); [|reflexivity].
    now rewrite H.
  - apply eqb_eq in H. rewrite H.
    destruct (FinancialSnapshot.operating_cash_flow snapshot); [|reflexivity].
    now rewrite orb_true_r.
Qed.

Section EarningsQuality.

Import EarningsQualityService.
Variables format_f format_pct : nat -> Q -> string.
Variable sqrt : Q -> Q.
Variable settings : Settings.t.

(** What each of the four component scores is, and what every flag costs. *)
Lemma accrual_cases (snapshot : FinancialSnapshot.t) :
  exists score flags,
    _score_accrual_quality format_pct settings snapshot = (score, flags) /\
    ((score == 20 /\ length flags = 1%nat) \/
     (score == 50 /\ length flags = 1%nat) \/
     (score == 75 /\ flags = []) \/ (score == 100 /\ flags = [])).
Proof.
  unfold _score_accrual_quality. cbv zeta.
  destruct (Py.leb (_ * 2) _).
  { eexists _, _; split; [reflexivity|]. left. split; reflexivity. }
  destruct (Py.leb _ _).
  { eexists _, _; split; [reflexivity|]. right; left. split; reflexivity. }
  destruct (Py.leb _ _).
  { eexists _, _; split; [reflexivity|]. do 2 right; left. split; reflexivity. }
  eexists _, _; split; [reflexivity|]. do 3 right. split; reflexivity.
Qed.

Lemma one_off_cases (snapshot : FinancialSnapshot.t) :
  exists score flags,
    _score_one_off_dependency format_pct settings snapshot = (score, flags) /\
    ((score == 20 /\ length flags = 1%nat) \/
     (score == 50 /\ length flags = 1%nat) \/
     (score == 50 /\ flags = []
      /\ FinancialSnapshot.net_income snapshot == 0) \/
     (score == 75 /\ flags = []) \/ (score == 100 /\ flags = [])).
Proof.
  unfold _score_one_off_dependency. cbv zeta.
  destruct (Py.eqb (FinancialSnapshot.net_income snapshot) 0) eqn:E.
  { apply eqb_eq in E. eexists _, _; split; [reflexivity|].
    right; right; left. split; [reflexivity|]. split; [reflexivity | exact E]. }
  destruct (Py.leb (_ * 2) _).
  { eexists _, _; split; [reflexivity|]. left. split; reflexivity. }
  destruct (Py.leb _ _).
  { eexists _, _; split; [reflexivity|]. right; left. split; reflexivity. }
  destruct (Py.leb _ _).
  { eexists _, _; split; [reflexivity|]. do 3 right; left. split; reflexivity. }
  eexists _, _; split; [reflexivity|]. do 4 right. split; reflexivity.
Qed.

Lemma one_off_zero_income (snapshot : FinancialSnapshot.t) :
  FinancialSnapshot.net_income snapshot == 0 ->
  _score_one_off_dependency format_pct settings snapshot = (50.0, []).
Proof.
  intros H. unfold _score_one_off_dependency. apply eqb_eq in H.
  now rewrite H.
Qed.

Lemma working_capital_cases (current : FinancialSnapshot.t)
    (historical : list FinancialSnapshot.t) :
  exists score flags,
    _score_working_capital format_pct settings current historical
      = Some (score, flags) /\
    ((score == 50 /\ flags = [] /\ (length historical < 2)%nat) \/
     ((2 <= length historical)%nat /\
      ((score == 100 /\ flags = []) \/
       (score == 75 /\ length flags = 1%nat) \/
       (score == 50 /\ length flags = 2%nat)))).
Proof.
  unfold _score_working_capital.
  destruct (decide (length historical < 2)%nat) as [Hlt|Hge].
  { eexists _, _; split; [reflexivity|]. left.
    split; [reflexivity|]. split; [reflexivity | exact Hlt]. }
  destruct (decide (2 <= length historical)%nat) as [H2|]; [|lia].
  rewrite index_from_end_lookup by lia.
  destruct (lookup_lt_is_Some_2 historical (length historical - 2)%nat)
    as [previous ->]; [lia|].
  cbn [mbind option_bind]. cbv zeta.
  destruct (Py.ltb _ _); destruct (Py.ltb _ _);
    (eexists _, _; split; [reflexivity|]); right; (split; [exact H2|]).
  - right; right. split; reflexivity.
  - right; left. split; reflexivity.
  - right; left. split; reflexivity.
  - left. split; reflexivity.
Qed.

Lemma working_capital_short (current : FinancialSnapshot.t)
    (historical : list FinancialSnapshot.t) :
  (length historical < 2)%nat ->
  _score_working_capital format_pct settings current historical
    = Some (50.0, []).
Proof. intros H. unfold _score_working_capital. now case_decide. Qed.

Lemma stability_cases (historical : list FinancialSnapshot.t) :
  exists score flags,
    _score_earnings_stability format_pct sqrt historical
      = Some (score, flags) /\
    ((score == 50 /\ flags = [] /\ (length historical < 4)%nat) \/
     ((4 <= length historical)%nat /\
      ((score == 100 /\ flags = []) \/ (score == 80 /\ flags = []) \/
       (score == 60 /\ flags = []) \/
       (score == 40 /\ length flags = 1%nat) \/
       (score == 20 /\ length flags = 1%nat)))).
Proof.
  unfold _score_earnings_stability.
  destruct (decide (length historical < 4)%nat) as [Hlt|Hge].
  { eexists _, _; split; [reflexivity|]. left.
    split; [reflexivity|]. split; [reflexivity | exact Hlt]. }
  assert (4 <= length historical)%nat as H4 by lia.
  destruct (volatility_is_Some sqrt
              (FinancialSnapshot.net_income <$> historical)) as [v ->].
  cbn [mbind option_bind].
  destruct (Py.leb v 0.1).
  { eexists _, _; split; [reflexivity|]. right. split; [exact H4|].
    left. split; reflexivity. }
  destruct (Py.leb v 0.2).
  { eexists _, _; split; [reflexivity|]. right. split; [exact H4|].
    right; left. split; reflexivity. }
  destruct (Py.leb v 0.3).
  { eexists _, _; split; [reflexivity|]. right. split; [exact H4|].
    do 2 right; left. split; reflexivity. }
  destruct (Py.leb v 0.5).
  { eexists _, _; split; [reflexivity|]. right. split; [exact H4|].
    do 3 right; left. split; reflexivity. }
  eexists _, _; split; [reflexivity|]. right. split; [exact H4|].
  do 4 right. split; reflexivity.
Qed.

Lemma stability_short (historical : list FinancialSnapshot.t) :
  (length historical < 4)%nat ->
  _score_earnings_stability format_pct sqrt historical = Some (50.0, []).
Proof. intros H. unfold _score_earnings_stability. now case_decide. Qed.

End EarningsQuality.

Section EarningsScore.

Import EarningsQualityService.
Variables format_f format_pct : nat -> Q -> string.
Variable sqrt : Q -> Q.
Variable settings : Settings.t.
Variable data_loader : DataLoader.t.

(** [calculate_score] on a snapshot that loads: the four component results
    it combines and the report it builds from them. *)
Lemma calculate_score_components (stock_code period : string)
    (periods_for_trend : option (list string))
    (snapshot : FinancialSnapshot.t) :
  DataLoader.load_snapshot data_loader stock_code period = Some snapshot ->
  exists accrual wc oneoff stability score,
    _score_accrual_quality format_pct settings snapshot = accrual /\
    _score_working_capital format_pct settings snapshot
      (trend_history data_loader stock_code periods_for_trend) = Some wc /\
    _score_one_off_dependency format_pct settings snapshot = oneoff /\
    _score_earnings_stability format_pct sqrt
      (trend_history data_loader stock_code periods_for_trend)
      = Some stability /\
    calculate_score format_f format_pct sqrt settings data_loader
      stock_code period periods_for_trend = Some score /\
    EarningsQualityScore.accrual_quality score = Py.round accrual.1 2 /\
    EarningsQualityScore.working_capital_behavior score = Py.round wc.1 2 /\
    EarningsQualityScore.one_off_dependency score = Py.round oneoff.1 2 /\
    EarningsQualityScore.earnings_stability score
      = Py.round stability.1 2 /\
    EarningsQualityScore.red_flags score
      = accrual.2 ++ wc.2 ++ oneoff.2 ++ stability.2 /\
    EarningsQualityScore.details score !! "accrual_ratio"
      = Some (Some (_calculate_accrual_ratio snapshot)) /\
    EarningsQualityScore.details score !! "num_red_flags"
      = Some (Some (Statistics.of_len (EarningsQualityScore.red_flags score)))
    /\
    ((length (trend_history data_loader stock_code periods_for_trend) < 4)%nat
     -> EarningsQualityScore.details score !! "earnings_volatility"
        = Some None).
Proof.
  intros Hload. unfold calculate_score. rewrite Hload.
  cbn [mbind option_bind]. cbv zeta.
  set (historical := trend_history data_loader stock_code periods_for_trend).
  destruct (accrual_cases format_pct settings snapshot)
    as (a & af & Ha & Hac).
  destruct (working_capital_cases format_pct settings snapshot historical)
    as (w & wf & Hw & Hwc).
  destruct (one_off_cases format_pct settings snapshot)
    as (o & ofl & Ho & Hoc).
  destruct (stability_cases format_pct sqrt historical)
    as (s & sf & Hs & Hsc).
  rewrite Ha, Hw, Ho, Hs. cbn [mbind option_bind].
  assert (exists v,
    (if decide (4 <= length historical)%nat
     then Some <$> calculate_volatility sqrt
                     (FinancialSnapshot.net_income <$> historical)
     else Some None) = Some v /\
    ((length historical < 4)%nat -> v = None)) as (v & -> & Hv).
  { case_decide.
    - destruct (volatility_is_Some sqrt
                  (FinancialSnapshot.net_income <$> historical)) as [x ->].
      eexists. split; [reflexivity | intros; lia].
    - eexists. split; [reflexivity | reflexivity]. }
  cbn [mbind option_bind]. unfold EarningsQualityScore.make.
  assert (0 <= a <= 100) as Har by (intuition lra).
  assert (0 <= w <= 100) as Hwr by (intuition lra).
  assert (0 <= o <= 100) as Hor by (intuition lra).
  assert (0 <= s <= 100) as Hsr by (intuition lra).
  rewrite !rounded_score_accepted by assumption. cbn [andb].
  eexists (a, af), (w, wf), (o, ofl), (s, sf), _.
  do 4 (split; [reflexivity|]). split; [reflexivity|].
  cbn [EarningsQualityScore.accrual_quality
       EarningsQualityScore.working_capital_behavior
       EarningsQualityScore.one_off_dependency
       EarningsQualityScore.earnings_stability
       EarningsQualityScore.red_flags EarningsQualityScore.details fst snd].
  do 4 (split; [reflexivity|]).
  split; [now rewrite app_nil_l, <- !app_assoc|].
  split; [reflexivity|]. split; [reflexivity|].
  intros Hshort. rewrite (Hv Hshort). reflexivity.
Qed.

(** [calculate_score] answers exactly when the snapshot of the period loads:
    no history, however short or empty, makes it fail, and no component is
    ever rejected by the validation of [EarningsQualityScore].  The accrual
    and one-off components are one of 20, 50, 75 and 100, the working
    capital component one of 50, 75 and 100, the stability component one of
    20, 40, 50, 60, 80 and 100; at most five red flags are reported and the
    details carry their number. *)
Theorem earnings_score_exists (stock_code period : string)
    (periods_for_trend : option (list string)) :
  (is_Some (calculate_score format_f format_pct sqrt settings data_loader
              stock_code period periods_for_trend)
   <-> is_Some (DataLoader.load_snapshot data_loader stock_code period)) /\
  (forall score,
     calculate_score format_f format_pct sqrt settings data_loader
       stock_code period periods_for_trend = Some score ->
     let grade (x : Q) (grades : list Q) := Exists (Qeq x) grades in
     grade (EarningsQualityScore.accrual_quality score) [20; 50; 75; 100] /\
     grade (EarningsQualityScore.working_capital_behavior score)
       [50; 75; 100] /\
     grade (EarningsQualityScore.one_off_dependency score)
       [20; 50; 75; 100] /\
     grade (EarningsQualityScore.earnings_stability score)
       [20; 40; 50; 60; 80; 100] /\
     (length (EarningsQualityScore.red_flags score) <= 5)%nat /\
     EarningsQualityScore.details score !! "num_red_flags"
       = Some (Some (Statistics.of_len
                       (EarningsQualityScore.red_flags score)))).
Proof.
  destruct (DataLoader.load_snapshot data_loader stock_code period)
    as [snapshot|] eqn:Hload.
  2:{ split.
      - unfold calculate_score. rewrite Hload. cbn [mbind option_bind].
        split; intros [? [=]].
      - intros score. unfold calculate_score. rewrite Hload. discriminate. }
  destruct (calculate_score_components stock_code period periods_for_trend
              snapshot Hload)
    as ([a af] & [w wf] & [o ofl] & [s sf] & score & Ha & Hw & Ho & Hs
        & Hscore & Haq & Hwq & Hoq & Hsq & Hflags & _ & Hnum & _).
  split; [rewrite Hscore; split; eauto|].
  intros score' Hscore'. rewrite Hscore in Hscore'.
  injection Hscore' as <-. cbv zeta. cbn [fst snd] in *.
  rewrite Haq, Hwq, Hoq, Hsq, Hflags.
  destruct (accrual_cases format_pct settings snapshot)
    as (a' & af' & Ha' & Hac).
  rewrite Ha in Ha'. injection Ha' as <- <-.
  destruct (working_capital_cases format_pct settings snapshot
              (trend_history data_loader stock_code periods_for_trend))
    as (w' & wf' & Hw' & Hwc).
  rewrite Hw in Hw'. injection Hw' as <- <-.
  destruct (one_off_cases format_pct settings snapshot)
    as (o' & ofl' & Ho' & Hoc).
  rewrite Ho in Ho'. injection Ho' as <- <-.
  destruct (stability_cases format_pct sqrt
              (trend_history data_loader stock_code periods_for_trend))
    as (s' & sf' & Hs' & Hsc).
  rewrite Hs in Hs'. injection Hs' as <- <-.
  assert (forall x g : Q, x == g -> Py.round g 2 == g -> Py.round x 2 == g)
    as Hround.
  { intros x g Hx Hg. now rewrite (round_proper x g 2 Hx). }
  split.
  { destruct Hac as [[H _]|[[H _]|[[H _]|[H _]]]];
      repeat first [ apply Exists_cons_hd; apply (Hround _ _ H); reflexivity
                   | apply Exists_cons_tl ]. }
  split.
  { destruct Hwc as [[H _]|[_ [[H _]|[[H _]|[H _]]]]];
      repeat first [ apply Exists_cons_hd; apply (Hround _ _ H); reflexivity
                   | apply Exists_cons_tl ]. }
  split.
  { destruct Hoc as [[H _]|[[H _]|[[H _]|[[H _]|[H _]]]]];
      repeat first [ apply Exists_cons_hd; apply (Hround _ _ H); reflexivity
                   | apply Exists_cons_tl ]. }
  split.
  { destruct Hsc as [[H _]|[_ [[H _]|[[H _]|[[H _]|[[H _]|[H _]]]]]]];
      repeat first [ apply Exists_cons_hd; apply (Hround _ _ H); reflexivity
                   | apply Exists_cons_tl ]. }
  split; [|rewrite <- Hflags; exact Hnum].
  rewrite !length_app.
  assert (length af <= 1)%nat
    by (destruct Hac as [[_ E]|[[_ E]|[[_ E]|[_ E]]]]; rewrite E; simpl; lia).
  assert (length wf <= 2)%nat
    by (destruct Hwc as [[_ [E _]]|[_ [[_ E]|[[_ E]|[_ E]]]]];
        rewrite E; simpl; lia).
  assert (length ofl <= 1)%nat
    by (destruct Hoc as [[_ E]|[[_ E]|[[_ [E _]]|[[_ E]|[_ E]]]]];
        rewrite E; simpl; lia).
  assert (length sf <= 1)%nat
    by (destruct Hsc as [[_ [E _]]|[_ [[_ E]|[[_ E]|[[_ E]|[[_ E]|[_ E]]]]]]];
        rewrite E; simpl; lia).
  lia.
Qed.

End EarningsScore.

Lemma of_len_app {A} (l1 l2 : list A) :
  Statistics.of_len (l1 ++ l2) == Statistics.of_len l1 + Statistics.of_len l2.
Proof.
  unfold Statistics.of_len.
  now rewrite length_app, Nat2Z.inj_add, inject_Z_plus.
Qed.

Lemma of_len_length {A} (l : list A) (n : nat) :
  length l = n -> Statistics.of_len l = inject_Z (Z.of_nat n).
Proof. intros <-. reflexivity. Qed.

Lemma round_grade (x g : Q) :
  x == g -> Py.round g 2 == g -> Py.round x 2 == x.
Proof.
  intros Hx Hg. rewrite (round_proper x g 2 Hx), Hg. symmetry; exact Hx.
Qed.

Section EarningsFlags.

Import EarningsQualityService.
Variables format_f format_pct : nat -> Q -> string.
Variable sqrt : Q -> Q.
Variable settings : Settings.t.
Variable data_loader : DataLoader.t.

(** Every red flag of a component takes at least 25 points off it, a
    component without a flag keeps at least 50, and rounding to two decimals
    leaves every component as it is. *)
Lemma accrual_flag_cost (snapshot : FinancialSnapshot.t) :
  let r := _score_accrual_quality format_pct settings snapshot in
  Py.round r.1 2 == r.1 /\
  20 <= r.1 <= 100 - 25 * Statistics.of_len r.2 /\ (r.2 = [] -> 75 <= r.1).
Proof.
  destruct (accrual_cases format_pct settings snapshot)
    as (a & af & -> & Hc).
  cbn [fst snd].
  destruct Hc as [[H E]|[[H E]|[[H E]|[H E]]]];
    (split; [apply (round_grade _ _ H); reflexivity|]);
    (rewrite (of_len_length af _ E) || rewrite E); rewrite H;
    (split; [split; [discriminate|discriminate]|]);
    try (intros ->; discriminate); intros _; discriminate.
Qed.

Lemma one_off_flag_cost (snapshot : FinancialSnapshot.t) :
  let r := _score_one_off_dependency format_pct settings snapshot in
  Py.round r.1 2 == r.1 /\
  20 <= r.1 <= 100 - 25 * Statistics.of_len r.2 /\ (r.2 = [] -> 50 <= r.1).
Proof.
  destruct (one_off_cases format_pct settings snapshot)
    as (o & ofl & -> & Hc).
  cbn [fst snd].
  destruct Hc as [[H E]|[[H E]|[[H [E _]]|[[H E]|[H E]]]]];
    (split; [apply (round_grade _ _ H); reflexivity|]);
    (rewrite (of_len_length ofl _ E) || rewrite E); rewrite H;
    (split; [split; [discriminate|discriminate]|]);
    try (intros ->; discriminate); intros _; discriminate.
Qed.

Lemma working_capital_flag_cost (current : FinancialSnapshot.t)
    (historical : list FinancialSnapshot.t) :
  exists r,
    _score_working_capital format_pct settings current historical = Some r /\
    Py.round r.1 2 == r.1 /\
    50 <= r.1 <= 100 - 25 * Statistics.of_len r.2.
Proof.
  destruct (working_capital_cases format_pct settings current historical)
    as (w & wf & -> & Hc).
  eexists. split; [reflexivity|]. cbn [fst snd].
  destruct Hc as [[H [E _]]|[_ [[H E]|[[H E]|[H E]]]]];
    (split; [apply (round_grade _ _ H); reflexivity|]);
    (rewrite (of_len_length wf _ E) || rewrite E); rewrite H;
    split; discriminate.
Qed.

Lemma stability_flag_cost (historical : list FinancialSnapshot.t) :
  exists r,
    _score_earnings_stability format_pct sqrt historical = Some r /\
    Py.round r.1 2 == r.1 /\
    20 <= r.1 <= 100 - 25 * Statistics.of_len r.2 /\
    (r.2 = [] -> 50 <= r.1).
Proof.
  destruct (stability_cases format_pct sqrt historical)
    as (s & sf & -> & Hc).
  eexists. split; [reflexivity|]. cbn [fst snd].
  destruct Hc as [[H [E _]]|[_ [[H E]|[[H E]|[[H E]|[[H E]|[H E]]]]]]];
    (split; [apply (round_grade _ _ H); reflexivity|]);
    (rewrite (of_len_length sf _ E) || rewrite E); rewrite H;
    (split; [split; [discriminate|discriminate]|]);
    try (intros ->; discriminate); intros _; discriminate.
Qed.

End EarningsFlags.

Section EarningsTotals.

Import EarningsQualityService.
Variables format_f format_pct : nat -> Q -> string.
Variable sqrt : Q -> Q.
Variable settings : Settings.t.
Variable data_loader : DataLoader.t.

(** Red flags and the total score of [calculate_score] move together: the
    total is at most 100 minus 6.25 points for every reported red flag and
    never below 27.5, and a report without any red flag has a total of at
    least 56.25.  So a total under 56.25 always comes with at least one red
    flag. *)
Theorem red_flags_cost_points (stock_code period : string)
    (periods_for_trend : option (list string))
    (score : EarningsQualityScore.t) :
  calculate_score format_f format_pct sqrt settings data_loader
    stock_code period periods_for_trend = Some score ->
  27.5 <= EarningsQualityScore.total score /\
  EarningsQualityScore.total score
    <= 100 - 6.25 * Statistics.of_len (EarningsQualityScore.red_flags score) /\
  (EarningsQualityScore.red_flags score = [] ->
   56.25 <= EarningsQualityScore.total score).
Proof.
  intros Hscore.
  destruct (DataLoader.load_snapshot data_loader stock_code period)
    as [snapshot|] eqn:Hload.
  2:{ unfold calculate_score in Hscore. rewrite Hload in Hscore.
      discriminate. }
  destruct (calculate_score_components format_f format_pct sqrt settings
              data_loader stock_code period periods_for_trend snapshot Hload)
    as (a & w & o & s & score' & Ha & Hw & Ho & Hs
        & Hscore' & Haq & Hwq & Hoq & Hsq & Hflags & _).
  rewrite Hscore in Hscore'. injection Hscore' as <-.
  pose proof (accrual_flag_cost format_pct settings snapshot) as Hac.
  rewrite Ha in Hac. cbv zeta in Hac.
  destruct Hac as (Hra & [Ha0 Ha1] & Ha2).
  destruct (working_capital_flag_cost format_pct settings snapshot
              (trend_history data_loader stock_code periods_for_trend))
    as (w' & Hw' & Hrw & Hw0 & Hw1).
  rewrite Hw in Hw'. injection Hw' as <-.
  pose proof (one_off_flag_cost format_pct settings snapshot) as Hoc.
  rewrite Ho in Hoc. cbv zeta in Hoc.
  destruct Hoc as (Hro & [Ho0 Ho1] & Ho2).
  destruct (stability_flag_cost format_pct sqrt
              (trend_history data_loader stock_code periods_for_trend))
    as (s' & Hs' & Hrs & [Hs0 Hs1] & Hs2).
  rewrite Hs in Hs'. injection Hs' as <-.
  unfold EarningsQualityScore.total. rewrite Haq, Hwq, Hoq, Hsq, Hflags.
  rewrite Hra, Hrw, Hro, Hrs, !of_len_app.
  split; [lra|]. split; [lra|].
  intros Hnil.
  apply app_eq_nil in Hnil as [Hn1 Hnil].
  apply app_eq_nil in Hnil as [Hn2 Hnil].
  apply app_eq_nil in Hnil as [Hn3 Hn4].
  specialize (Ha2 Hn1). specialize (Ho2 Hn3). specialize (Hs2 Hn4). lra.
Qed.

Hypothesis threshold_positive : 0 < Settings.accrual_ratio_threshold settings.

(** Missing data gets a fixed score instead of a failure.  With a positive
    accrual threshold, a snapshot without operating cash flow (absent or
    0.0) or with zero total assets gets the best accrual score, 100, and an
    accrual ratio of 0; a zero net income gives a one-off score of 50; fewer
    than two historical snapshots give a working capital score of 50 and
    fewer than four a stability score of 50 with no volatility in the
    details. *)
Theorem missing_data_is_neutral (stock_code period : string)
    (periods_for_trend : option (list string))
    (snapshot : FinancialSnapshot.t) :
  DataLoader.load_snapshot data_loader stock_code period = Some snapshot ->
  exists score,
    calculate_score format_f format_pct sqrt settings data_loader
      stock_code period periods_for_trend = Some score /\
    (Py.truthy_opt (FinancialSnapshot.operating_cash_flow snapshot) = false
     \/ FinancialSnapshot.total_assets snapshot == 0 ->
     EarningsQualityScore.accrual_quality score == 100 /\
     EarningsQualityScore.details score !! "accrual_ratio"
       = Some (Some 0.0)) /\
    (FinancialSnapshot.net_income snapshot == 0 ->
     EarningsQualityScore.one_off_dependency score == 50) /\
    ((length (trend_history data_loader stock_code periods_for_trend) < 2)%nat
     -> EarningsQualityScore.working_capital_behavior score == 50) /\
    ((length (trend_history data_loader stock_code periods_for_trend) < 4)%nat
     -> EarningsQualityScore.earnings_stability score == 50 /\
        EarningsQualityScore.details score !! "earnings_volatility"
          = Some None).
Proof using threshold_positive.
  intros Hload.
  destruct (calculate_score_components format_f format_pct sqrt settings
              data_loader stock_code period periods_for_trend snapshot Hload)
    as (a & w & o & s & score & Ha & Hw & Ho & Hs
        & Hscore & Haq & Hwq & Hoq & Hsq & _ & Hratio & _ & Hvol).
  exists score. split; [exact Hscore|].
  rewrite Haq, Hwq, Hoq, Hsq. split; [|split; [|split]].
  - intros Hmissing.
    pose proof (accrual_ratio_without_cash_flow snapshot Hmissing) as Hzero.
    rewrite Hratio, Hzero. split; [|reflexivity].
    subst a. unfold _score_accrual_quality. rewrite Hzero. cbv zeta.
    change (Qabs 0.0) with 0.0.
    destruct (Py.leb (Settings.accrual_ratio_threshold settings * 2) 0.0)
      eqn:E1; [apply leb_le in E1; lra|].
    destruct (Py.leb (Settings.accrual_ratio_threshold settings) 0.0)
      eqn:E2; [apply leb_le in E2; lra|].
    destruct (Py.leb (Settings.accrual_ratio_threshold settings * 0.5) 0.0)
      eqn:E3; [apply leb_le in E3; lra|].
    reflexivity.
  - intros Hzero. subst o.
    now rewrite (one_off_zero_income format_pct settings snapshot Hzero).
  - intros Hshort.
    rewrite (working_capital_short format_pct settings snapshot _ Hshort)
      in Hw.
    injection Hw as <-. reflexivity.
  - intros Hshort.
    rewrite (stability_short format_pct sqrt _ Hshort) in Hs.
    injection Hs as <-. split; [reflexivity | exact (Hvol Hshort)].
Qed.

End EarningsTotals.

Lemma earnings_score_exists_witness :
  exists score,
    EarningsQualityService.calculate_score Sample.format_f Sample.format_f
      Sample.sqrt Settings.defaults Scenarios.three_quarters
      "2330" "2023Q3" None = Some score /\
    EarningsQualityScore.one_off_dependency score == 50 /\
    (length (EarningsQualityScore.red_flags score) <= 5)%nat.
Proof.
  destruct (EarningsQualityService.calculate_score Sample.format_f
              Sample.format_f Sample.sqrt Settings.defaults
              Scenarios.three_quarters "2330" "2023Q3" None)
    as [score|] eqn:E; [|vm_compute in E; discriminate].
  exists score. split; [reflexivity|].
  pose proof (proj2 (earnings_score_exists Sample.format_f Sample.format_f
                       Sample.sqrt Settings.defaults Scenarios.three_quarters
                       "2330" "2023Q3" None) score E) as H.
  split; [|apply H].
  vm_compute in E. injection E as <-. reflexivity.
Defined.

Lemma red_flags_cost_points_witness :
  exists score,
    EarningsQualityService.calculate_score Sample.format_f Sample.format_f
      Sample.sqrt Settings.defaults Scenarios.three_quarters
      "2330" "2023Q3" None = Some score /\
    length (EarningsQualityScore.red_flags score) = 1%nat /\
    EarningsQualityScore.total score
      <= 100 - 6.25 * Statistics.of_len (EarningsQualityScore.red_flags score).
Proof.
  destruct (EarningsQualityService.calculate_score Sample.format_f
              Sample.format_f Sample.sqrt Settings.defaults
              Scenarios.three_quarters "2330" "2023Q3" None)
    as [score|] eqn:E; [|vm_compute in E; discriminate].
  exists score. split; [reflexivity|].
  pose proof (red_flags_cost_points Sample.format_f Sample.format_f
                Sample.sqrt Settings.defaults Scenarios.three_quarters
                "2330" "2023Q3" None score E) as H.
  split; [|apply H].
  vm_compute in E. injection E as <-. reflexivity.
Defined.

Lemma missing_data_is_neutral_witness :
  exists score,
    EarningsQualityService.calculate_score Sample.format_f Sample.format_f
      Sample.sqrt Settings.defaults Scenarios.shell_only
      "9999" "2023Q3" None = Some score /\
    EarningsQualityScore.accrual_quality score == 100 /\
    EarningsQualityScore.one_off_dependency score == 50 /\
    EarningsQualityScore.working_capital_behavior score == 50 /\
    EarningsQualityScore.earnings_stability score == 50.
Proof.
  destruct (missing_data_is_neutral Sample.format_f Sample.format_f
              Sample.sqrt Settings.defaults Scenarios.shell_only
              ltac:(reflexivity) "9999" "2023Q3" None Scenarios.shell
              eq_refl)
    as (score & Hscore & Ha & Ho & Hw & Hs).
  exists score. split; [exact Hscore|].
  split; [apply Ha; left; reflexivity|].
  split; [apply Ho; reflexivity|].
  split; [apply Hw; vm_compute; lia|].
  apply Hs. vm_compute. lia.
Defined.

(** ** Peer comparison *)

Lemma compare_metric_Some (metric_name : string)
    (snapshots : list FinancialSnapshot.t)
    (extractor : FinancialSnapshot.t -> Q) (higher_is_better : bool) :
  exists ranking,
    PeerService._compare_metric metric_name snapshots extractor
      higher_is_better
    = Some (PeerComparison.mk metric_name
              (FinancialSnapshot.company_name <$> snapshots)
              (extractor <$> snapshots) ranking) /\
    length ranking = length snapshots.
Proof.
  unfold PeerService._compare_metric. cbv zeta.
  destruct (ranking_of_sorted higher_is_better (extractor <$> snapshots))
    as (ranking & Hr & Hlen & _).
  exists ranking. rewrite length_fmap in Hlen. split; [|exact Hlen].
  destruct higher_is_better; rewrite Hr; reflexivity.
Qed.

(** A comparison built by [_compare_metric] over the given snapshots. *)
Lemma append_if_requested_spec (name label : string) (metrics : list string)
    (snapshots : list FinancialSnapshot.t)
    (extractor : FinancialSnapshot.t -> Q) (higher_is_better : bool)
    (comparisons : list PeerComparison.t) :
  exists added,
    PeerService.append_if_requested name metrics
      (PeerService._compare_metric label snapshots extractor higher_is_better)
      comparisons = Some (comparisons ++ added) /\
    PeerComparison.metric_name <$> added
      = (if bool_decide (name ∈ metrics) then [label] else []) /\
    Forall (fun c =>
              PeerComparison.companies c
                = FinancialSnapshot.company_name <$> snapshots /\
              length (PeerComparison.values c) = length snapshots /\
              length (PeerComparison.ranking c) = length snapshots) added.
Proof.
  unfold PeerService.append_if_requested.
  destruct (compare_metric_Some label snapshots extractor higher_is_better)
    as (ranking & -> & Hlen).
  case_bool_decide.
  - eexists [_]. split; [reflexivity|]. split; [reflexivity|].
    constructor; [|constructor]. cbn. rewrite length_fmap. auto.
  - exists []. rewrite app_nil_r. split; [reflexivity|].
    split; [reflexivity | constructor].
Qed.

Lemma best_performer_is_company (c : PeerComparison.t) :
  PeerComparison.values c <> [] ->
  length (PeerComparison.companies c) = length (PeerComparison.values c) ->
  exists best,
    PeerComparison.best_performer c = Some best /\
    best ∈ PeerComparison.companies c.
Proof.
  intros Hne Hlen.
  destruct (best_performer_first_max c Hne Hlen)
    as (i & name & v & Hbest & Hname & _).
  exists name. split; [exact Hbest|].
  eapply list_elem_of_lookup_2, Hname.
Qed.

Lemma dict_set_zero (d : list (string * nat)) (code : string) :
  Forall (fun item => snd item = 0%nat) d ->
  Forall (fun item => snd item = 0%nat) (PeerService.dict_set d code 0%nat).
Proof.
  induction 1 as [|[k v] d Hv Hd IH]; simpl.
  - repeat constructor.
  - destruct (String.eqb k code); constructor; auto.
Qed.

(** The counts before any point is given: the first code comes first and
    every count is 0. *)
Lemma initial_counts (code : string) (stock_codes : list string)
    (d : list (string * nat)) :
  Forall (fun item => snd item = 0%nat) d ->
  exists d',
    fold_left (fun d code => PeerService.dict_set d code 0%nat) stock_codes
      ((code, 0%nat) :: d) = (code, 0%nat) :: d' /\
    Forall (fun item => snd item = 0%nat) d'.
Proof.
  revert d. induction stock_codes as [|c rest IH]; intros d Hd; simpl.
  - eauto.
  - destruct (String.eqb code c); [apply IH, Hd|].
    apply IH. now apply dict_set_zero.
Qed.

Lemma max_by_key_all_zero (item : string * nat) (d : list (string * nat)) :
  snd item = 0%nat -> Forall (fun item => snd item = 0%nat) d ->
  PyList.max_by_key snd (item :: d) = Some item.
Proof.
  intros Hitem Hd. unfold PyList.max_by_key. f_equal.
  induction Hd as [|x d Hx Hd IH]; simpl; [reflexivity|].
  rewrite Hitem, Hx. simpl. exact IH.
Qed.

Lemma credit_first_no_overlap (d : list (string * nat)) (best : string)
    (stock_codes : list string) :
  (forall code, code ∈ stock_codes ->
     PyStr.isin code best = false /\ PyStr.isin best code = false) ->
  PeerService.credit_first d best stock_codes = d.
Proof.
  induction stock_codes as [|c rest IH]; intros H; simpl; [reflexivity|].
  destruct (H c) as [-> ->]; [left|]. simpl.
  apply IH. intros code Hin. apply H. now right.
Qed.

Lemma generate_summary_Some (comparisons : list PeerComparison.t)
    (stock_codes : list string) :
  Forall (fun c => length (PeerComparison.companies c)
                   = length (PeerComparison.values c)) comparisons ->
  is_Some (PeerService._generate_summary comparisons stock_codes).
Proof.
  intros Hall. unfold PeerService._generate_summary. cbv zeta.
  generalize (fold_left (fun d code => PeerService.dict_set d code 0%nat)
                stock_codes []).
  induction Hall as [|c cs Hc Hcs IH]; intros d; simpl.
  - destruct d as [|item d]; [eauto|]. simpl. eauto.
  - assert (is_Some (PeerComparison.best_performer c)) as [best ->].
    { destruct (PeerComparison.values c) as [|v vs] eqn:Ev.
      - unfold PeerComparison.best_performer. rewrite Ev. eauto.
      - destruct (best_performer_is_company c) as (best & -> & _);
          [congruence | now rewrite Ev | eauto]. }
    simpl. apply IH.
Qed.

Lemma generate_summary_no_overlap (comparisons : list PeerComparison.t)
    (names : list string) (code : string) (stock_codes : list string) :
  names <> [] ->
  Forall (fun c => PeerComparison.companies c = names /\
                   length (PeerComparison.values c) = length names)
         comparisons ->
  (forall code' name, code' ∈ code :: stock_codes -> name ∈ names ->
     PyStr.isin code' name = false /\ PyStr.isin name code' = false) ->
  PeerService._generate_summary comparisons (code :: stock_codes)
  = Some ("Overall leader: " +:+ code +:+ " (top rank in 0 metrics)").
Proof.
  intros Hne Hall Hno. unfold PeerService._generate_summary. cbv zeta.
  change (fold_left (fun d code0 => PeerService.dict_set d code0 0%nat)
            (code :: stock_codes) [])
    with (fold_left (fun d code0 => PeerService.dict_set d code0 0%nat)
            stock_codes [(code, 0%nat)]).
  destruct (initial_counts code stock_codes []) as (d' & -> & Hzero);
    [constructor|].
  assert (fold_left
            (fun acc comp =>
               d ← acc;
               best ← PeerComparison.best_performer comp;
               Some (PeerService.credit_first d best (code :: stock_codes)))
            comparisons (Some ((code, 0%nat) :: d'))
          = Some ((code, 0%nat) :: d')) as ->.
  { generalize ((code, 0%nat) :: d'). intros d.
    induction Hall as [|c cs [Hc Hlen] Hcs IH]; [reflexivity|].
    cbn [fold_left mbind option_bind].
    destruct (best_performer_is_company c) as (best & -> & Hin).
    { intros Hnil. rewrite Hnil in Hlen. simpl in Hlen.
      destruct names; [congruence | discriminate]. }
    { now rewrite Hc. }
    cbn [mbind option_bind]. rewrite credit_first_no_overlap; [exact IH|].
    intros code' Hcode. apply Hno; [exact Hcode | now rewrite <- Hc]. }
  cbn [mbind option_bind].
  rewrite (max_by_key_all_zero (code, 0%nat) d' eq_refl Hzero).
  reflexivity.
Qed.

Section ComparePeers.

Import PeerService.
Variable data_loader : DataLoader.t.

(** [compare_peers] once at least two snapshots load. *)
Lemma compare_peers_loaded (stock_codes : list string) (period : string)
    (metrics : option (list string)) :
  (2 <= length (load_peers data_loader stock_codes period))%nat ->
  exists comparisons summary,
    compare_peers data_loader stock_codes period metrics
      = Some (PeerAnalysis.mk period comparisons summary) /\
    _generate_summary comparisons stock_codes = Some summary /\
    PeerComparison.metric_name <$> comparisons
      = metric_label
          <$> List.filter
                (fun name =>
                   bool_decide (name ∈ default default_metrics metrics))
                known_metrics /\
    Forall (fun c =>
              PeerComparison.companies c
                = FinancialSnapshot.company_name
                    <$> load_peers data_loader stock_codes period /\
              length (PeerComparison.values c)
                = length (load_peers data_loader stock_codes period) /\
              length (PeerComparison.ranking c)
                = length (load_peers data_loader stock_codes period))
           comparisons.
Proof.
  intros Hlen. unfold compare_peers. cbv zeta.
  set (snapshots := load_peers data_loader stock_codes period) in *.
  set (wanted := default default_metrics metrics).
  case_decide; [lia|].
  repeat match goal with
  | |- context [append_if_requested ?name wanted
                  (_compare_metric ?label snapshots ?extractor ?hib) ?cs] =>
      let added := fresh "added" in
      let Hadd := fresh "Hadd" in
      let Hname := fresh "Hname" in
      let Hshape := fresh "Hshape" in
      destruct (append_if_requested_spec name label wanted snapshots
                  extractor hib cs) as (added & Hadd & Hname & Hshape);
      rewrite Hadd; clear Hadd; cbn [mbind option_bind]
  end.
  match goal with
  | |- context [_generate_summary ?cs stock_codes] =>
      assert (Forall (fun c =>
                PeerComparison.companies c
                  = FinancialSnapshot.company_name <$> snapshots /\
                length (PeerComparison.values c) = length snapshots /\
                length (PeerComparison.ranking c) = length snapshots) cs)
        as Hall by (repeat (apply Forall_app_2; [|assumption]); constructor);
      destruct (generate_summary_Some cs stock_codes) as [summary Hsummary]
  end.
  { eapply Forall_impl; [exact Hall|]. intros c (-> & -> & _).
    now rewrite length_fmap. }
  rewrite Hsummary. cbn [mbind option_bind].
  eexists _, summary. split; [reflexivity|]. split; [exact Hsummary|].
  split; [|exact Hall].
  rewrite !fmap_app, Hname, Hname0, Hname1, Hname2, Hname3, Hname4, Hname5.
  unfold known_metrics. cbn [List.filter].
  repeat match goal with
  | |- context [bool_decide (?name ∈ wanted)] =>
      destruct (bool_decide (name ∈ wanted))
  end; reflexivity.
Qed.

(** [compare_peers] answers exactly when at least two of the codes have a
    snapshot for the period.  Its comparisons are those of the requested
    names it knows, always in its own order (gross, operating and net
    margin, ROE, ROA, debt ratio, current ratio) whatever the order of the
    request: names it does not know are ignored and a repeated name is
    compared once.  Without a request there are six comparisons, the current
    ratio not among them.  Every comparison lists the loaded companies in
    the order of the codes, with one value and one rank for each. *)
Theorem compare_peers_shape (stock_codes : list string) (period : string)
    (metrics : option (list string)) :
  (is_Some (compare_peers data_loader stock_codes period metrics)
   <-> (2 <= length (load_peers data_loader stock_codes period))%nat) /\
  (forall analysis,
     compare_peers data_loader stock_codes period metrics = Some analysis ->
     PeerAnalysis.period analysis = period /\
     PeerComparison.metric_name <$> PeerAnalysis.comparisons analysis
       = metric_label
           <$> List.filter
                 (fun name =>
                    bool_decide (name ∈ default default_metrics metrics))
                 known_metrics /\
     (metrics = None ->
      PeerComparison.metric_name <$> PeerAnalysis.comparisons analysis
        = ["Gross Margin (%)"; "Operating Margin (%)"; "Net Margin (%)";
           "ROE (%)"; "ROA (%)"; "Debt Ratio (%)"]) /\
     Forall (fun c =>
               PeerComparison.companies c
                 = FinancialSnapshot.company_name
                     <$> load_peers data_loader stock_codes period /\
               length (PeerComparison.values c)
                 = length (load_peers data_loader stock_codes period) /\
               length (PeerComparison.ranking c)
                 = length (load_peers data_loader stock_codes period))
            (PeerAnalysis.comparisons analysis)).
Proof.
  destruct (decide (2 <= length (load_peers data_loader stock_codes period))%nat)
    as [Hlen|Hshort].
  - destruct (compare_peers_loaded stock_codes period metrics Hlen)
      as (comparisons & summary & Hresult & _ & Hnames & Hall).
    rewrite Hresult. split; [split; eauto|].
    intros analysis [= <-]. cbn [PeerAnalysis.period PeerAnalysis.comparisons].
    split; [reflexivity|]. split; [exact Hnames|]. split; [|exact Hall].
    intros ->. rewrite Hnames. reflexivity.
  - assert (compare_peers data_loader stock_codes period metrics = None)
      as ->.
    { unfold compare_peers. cbv zeta. case_decide; [reflexivity | lia]. }
    split; [|discriminate]. split; [intros [? [=]] | intros; lia].
Qed.

(** When no stock code contains, or is contained in, the name of a loaded
    company, no first place is ever credited to anyone: the summary names
    the first stock code of the request as overall leader, with a top rank
    in 0 metrics, whatever the figures of the companies are. *)
Theorem leader_without_overlap (code : string) (stock_codes : list string)
    (period : string) (metrics : option (list string)) :
  (2 <= length (load_peers data_loader (code :: stock_codes) period))%nat ->
  Forall (fun code' =>
            Forall (fun snapshot =>
                      PyStr.isin code'
                        (FinancialSnapshot.company_name snapshot) = false /\
                      PyStr.isin (FinancialSnapshot.company_name snapshot)
                        code' = false)
                   (load_peers data_loader (code :: stock_codes) period))
         (code :: stock_codes) ->
  exists analysis,
    compare_peers data_loader (code :: stock_codes) period metrics
      = Some analysis /\
    PeerAnalysis.summary analysis
      = "Overall leader: " +:+ code +:+ " (top rank in 0 metrics)".
Proof.
  intros Hlen Hno.
  destruct (compare_peers_loaded (code :: stock_codes) period metrics Hlen)
    as (comparisons & summary & Hresult & Hsummary & _ & Hall).
  eexists. split; [exact Hresult|]. cbn [PeerAnalysis.summary].
  rewrite (generate_summary_no_overlap comparisons
             (FinancialSnapshot.company_name
                <$> load_peers data_loader (code :: stock_codes) period)
             code stock_codes) in Hsummary.
  - now injection Hsummary as <-.
  - intros Hnil. apply fmap_nil_inv in Hnil. rewrite Hnil in Hlen.
    simpl in Hlen. lia.
  - eapply Forall_impl; [exact Hall|]. intros c (-> & -> & _).
    split; [reflexivity | now rewrite length_fmap].
  - intros code' name Hcode Hname.
    apply list_elem_of_fmap in Hname as (snapshot & -> & Hin).
    rewrite Forall_forall in Hno. specialize (Hno code' Hcode).
    rewrite Forall_forall in Hno. exact (Hno snapshot Hin).
Qed.

End ComparePeers.

Lemma compare_peers_shape_witness :
  exists analysis,
    PeerService.compare_peers Sample.loader ["2330"; "2303"; "2409"]
      "2023Q3" (Some ["ROE"; "Price"; "Gross Margin"; "ROE"]) = Some analysis
    /\ PeerComparison.metric_name <$> PeerAnalysis.comparisons analysis
       = ["Gross Margin (%)"; "ROE (%)"].
Proof.
  destruct (PeerService.compare_peers Sample.loader ["2330"; "2303"; "2409"]
              "2023Q3" (Some ["ROE"; "Price"; "Gross Margin"; "ROE"]))
    as [analysis|] eqn:E; [|vm_compute in E; discriminate].
  exists analysis. split; [reflexivity|].
  exact (proj1 (proj2 (proj2 (compare_peers_shape Sample.loader
                                ["2330"; "2303"; "2409"] "2023Q3"
                                (Some ["ROE"; "Price"; "Gross Margin"; "ROE"]))
                         analysis E))).
Defined.

Lemma leader_without_overlap_witness :
  exists analysis,
    PeerService.compare_peers Sample.loader ["2409"; "2303"; "2330"]
      "2023Q3" None = Some analysis /\
    PeerAnalysis.summary analysis
      = "Overall leader: 2409 (top rank in 0 metrics)".
Proof.
  apply (leader_without_overlap Sample.loader "2409" ["2303"; "2330"]
           "2023Q3" None).
  - vm_compute. lia.
  - vm_compute. repeat constructor.
Defined.

(** ** Trend analysis *)

(** The order of [str]: what [<] decides on period labels. *)
Lemma ascii_compare_refl (a : ascii) : Ascii.compare a a = Eq.
Proof. unfold Ascii.compare. apply N.compare_refl. Qed.

Lemma ascii_compare_lt_trans (a b c : ascii) :
  Ascii.compare a b = Lt -> Ascii.compare b c = Lt -> Ascii.compare a c = Lt.
Proof.
  unfold Ascii.compare. rewrite !N.compare_lt_iff. apply N.lt_trans.
Qed.

Lemma string_compare_refl (s : string) : String.compare s s = Eq.
Proof.
  induction s as [|a s IH]; simpl; [reflexivity|].
  now rewrite ascii_compare_refl.
Qed.

Lemma string_compare_lt_trans (s1 s2 s3 : string) :
  String.compare s1 s2 = Lt -> String.compare s2 s3 = Lt ->
  String.compare s1 s3 = Lt.
Proof.
  revert s2 s3. induction s1 as [|a s1 IH]; intros [|b s2] [|c s3]; simpl;
    try discriminate; try reflexivity.
  destruct (Ascii.compare a b) eqn:Eab; try discriminate;
    destruct (Ascii.compare b c) eqn:Ebc; try discriminate; intros H12 H23.
  - apply Ascii.compare_eq_iff in Eab, Ebc. subst.
    rewrite ascii_compare_refl. eapply IH; eassumption.
  - apply Ascii.compare_eq_iff in Eab. subst. now rewrite Ebc.
  - apply Ascii.compare_eq_iff in Ebc. subst. now rewrite Eab.
  - now rewrite (ascii_compare_lt_trans a b c Eab Ebc).
Qed.

Lemma string_ltb_leb (s1 s2 : string) :
  String.ltb s1 s2 = true -> String.leb s1 s2 = true.
Proof.
  unfold String.ltb, String.leb. now destruct (String.compare s1 s2).
Qed.

Lemma string_not_ltb_leb (s1 s2 : string) :
  String.ltb s1 s2 = false -> String.leb s2 s1 = true.
Proof.
  unfold String.ltb, String.leb. rewrite (String.compare_antisym s2 s1).
  now destruct (String.compare s1 s2).
Qed.

Lemma string_leb_trans (s1 s2 s3 : string) :
  String.leb s1 s2 = true -> String.leb s2 s3 = true ->
  String.leb s1 s3 = true.
Proof.
  unfold String.leb.
  destruct (String.compare s1 s2) eqn:E12; try discriminate;
    destruct (String.compare s2 s3) eqn:E23; try discriminate; intros _ _.
  - apply String.compare_eq_iff in E12, E23. subst.
    now rewrite string_compare_refl.
  - apply String.compare_eq_iff in E12. subst. now rewrite E23.
  - apply String.compare_eq_iff in E23. subst. now rewrite E12.
  - now rewrite (string_compare_lt_trans s1 s2 s3 E12 E23).
Qed.

Section SortedByText.

Context {A : Type}.
Variable key : A -> string.

Local Abbreviation ascending :=
  (fun a b : A => String.leb (key a) (key b) = true).

Lemma insert_text_perm (x : A) (l : list A) :
  PySort.insert_text key x l ≡ₚ x :: l.
Proof.
  induction l as [|y ys IH]; simpl; [reflexivity|].
  destruct (String.ltb (key y) (key x)); [|reflexivity].
  rewrite IH. apply Permutation_swap.
Qed.

Lemma sorted_text_perm (l : list A) : PySort.sorted_text key l ≡ₚ l.
Proof.
  induction l as [|x l IH]; simpl; [reflexivity|].
  rewrite insert_text_perm. now rewrite IH.
Qed.

Lemma insert_text_sorted (x : A) (l : list A) :
  StronglySorted ascending l ->
  StronglySorted ascending (PySort.insert_text key x l).
Proof.
  induction 1 as [|y ys Hs IH Hy]; simpl.
  - constructor; constructor.
  - destruct (String.ltb (key y) (key x)) eqn:E.
    + constructor; [exact IH|].
      rewrite insert_text_perm. constructor; [|exact Hy].
      now apply string_ltb_leb.
    + apply string_not_ltb_leb in E.
      constructor; [constructor; assumption|].
      constructor; [exact E|].
      eapply Forall_impl; [exact Hy|]. intros z Hz. cbv beta in *.
      eapply string_leb_trans; eassumption.
Qed.

Lemma sorted_text_sorted (l : list A) :
  StronglySorted ascending (PySort.sorted_text key l).
Proof.
  induction l as [|x l IH]; simpl; [constructor|].
  now apply insert_text_sorted.
Qed.

End SortedByText.

Lemma trend_direction_sufficient (m : TrendMetric.t) :
  (2 <= length (TrendMetric.values m))%nat ->
  TrendMetric.trend_direction m ∈ ["improving"; "declining"; "stable"].
Proof.
  intros H. unfold TrendMetric.trend_direction.
  case_decide; [lia|].
  destruct (TrendMetric.all_steps _ _); [repeat constructor|].
  destruct (TrendMetric.all_steps _ _); repeat constructor.
Qed.

Lemma trend_direction_insufficient (m : TrendMetric.t) :
  (length (TrendMetric.values m) < 2)%nat ->
  TrendMetric.trend_direction m = "insufficient_data".
Proof. intros H. unfold TrendMetric.trend_direction. now case_decide. Qed.

Section TrendSeries.

Import TrendService.
Variable data_loader : DataLoader.t.

(** [analyze_trend] answers exactly when at least two periods are asked for
    (or, without a request, available) and at least two of them have a
    snapshot.  Its seven series are then read off the same snapshots: the
    loaded ones, rearranged so that their period labels ascend, whatever the
    order of the request.  Every series has one value for each of these
    snapshots, the company name is that of the earliest one, and no series
    is left without a direction. *)
Theorem analyze_trend_series (stock_code : string)
    (periods : option (list string)) :
  let requested := trend_periods data_loader stock_code periods in
  let loaded :=
    DataLoader.load_multiple_periods data_loader stock_code requested in
  (is_Some (analyze_trend data_loader stock_code periods)
   <-> (2 <= length requested)%nat /\ (2 <= length loaded)%nat) /\
  (forall analysis,
     analyze_trend data_loader stock_code periods = Some analysis ->
     exists snapshots,
       snapshots ≡ₚ loaded /\
       StronglySorted
         (fun a b => String.leb (FinancialSnapshot.report_period a)
                                (FinancialSnapshot.report_period b) = true)
         snapshots /\
       TrendAnalysis.stock_code analysis = stock_code /\
       head (FinancialSnapshot.company_name <$> snapshots)
         = Some (TrendAnalysis.company_name analysis) /\
       TrendAnalysis.metrics analysis
         = (fun series =>
              TrendMetric.mk (fst series)
                (FinancialSnapshot.report_period <$> snapshots)
                (snd series <$> snapshots)) <$> trend_series /\
       Forall (fun m =>
                 TrendMetric.trend_direction m
                   ∈ ["improving"; "declining"; "stable"])
              (TrendAnalysis.metrics analysis)).
Proof.
  cbv zeta. unfold analyze_trend. cbv zeta.
  set (requested := trend_periods data_loader stock_code periods).
  set (loaded :=
         DataLoader.load_multiple_periods data_loader stock_code requested).
  destruct (decide (length requested < 2)%nat) as [Hr|Hr].
  { split; [|discriminate]. split; [intros [? [=]] | intros; lia]. }
  destruct (decide (length loaded < 2)%nat) as [Hl|Hl].
  { split; [|discriminate]. split; [intros [? [=]] | intros; lia]. }
  pose proof (sorted_text_perm FinancialSnapshot.report_period loaded)
    as Hperm.
  pose proof (sorted_text_sorted FinancialSnapshot.report_period loaded)
    as Hsorted.
  set (snapshots :=
         PySort.sorted_text FinancialSnapshot.report_period loaded) in *.
  assert (length snapshots = length loaded) as Hlen by now rewrite Hperm.
  destruct snapshots as [|first rest] eqn:Es; [simpl in Hlen; lia|].
  cbn [lookup list_lookup mbind option_bind].
  split; [split; [intros _; lia | eauto]|].
  intros analysis [= <-]. exists (first :: rest).
  split; [exact Hperm|]. split; [exact Hsorted|].
  split; [reflexivity|]. split; [reflexivity|]. split; [reflexivity|].
  cbn [TrendAnalysis.metrics].
  repeat (constructor;
          [apply trend_direction_sufficient; unfold _build_metric;
           cbn [TrendMetric.values]; rewrite length_fmap, Hlen; lia|]).
  constructor.
Qed.

End TrendSeries.

Lemma analyze_trend_series_witness :
  exists analysis,
    TrendService.analyze_trend Scenarios.three_quarters "2330"
      (Some ["2023Q3"; "2023Q1"; "2023Q2"]) = Some analysis /\
    TrendAnalysis.stock_code analysis = "2330" /\
    Forall (fun m =>
              TrendMetric.trend_direction m
                ∈ ["improving"; "declining"; "stable"])
           (TrendAnalysis.metrics analysis).
Proof.
  destruct (TrendService.analyze_trend Scenarios.three_quarters "2330"
              (Some ["2023Q3"; "2023Q1"; "2023Q2"]))
    as [analysis|] eqn:E; [|vm_compute in E; discriminate].
  exists analysis. split; [reflexivity|].
  destruct (proj2 (analyze_trend_series Scenarios.three_quarters "2330"
                     (Some ["2023Q3"; "2023Q1"; "2023Q2"])) analysis E)
    as (snapshots & _ & _ & Hcode & _ & _ & Hdirections).
  split; [exact Hcode | exact Hdirections].
Defined.

(** The three lists [_generate_summary] collects. *)
Lemma classify_spec (metrics : list TrendMetric.t) :
  TrendService.classify metrics
  = (TrendMetric.metric_name
       <$> List.filter
             (fun m => String.eqb (TrendMetric.trend_direction m) "improving")
             metrics,
     TrendMetric.metric_name
       <$> List.filter
             (fun m => String.eqb (TrendMetric.trend_direction m) "declining")
             metrics,
     TrendMetric.metric_name
       <$> List.filter
             (fun m =>
                negb (String.eqb (TrendMetric.trend_direction m) "improving")
                && negb (String.eqb (TrendMetric.trend_direction m)
                           "declining"))
             metrics).
Proof.
  unfold TrendService.classify.
  enough (forall improving declining stable,
    fold_left
      (fun '(improving, declining, stable) metric =>
         if String.eqb (TrendMetric.trend_direction metric) "improving" then
           (improving ++ [TrendMetric.metric_name metric], declining, stable)
         else if String.eqb (TrendMetric.trend_direction metric) "declining"
         then
           (improving, declining ++ [TrendMetric.metric_name metric], stable)
         else
           (improving, declining, stable ++ [TrendMetric.metric_name metric]))
      metrics (improving, declining, stable)
    = (improving ++ (TrendMetric.metric_name
         <$> List.filter
               (fun m =>
                  String.eqb (TrendMetric.trend_direction m) "improving")
               metrics),
       declining ++ (TrendMetric.metric_name
         <$> List.filter
               (fun m =>
                  String.eqb (TrendMetric.trend_direction m) "declining")
               metrics),
       stable ++ (TrendMetric.metric_name
         <$> List.filter
               (fun m =>
                  negb (String.eqb (TrendMetric.trend_direction m)
                          "improving")
                  && negb (String.eqb (TrendMetric.trend_direction m)
                             "declining"))
               metrics))) as H by apply H.
  induction metrics as [|m ms IH]; intros improving declining stable.
  - simpl. now rewrite !app_nil_r.
  - cbn [fold_left List.filter].
    destruct (String.eqb (TrendMetric.trend_direction m) "improving") eqn:Ei.
    + apply String.eqb_eq in Ei. rewrite Ei. cbn [String.eqb negb andb].
      rewrite IH. cbn [fmap list_fmap]. now rewrite <- app_assoc.
    + destruct (String.eqb (TrendMetric.trend_direction m) "declining");
        cbn [negb andb]; rewrite IH; cbn [fmap list_fmap];
        now rewrite <- app_assoc.
Qed.

Lemma prefix_append (header rest : string) :
  String.prefix header (header +:+ rest) = true.
Proof.
  induction header as [|c h IH].
  - change ("" +:+ rest) with rest. now destruct rest.
  - change (String c h +:+ rest) with (String c (h +:+ rest)).
    cbn [String.prefix]. destruct (ascii_dec c c); [exact IH | congruence].
Qed.

Lemma prefix_append_append (header body rest : string) :
  String.prefix header ((header +:+ body) +:+ rest) = true.
Proof.
  induction header as [|c h IH].
  - now destruct (("" +:+ body) +:+ rest).
  - change ((String c h +:+ body) +:+ rest)
      with (String c ((h +:+ body) +:+ rest)).
    cbn [String.prefix]. destruct (ascii_dec c c); [exact IH | congruence].
Qed.

Lemma join_cons_prefix (sep header body : string) (parts : list string) :
  String.prefix header
    (PyStr.join sep ((header +:+ body) :: parts)) = true.
Proof.
  unfold PyStr.join.
  destruct parts as [|p ps]; cbn [String.concat];
    [apply prefix_append | apply prefix_append_append].
Qed.

(** A summary starts with the heading of its first list, and there is a
    list as soon as there is a metric: only an empty list of metrics gives
    the "Insufficient data" sentence.  A metric whose direction is
    "insufficient_data" (fewer than two values) is listed as stable, so that
    metrics which all lack data are summarized as "Stable: ..." with every
    name. *)
Theorem insufficient_data_reads_stable (metrics : list TrendMetric.t) :
  (metrics = [] ->
   TrendService._generate_summary metrics
   = "Insufficient data for trend analysis") /\
  (metrics <> [] ->
   String.prefix "Improving: " (TrendService._generate_summary metrics)
   || String.prefix "Declining: " (TrendService._generate_summary metrics)
   || String.prefix "Stable: " (TrendService._generate_summary metrics)
   = true) /\
  (metrics <> [] ->
   Forall (fun m => (length (TrendMetric.values m) < 2)%nat) metrics ->
   TrendService._generate_summary metrics
   = "Stable: " +:+ PyStr.join ", " (TrendMetric.metric_name <$> metrics)).
Proof.
  split; [intros ->; reflexivity|].
  unfold TrendService._generate_summary. rewrite classify_spec.
  split.
  - intros Hne.
    destruct (TrendMetric.metric_name <$> List.filter
                (fun m => String.eqb (TrendMetric.trend_direction m)
                            "improving") metrics) as [|i is_] eqn:Ei;
    destruct (TrendMetric.metric_name <$> List.filter
                (fun m => String.eqb (TrendMetric.trend_direction m)
                            "declining") metrics) as [|d ds] eqn:Ed;
    destruct (TrendMetric.metric_name <$> List.filter
                (fun m =>
                   negb (String.eqb (TrendMetric.trend_direction m)
                           "improving")
                   && negb (String.eqb (TrendMetric.trend_direction m)
                              "declining")) metrics) as [|s ss] eqn:Es;
    cbn [app];
    try (rewrite join_cons_prefix, ?orb_true_r; reflexivity).
    exfalso. apply fmap_nil_inv in Ei, Ed, Es.
    destruct metrics as [|m ms]; [congruence|].
    cbn [List.filter] in Ei, Ed, Es.
    destruct (String.eqb (TrendMetric.trend_direction m) "improving");
      [discriminate|].
    destruct (String.eqb (TrendMetric.trend_direction m) "declining");
      discriminate.
  - intros Hne Hall.
    assert (forall test,
              (forall m, (length (TrendMetric.values m) < 2)%nat ->
                         test m = false) ->
              List.filter test metrics = []) as Hnone.
    { clear Hne. intros test Htest. induction Hall as [|m ms Hm Hms IH]; simpl;
        [reflexivity|].
      rewrite (Htest m Hm). apply IH. }
    assert (forall test,
              (forall m, (length (TrendMetric.values m) < 2)%nat ->
                         test m = true) ->
              List.filter test metrics = metrics) as Hevery.
    { clear Hne Hnone. intros test Htest. induction Hall as [|m ms Hm Hms IH]; simpl;
        [reflexivity|].
      rewrite (Htest m Hm). f_equal. apply IH. }
    rewrite (Hnone (fun m => String.eqb (TrendMetric.trend_direction m)
                               "improving")),
            (Hnone (fun m => String.eqb (TrendMetric.trend_direction m)
                               "declining")),
            (Hevery (fun m =>
                       negb (String.eqb (TrendMetric.trend_direction m)
                               "improving")
                       && negb (String.eqb (TrendMetric.trend_direction m)
                                  "declining")));
      try (intros m Hm; now rewrite (trend_direction_insufficient m Hm)).
    cbn [fmap list_fmap app].
    destruct metrics as [|m ms]; [congruence|]. reflexivity.
Qed.

Lemma insufficient_data_reads_stable_witness :
  TrendService._generate_summary
    [TrendMetric.mk "EPS" ["2023Q3"] [9.65];
     TrendMetric.mk "Net Revenue" [] []]
  = "Stable: EPS, Net Revenue".
Proof.
  refine (proj2 (proj2 (insufficient_data_reads_stable _)) _ _).
  - discriminate.
  - repeat constructor.
Defined.

(** ** Capital allocation *)

Lemma share_range (amount total : Q) :
  0 <= amount <= total -> 0 < total ->
  0 <= Py.round (amount / total * 100) 1 <= 100.
Proof.
  intros [H0 H1] Ht.
  assert (0 <= amount / total) as Hlo by (apply div_nonneg; assumption).
  assert (amount / total <= 1) as Hhi by (apply div_le_one; lra).
  split.
  - apply Qle_trans with (Py.round 0 1); [discriminate|].
    apply round_mono. lra.
  - apply Qle_trans with (Py.round 100 1); [|discriminate].
    apply round_mono. lra.
Qed.

Lemma share_close (x : Q) : Qabs (Py.round x 1 - x) <= 0.05.
Proof.
  assert ((1 # 2) / inject_Z (10 ^ Z.of_nat 1) == 0.05) as <- by reflexivity.
  apply round_close.
Qed.

Section AllocationMix.

Import CapitalAllocationService.
Variable format_f : nat -> Q -> string.
Variable data_loader : DataLoader.t.

(** Once the snapshot of the period loads, [analyze] answers, and answers
    the same whatever the snapshot holds: the figures of the company are
    never looked at.  The debt change is always stored as 0.  When the five
    amounts add up to nothing positive the allocation mix is empty.  When
    they are non-negative with a positive sum, every share of the mix is a
    percentage between 0 and 100 within 0.05 of the exact share, the share
    of "debt_change" is 0 and the five shares add up to 100 within 0.25. *)
Theorem allocation_mix_is_a_breakdown (stock_code period : string)
    (dividends buybacks capex rd_expense ma_spending : Q)
    (snapshot : FinancialSnapshot.t) :
  DataLoader.load_snapshot data_loader stock_code period = Some snapshot ->
  let total := dividends + buybacks + capex + rd_expense + ma_spending in
  exists analysis,
    analyze format_f data_loader stock_code period
      dividends buybacks capex rd_expense ma_spending = Some analysis /\
    (forall other_loader : DataLoader.t,
       is_Some (DataLoader.load_snapshot other_loader stock_code period) ->
       analyze format_f other_loader stock_code period
         dividends buybacks capex rd_expense ma_spending = Some analysis) /\
    CapitalAllocationAnalysis.debt_change analysis == 0 /\
    (total <= 0 -> CapitalAllocationAnalysis.allocation_mix analysis = ∅) /\
    (0 < total -> 0 <= dividends -> 0 <= buybacks -> 0 <= capex ->
     0 <= rd_expense -> 0 <= ma_spending ->
     let share :=
       mix_get (CapitalAllocationAnalysis.allocation_mix analysis) in
     Forall (fun item =>
               0 <= share (fst item) <= 100 /\
               Qabs (share (fst item) - snd item / total * 100) <= 0.05)
            [("dividends", dividends); ("buybacks", buybacks);
             ("capex", capex); ("rd", rd_expense); ("ma", ma_spending)] /\
     share "debt_change" == 0 /\
     Qabs (share "dividends" + share "buybacks" + share "capex"
           + share "rd" + share "ma" - 100) <= 0.25).
Proof.
  intros Hload total. unfold analyze. rewrite Hload.
  cbn [mbind option_bind]. cbv zeta.
  change (Qabs 0.0) with 0.0.
  set (total_allocation :=
         dividends + buybacks + capex + rd_expense + ma_spending + 0.0).
  assert (total_allocation == total) as Htotal
    by (unfold total_allocation, total; lra).
  eexists. split; [reflexivity|].
  split.
  { intros other_loader [snapshot' ->]. reflexivity. }
  cbn [CapitalAllocationAnalysis.debt_change
       CapitalAllocationAnalysis.allocation_mix].
  split; [reflexivity|]. split.
  { intros Hle. destruct (Py.ltb 0 total_allocation) eqn:E; [|reflexivity].
    apply ltb_lt in E. lra. }
  intros Hpos Hd Hb Hc Hr Hm.
  assert (Py.ltb 0 total_allocation = true) as -> by (apply ltb_lt; lra).
  assert (0 < total_allocation) as Hpos' by lra.
  assert (forall amount,
            amount / total * 100 == amount / total_allocation * 100) as Hsame.
  { intros amount. rewrite Htotal. reflexivity. }
  cbv zeta. unfold mix_get.
  set (mix := list_to_map _).
  set (x1 := dividends / total_allocation * 100).
  set (x2 := buybacks / total_allocation * 100).
  set (x3 := capex / total_allocation * 100).
  set (x4 := rd_expense / total_allocation * 100).
  set (x5 := ma_spending / total_allocation * 100).
  assert (mix !! "dividends" = Some (Py.round x1 1)) as H1 by reflexivity.
  assert (mix !! "buybacks" = Some (Py.round x2 1)) as H2 by reflexivity.
  assert (mix !! "capex" = Some (Py.round x3 1)) as H3 by reflexivity.
  assert (mix !! "rd" = Some (Py.round x4 1)) as H4 by reflexivity.
  assert (mix !! "ma" = Some (Py.round x5 1)) as H5 by reflexivity.
  assert (mix !! "debt_change"
          = Some (Py.round (0.0 / total_allocation * 100) 1)) as H6
    by reflexivity.
  cbn [fst snd]. rewrite H1, H2, H3, H4, H5, H6.
  cbn [default from_option]. unfold id.
  split.
  { repeat (constructor;
            [split;
             [apply share_range; [unfold total_allocation; lra | exact Hpos']
             | rewrite Hsame; apply share_close]|]).
    constructor. }
  split.
  { assert (0.0 / total_allocation * 100 == 0) as Hzero by (field; lra).
    now rewrite (round_proper _ _ 1 Hzero). }
  assert (x1 + x2 + x3 + x4 + x5 == 100) as Hsum.
  { unfold x1, x2, x3, x4, x5, total_allocation. field.
    unfold total_allocation in Hpos'. lra. }
  pose proof (share_close x1) as C1. pose proof (share_close x2) as C2.
  pose proof (share_close x3) as C3. pose proof (share_close x4) as C4.
  pose proof (share_close x5) as C5.
  apply Qabs_Qle_condition in C1, C2, C3, C4, C5.
  apply Qabs_Qle_condition. split; lra.
Qed.

End AllocationMix.

Lemma allocation_mix_is_a_breakdown_witness :
  exists analysis,
    CapitalAllocationService.analyze Sample.format_f Sample.loader
      "2330" "2023Q3" 100 50 200 100 50 = Some analysis /\
    CapitalAllocationAnalysis.debt_change analysis == 0 /\
    0 <= CapitalAllocationService.mix_get
           (CapitalAllocationAnalysis.allocation_mix analysis) "capex"
      <= 100.
Proof.
  destruct (allocation_mix_is_a_breakdown Sample.format_f Sample.loader
              "2330" "2023Q3" 100 50 200 100 50 Sample.tsmc eq_refl)
    as (analysis & Hresult & _ & Hdebt & _ & Hmix).
  exists analysis. split; [exact Hresult|]. split; [exact Hdebt|].
  destruct Hmix as (Hshares & _ & _);
    [reflexivity | discriminate | discriminate | discriminate | discriminate
    | discriminate |].
  exact (proj1 (Forall_lookup_1 _ _ 2%nat ("capex", 200) Hshares eq_refl)).
Defined.
